(** * Request validation and document-update normalisation of the items API

    A shallow embedding of the validation core of the repository's four
    route files:

    - [Controllers]: [src/controllers/items.controllers.js] (the same code
      is inlined in [src/unnamed/part_001]); fields [name], [description],
      [quantity].
    - [Products]: [src/server.js]; fields [name], [price], [category].
    - [Items]: [src/unnamed/part_002]; fields [name], [price], [category].

    JavaScript values are modelled as an inductive type, objects as finite
    maps from property names to values, strings as lists of UTF-16 code
    units and numbers as binary64 floats. *)

From Stdlib Require Import ZArith NArith List Bool Floats String Ascii.
From stdpp Require Import base option list gmap fin_maps pretty.

Set Default Proof Using "Type".
Set Warnings "-register-all".

(** ** Strings *)

(** A JavaScript string is a sequence of 16-bit code units. *)
Abbreviation jsstring := (list N).

(** Source literals are ASCII; [js] gives their code units. *)
Definition js (s : string) : jsstring :=
  List.map N_of_ascii (list_ascii_of_string s).

(** ECMAScript [WhiteSpace] and [LineTerminator] code units, the ones
    [String.prototype.trim] strips. *)
Definition is_white_space (c : N) : bool :=
  ((9 <=? c) && (c <=? 13) || (c =? 32) || (c =? 160) || (c =? 5760)
   || (8192 <=? c) && (c <=? 8202) || (c =? 8232) || (c =? 8233)
   || (c =? 8239) || (c =? 8287) || (c =? 12288) || (c =? 65279))%N.

Fixpoint trimStart (s : jsstring) : jsstring :=
  match s with
  | c :: s' => if is_white_space c then trimStart s' else s
  | [] => []
  end.

Definition trimEnd (s : jsstring) : jsstring := rev (trimStart (rev s)).

(** [s.trim()] *)
Definition trim (s : jsstring) : jsstring := trimEnd (trimStart s).

(** ** Values *)

(** The values a handler meets: what [JSON.parse] builds, [undefined], and
    the two driver types stored in documents ([Date] as milliseconds since
    the epoch, [ObjectId] as its bytes). *)
Inductive value :=
  | VUndefined
  | VNull
  | VBool (b : bool)
  | VNum (x : float)
  | VStr (s : jsstring)
  | VArr (l : list value)
  | VObj (m : gmap jsstring value)
  | VDate (ms : Z)
  | VObjectId (bytes : list N).

Abbreviation document := (gmap jsstring value).

Inductive jstype := TUndefined | TObject | TBoolean | TNumber | TString.

(** [typeof v] *)
Definition typeof (v : value) : jstype :=
  match v with
  | VUndefined => TUndefined
  | VBool _ => TBoolean
  | VNum _ => TNumber
  | VStr _ => TString
  | VNull | VArr _ | VObj _ | VDate _ | VObjectId _ => TObject
  end.

Definition jstype_eqb (a b : jstype) : bool :=
  match a, b with
  | TUndefined, TUndefined | TObject, TObject | TBoolean, TBoolean
  | TNumber, TNumber | TString, TString => true
  | _, _ => false
  end.

(** [ToBoolean]: the truthiness tested by [!v], [&&], [||] and [if]. *)
Definition truthy (v : value) : bool :=
  match v with
  | VUndefined | VNull => false
  | VBool b => b
  | VNum x => negb (PrimFloat.is_zero x || PrimFloat.is_nan x)
  | VStr s => negb (Nat.eqb (length s) 0)
  | VArr _ | VObj _ | VDate _ | VObjectId _ => true
  end.

Definition is_undefined (v : value) : bool :=
  match v with VUndefined => true | _ => false end.

(** [v ?? d] *)
Definition nullish (v d : value) : value :=
  match v with VUndefined | VNull => d | _ => v end.

(** [typeof v === "string"] and the like. *)
Definition has_type (v : value) (t : jstype) : bool := jstype_eqb (typeof v) t.

(** Own enumerable properties, as [Object.keys], [Object.entries] and the
    spread [{...v}] see them.  A map lists its keys in the map's own order,
    not in insertion order; only the choice of the key named by an
    unknown-field message depends on that order. *)
Definition own_entries (v : value) : list (jsstring * value) :=
  match v with
  | VObj m => map_to_list m
  | VArr l => imap (λ i x, (js (pretty i), x)) l
  | VStr s => imap (λ i c, (js (pretty i), VStr [c])) s
  | _ => []
  end.

Definition Object_keys (v : value) : list jsstring := (own_entries v).*1.

(** [{ ...v }] *)
Definition spread (v : value) : document := list_to_map (own_entries v).

(** [v.k] for the field names of this API ([name], [description],
    [quantity], [price], [category]): none of them is an array index or
    [length], and no prototype defines them, so only an object's own
    properties answer.  Reading a property of [undefined] or [null] throws;
    the callers below guard that case themselves. *)
Definition get (v : value) (k : jsstring) : value :=
  match v with
  | VObj m => match m !! k with Some x => x | None => VUndefined end
  | _ => VUndefined
  end.

(** [v.trim()], which throws a [TypeError] ([None]) unless [v] is a string. *)
Definition trim_method (v : value) : option jsstring :=
  match v with VStr s => Some (trim s) | _ => None end.

(** [!v.trim()]; the source evaluates it behind [typeof v !== "string" ||],
    that is on strings only. *)
Definition blank (v : value) : bool :=
  match v with
  | VStr s => negb (truthy (VStr (trim s)))
  | _ => true
  end.

(** ** The driver's identifier type

    [ObjectId.isValid], [new ObjectId(s)] and [String(oid)] belong to the
    storage driver, which is not part of the repository.  [ObjectId_new]
    answers [None] where the constructor throws. *)
Abbreviation ObjectId := (list N).

Definition is_lower_hex (c : N) : bool :=
  ((48 <=? c) && (c <=? 57) || (97 <=? c) && (c <=? 102))%N.

(** The canonical form of an identifier: 24 lower-case hex digits. *)
Definition canonical_hex (s : jsstring) : bool :=
  Nat.eqb (length s) 24 && forallb is_lower_hex s.

Class Driver := {
  ObjectId_isValid : jsstring → bool;
  ObjectId_new : jsstring → option ObjectId;
  toHexString : ObjectId → jsstring;
}.

(** The one law of the driver used below: the string of an identifier is in
    canonical form. *)
Definition canonical_strings (D : Driver) : Prop :=
  ∀ s o, ObjectId_new s = Some o → canonical_hex (toHexString o) = true.

(** ** The collection

    One collection of documents keyed by [_id].  Every call made to the
    collection is recorded in [sent], in order.  The collection answers
    every call: a call that is rejected, which the handlers answer with
    500, is outside the model.  A document is kept as it was sent: the
    driver's encoding of strings, which replaces an unpaired surrogate, is
    outside the model too. *)
Inductive request :=
  | InsertOne (doc : document)
  | UpdateOne (id : ObjectId) (set : document)
  | FindOne (id : ObjectId)
  | DeleteOne (id : ObjectId).

(** The document a request carries to the collection. *)
Definition payload (r : request) : document :=
  match r with
  | InsertOne doc => doc
  | UpdateOne _ set => set
  | FindOne _ | DeleteOne _ => ∅
  end.

Record world := World {
  coll : gmap ObjectId document;
  sent : list request;
}.

Definition M (A : Type) : Type := world → A * world.

#[export] Instance M_ret : MRet M := λ A a w, (a, w).
#[export] Instance M_bind : MBind M :=
  λ A B k m w, let '(a, w') := m w in k a w'.

(** [insertOne(doc)]: the driver assigns the identifier [newId] and stores
    the document under it; [None] is the duplicate-key fault. *)
Definition insertOne (newId : ObjectId) (doc : document) : M (option ObjectId) :=
  λ w,
    let w' := World (coll w) (sent w ++ [InsertOne doc]) in
    match coll w !! newId with
    | Some _ => (None, w')
    | None =>
        (Some newId,
         World (<[newId := <[js "_id" := VObjectId newId]> doc]> (coll w)) (sent w'))
    end.

(** [$set]: every top-level field of [set] overwrites the document's. *)
Definition apply_set (set d : document) : document := set ∪ d.

(** [updateOne({_id: id}, {$set: set})], answering [matchedCount]. *)
Definition updateOne (id : ObjectId) (set : document) : M nat :=
  λ w,
    let log := sent w ++ [UpdateOne id set] in
    match coll w !! id with
    | Some d => (1, World (<[id := apply_set set d]> (coll w)) log)
    | None => (0, World (coll w) log)
    end.

(** [findOneAndUpdate({_id: id}, {$set: set}, {returnDocument: "after"})],
    answering [result.value]. *)
Definition findOneAndUpdate (id : ObjectId) (set : document) : M (option document) :=
  λ w,
    let log := sent w ++ [UpdateOne id set] in
    match coll w !! id with
    | Some d => (Some (apply_set set d), World (<[id := apply_set set d]> (coll w)) log)
    | None => (None, World (coll w) log)
    end.

(** [findOne({_id: id})] *)
Definition findOne (id : ObjectId) : M (option document) :=
  λ w, (coll w !! id, World (coll w) (sent w ++ [FindOne id])).

(** [deleteOne({_id: id})], answering [deletedCount]. *)
Definition deleteOne (id : ObjectId) : M nat :=
  λ w,
    let log := sent w ++ [DeleteOne id] in
    match coll w !! id with
    | Some _ => (1, World (delete id (coll w)) log)
    | None => (0, World (coll w) log)
    end.

(** [findOneAndDelete({_id: id})], answering [result.value]. *)
Definition findOneAndDelete (id : ObjectId) : M (option document) :=
  λ w,
    let log := sent w ++ [DeleteOne id] in
    match coll w !! id with
    | Some d => (Some d, World (delete id (coll w)) log)
    | None => (None, World (coll w) log)
    end.

(** ** Responses *)
Inductive response :=
  | Json (status : nat) (body : value)
  | Send (status : nat).

(** A found document, or [null]. *)
Definition doc_or_null (d : option document) : value :=
  match d with Some d => VObj d | None => VNull end.

(** The HTTP status of a response. *)
Definition status (r : response) : nat :=
  match r with Json s _ => s | Send s => s end.

(** ** Conversion to numbers

    [Number(v)] on strings follows the ECMAScript [StringToNumber] grammar,
    and on objects and arrays goes through [ToPrimitive]; both belong to the
    language runtime and are taken as given.  [ObjectToNumber] answers
    [None] where the conversion throws a [TypeError]. *)
Class Conversions := {
  StringToNumber : jsstring → float;
  ObjectToNumber : value → option float;
}.

(** [Number(v)] *)
Definition Number `{!Conversions} (v : value) : option float :=
  match v with
  | VUndefined => Some PrimFloat.nan
  | VNull => Some 0%float
  | VBool b => Some (if b then 1%float else 0%float)
  | VNum x => Some x
  | VStr s => Some (StringToNumber s)
  | VArr _ | VObj _ | VDate _ | VObjectId _ => ObjectToNumber v
  end.

(** [Number.isNaN(p) || p < 0] *)
Definition nan_or_negative (p : float) : bool :=
  PrimFloat.is_nan p || PrimFloat.ltb p 0%float.

(** [v == null]-like bases, whose property reads throw. *)
Definition is_nullish (v : value) : bool :=
  match v with VUndefined | VNull => true | _ => false end.

(** [l.join(sep)] *)
Fixpoint join (sep : jsstring) (l : list jsstring) : jsstring :=
  match l with
  | [] => []
  | [x] => x
  | x :: l' => x ++ sep ++ join sep l'
  end.

(** [typeof v === "string" && v.trim() ? v.trim() : d] *)
Definition trimmed_or (v : value) (d : jsstring) : jsstring :=
  match v with
  | VStr c => if truthy (VStr (trim c)) then trim c else d
  | _ => d
  end.

(** ** Straight-line validation with early exits

    A validation step goes on with a value, answers a 400 message, or
    throws. *)
Inductive step (A : Type) :=
  | Continue (a : A)
  | Reject (msg : jsstring)
  | Throw.
Arguments Continue {A} a.
Arguments Reject {A} msg.
Arguments Throw {A}.

#[export] Instance step_ret : MRet step := λ A a, Continue a.
#[export] Instance step_bind : MBind step :=
  λ A B k m,
    match m with
    | Continue a => k a
    | Reject msg => Reject msg
    | Throw => Throw
    end.

Definition or_throw {A} (o : option A) : step A :=
  match o with Some a => Continue a | None => Throw end.

(** ** Query strings and cursors *)

(** [v === s] for a string literal [s]. *)
Definition is_string (v : value) (s : jsstring) : bool :=
  match v with VStr t => bool_decide (t = s) | _ => false end.

(** [Math.min(x, y)]: [NaN] if either is, and [-0] below [+0]. *)
Definition Math_min (x y : float) : float :=
  if PrimFloat.is_nan x || PrimFloat.is_nan y then PrimFloat.nan
  else if PrimFloat.ltb x y then x
  else if PrimFloat.ltb y x then y
  else if PrimFloat.get_sign x then x else y.

(** [s.split(sep)] for a separator of one code unit. *)
Fixpoint split_on (sep : N) (s : jsstring) : list jsstring :=
  match s with
  | [] => [[]]
  | c :: s' =>
      if N.eqb c sep then [] :: split_on sep s'
      else
        match split_on sep s' with
        | piece :: pieces => (c :: piece) :: pieces
        | [] => [[c]]
        end
  end.

(** [o[k] = v] on a plain object with a computed key: the key [__proto__]
    goes to the setter of the prototype, which ignores a number, and leaves
    the object without that property. *)
Definition assign (o : document) (k : jsstring) (v : value) : document :=
  if bool_decide (k = js "__proto__") then o else <[k := v]> o.

(** What a list handler hands to the driver: [find(filter)] with the
    [sort], [project] and [limit] it chains, where it chains them. *)
Record cursor := Cursor {
  cursor_filter : document;
  cursor_sort : option document;
  cursor_projection : option document;
  cursor_limit : option float;
}.

(** * [src/controllers/items.controllers.js]

    [src/unnamed/part_001] inlines the same functions in its routes.  The
    handlers run inside [try]/[catch], so that whatever throws becomes the
    500 answer; the database handle of [getDB] is taken as connected. *)
Module Controllers.

Definition error_body (msg : jsstring) : value :=
  VObj {[ js "error" := VStr msg ]}.

Definition server_error : response := Json 500 (error_body (js "Server error")).

Definition validateItemFull (body : value) : option jsstring :=
  let name := get body (js "name") in
  let description := get body (js "description") in
  let quantity := get body (js "quantity") in
  if negb (truthy body) || negb (has_type body TObject) then
    Some (js "Body must be a JSON object")
  else if negb (truthy name) || negb (has_type name TString) || blank name then
    Some (js "Field 'name' is required and must be a non-empty string")
  else if negb (is_undefined description) && negb (has_type description TString) then
    Some (js "Field 'description' must be a string")
  else if negb (is_undefined quantity) && negb (has_type quantity TNumber) then
    Some (js "Field 'quantity' must be a number")
  else None.

Definition allowed : list jsstring :=
  [js "name"; js "description"; js "quantity"].

Definition validateItemPartial (body : value) : option jsstring :=
  let name := get body (js "name") in
  let description := get body (js "description") in
  let quantity := get body (js "quantity") in
  if negb (truthy body) || negb (has_type body TObject) then
    Some (js "Body must be a JSON object")
  else
    let keys := Object_keys body in
    if Nat.eqb (length keys) 0 then Some (js "PATCH body cannot be empty")
    else
      match List.find (λ k, negb (bool_decide (k ∈ allowed))) keys with
      | Some k => Some (js "Unknown field '" ++ k ++ js "'")
      | None =>
          if negb (is_undefined name)
             && (negb (has_type name TString) || blank name) then
            Some (js "Field 'name' must be a non-empty string")
          else if negb (is_undefined description)
                  && negb (has_type description TString) then
            Some (js "Field 'description' must be a string")
          else if negb (is_undefined quantity)
                  && negb (has_type quantity TNumber) then
            Some (js "Field 'quantity' must be a number")
          else None
      end.

Section handlers.
Context `{!Driver}.

(** [ObjectId.isValid(id) && String(new ObjectId(id)) === id] *)
Definition isValidObjectId (id : jsstring) : option bool :=
  if ObjectId_isValid id then
    o ← ObjectId_new id; Some (bool_decide (toHexString o = id))
  else Some false.

Definition getItemById (id : jsstring) : M response :=
  match isValidObjectId id with
  | None => mret server_error
  | Some false => mret (Json 400 (error_body (js "Invalid ID")))
  | Some true =>
      match ObjectId_new id with
      | None => mret server_error
      | Some oid =>
          item ← findOne oid;
          match item with
          | None => mret (Json 404 (error_body (js "Not found")))
          | Some d => mret (Json 200 (VObj d))
          end
      end
  end.

(** The [doc] of [createItem]; [None] where [req.body.name.trim()] throws. *)
Definition doc (now1 now2 : Z) (body : value) : option document :=
  name ← trim_method (get body (js "name"));
  Some {[ js "name" := VStr name;
          js "description" := nullish (get body (js "description")) (VStr []);
          js "quantity" := nullish (get body (js "quantity")) (VNum 0);
          js "createdAt" := VDate now1;
          js "updatedAt" := VDate now2 ]}.

Definition createItem (newId : ObjectId) (now1 now2 : Z) (body : value)
  : M response :=
  match validateItemFull body with
  | Some validationError => mret (Json 400 (error_body validationError))
  | None =>
      match doc now1 now2 body with
      | None => mret server_error
      | Some doc =>
          result ← insertOne newId doc;
          match result with
          | None => mret server_error
          | Some insertedId =>
              created ← findOne insertedId;
              mret (Json 201 (doc_or_null created))
          end
      end
  end.

(** The [replacement] of [putItem]. *)
Definition replacement (now : Z) (body : value) : option document :=
  name ← trim_method (get body (js "name"));
  Some {[ js "name" := VStr name;
          js "description" := nullish (get body (js "description")) (VStr []);
          js "quantity" := nullish (get body (js "quantity")) (VNum 0);
          js "updatedAt" := VDate now ]}.

Definition putItem (now : Z) (id : jsstring) (body : value) : M response :=
  match isValidObjectId id with
  | None => mret server_error
  | Some false => mret (Json 400 (error_body (js "Invalid ID")))
  | Some true =>
      match validateItemFull body with
      | Some validationError => mret (Json 400 (error_body validationError))
      | None =>
          match replacement now body, ObjectId_new id with
          | Some replacement, Some oid =>
              matchedCount ← updateOne oid replacement;
              if Nat.eqb matchedCount 0 then
                mret (Json 404 (error_body (js "Not found")))
              else
                updated ← findOne oid;
                mret (Json 200 (doc_or_null updated))
          | _, _ => mret server_error
          end
      end
  end.

(** [{ ...req.body, updatedAt: new Date() }], then
    [if (patchDoc.name) patchDoc.name = patchDoc.name.trim()];
    [None] where [trim] is not a method of the name. *)
Definition patchDoc (now : Z) (body : value) : option document :=
  let patchDoc : document := <[js "updatedAt" := VDate now]> (spread body) in
  let name := get (VObj patchDoc) (js "name") in
  if truthy name then
    name' ← trim_method name; Some (<[js "name" := VStr name']> patchDoc)
  else Some patchDoc.

Definition patchItem (now : Z) (id : jsstring) (body : value) : M response :=
  match isValidObjectId id with
  | None => mret server_error
  | Some false => mret (Json 400 (error_body (js "Invalid ID")))
  | Some true =>
      match validateItemPartial body with
      | Some validationError => mret (Json 400 (error_body validationError))
      | None =>
          match patchDoc now body, ObjectId_new id with
          | Some patchDoc, Some oid =>
              matchedCount ← updateOne oid patchDoc;
              if Nat.eqb matchedCount 0 then
                mret (Json 404 (error_body (js "Not found")))
              else
                updated ← findOne oid;
                mret (Json 200 (doc_or_null updated))
          | _, _ => mret server_error
          end
      end
  end.

Definition deleteItem (id : jsstring) : M response :=
  match isValidObjectId id with
  | None => mret server_error
  | Some false => mret (Json 400 (error_body (js "Invalid ID")))
  | Some true =>
      match ObjectId_new id with
      | None => mret server_error
      | Some oid =>
          deletedCount ← deleteOne oid;
          if Nat.eqb deletedCount 0 then
            mret (Json 404 (error_body (js "Not found")))
          else mret (Send 204)
      end
  end.
End handlers.

End Controllers.

(** * [src/server.js] *)
Module Products.

Definition fail (msg : jsstring) : value :=
  VObj {[ js "ok" := VBool false; js "error" := VStr msg ]}.

Definition internal_error : response :=
  Json 500 (fail (js "Internal server error")).

Section handlers.
Context `{!Driver} `{!Conversions}.

(** [app.get("/api/products/:id")] *)
Definition get_by_id (id : jsstring) : M response :=
  if negb (ObjectId_isValid id) then mret (Json 400 (fail (js "Invalid id")))
  else
    match ObjectId_new id with
    | None => mret internal_error
    | Some oid =>
        product ← findOne oid;
        match product with
        | None => mret (Json 404 (fail (js "Product not found")))
        | Some d =>
            mret (Json 200 (VObj {[ js "ok" := VBool true; js "product" := VObj d ]}))
        end
    end.

(** The [doc] of [app.post("/api/products")], from its locals. *)
Definition doc (now1 now2 : Z) (name : jsstring) (p : float) (category : value)
  : document :=
  {[ js "name" := VStr name;
     js "price" := VNum p;
     js "category" := VStr (trimmed_or category (js "general"));
     js "createdAt" := VDate now1;
     js "updatedAt" := VDate now2 ]}.

(** [app.post("/api/products")]; destructuring [req.body] throws when it is
    [undefined] or [null]. *)
Definition post (newId : ObjectId) (now1 now2 : Z) (body : value) : M response :=
  if is_nullish body then mret internal_error
  else
    let name := get body (js "name") in
    let price := get body (js "price") in
    let category := get body (js "category") in
    if negb (truthy name) || negb (has_type name TString) || blank name then
      mret (Json 400 (fail (js "name is required")))
    else
      match (if negb (is_undefined price) then Number price else Some 0%float) with
      | None => mret internal_error
      | Some p =>
          if nan_or_negative p then
            mret (Json 400 (fail (js "price must be a non-negative number")))
          else
            match trim_method name with
            | None => mret internal_error
            | Some name' =>
                let doc := doc now1 now2 name' p category in
                result ← insertOne newId doc;
                match result with
                | None => mret internal_error
                | Some insertedId =>
                    let created := <[js "_id" := VObjectId insertedId]> doc in
                    mret (Json 201 (VObj {[ js "ok" := VBool true;
                                            js "product" := VObj created ]}))
                end
            end
      end.

(** The [update] object that [app.put("/api/products/:id")] fills from the
    body, before it adds [updatedAt]. *)
Definition put_update (body : value) : step document :=
  let update : document := ∅ in
  if is_nullish body then Throw
  else
    let name := get body (js "name") in
    let price := get body (js "price") in
    let category := get body (js "category") in
    update ←
      (if negb (is_undefined name) then
         if negb (has_type name TString) || blank name then
           Reject (js "name must be a non-empty string")
         else
           name' ← or_throw (trim_method name);
           Continue (<[js "name" := VStr name']> update)
       else Continue update);
    update ←
      (if negb (is_undefined price) then
         p ← or_throw (Number price);
         if nan_or_negative p then
           Reject (js "price must be a non-negative number")
         else Continue (<[js "price" := VNum p]> update)
       else Continue update);
    update ←
      (if negb (is_undefined category) then
         if negb (has_type category TString) then
           Reject (js "category must be a string")
         else
           Continue (<[js "category" := VStr (trimmed_or category (js "general"))]>
                       update)
       else Continue update);
    Continue update.

(** [app.put("/api/products/:id")] *)
Definition put (now : Z) (id : jsstring) (body : value) : M response :=
  if negb (ObjectId_isValid id) then mret (Json 400 (fail (js "Invalid id")))
  else
    match put_update body with
    | Throw => mret internal_error
    | Reject msg => mret (Json 400 (fail msg))
    | Continue update =>
        let update := <[js "updatedAt" := VDate now]> update in
        match ObjectId_new id with
        | None => mret internal_error
        | Some oid =>
            result ← findOneAndUpdate oid update;
            match result with
            | None => mret (Json 404 (fail (js "Product not found")))
            | Some d =>
                mret (Json 200 (VObj {[ js "ok" := VBool true;
                                        js "product" := VObj d ]}))
            end
        end
    end.

(** [app.delete("/api/products/:id")] *)
Definition remove (id : jsstring) : M response :=
  if negb (ObjectId_isValid id) then mret (Json 400 (fail (js "Invalid id")))
  else
    match ObjectId_new id with
    | None => mret internal_error
    | Some oid =>
        result ← findOneAndDelete oid;
        match result with
        | None => mret (Json 404 (fail (js "Product not found")))
        | Some d =>
            mret (Json 200 (VObj {[ js "ok" := VBool true;
                                    js "message" := VStr (js "Product deleted");
                                    js "product" := VObj d ]}))
        end
    end.

(** The [projection] of [app.get("/api/products")], from [req.query.fields]:
    [fields.split(",").map((f) => f.trim()).filter(Boolean)], one entry for
    each name, and [_id: 0] unless [_id] was asked for.  [split] is a method
    of strings only. *)
Definition projection_of (fields : value) : step (option document) :=
  if truthy fields then
    s ← or_throw (match fields with VStr s => Some s | _ => None end);
    let fields := List.filter (λ f, truthy (VStr f)) (List.map trim (split_on 44 s)) in
    let projection := foldl (λ projection f, assign projection f (VNum 1)) ∅ fields in
    let projection :=
      if negb (truthy (get (VObj projection) (js "_id")))
      then <[js "_id" := VNum 0]> projection else projection in
    Continue (Some projection)
  else Continue None.

(** The cursor of [app.get("/api/products")], or its 400 answer; reading
    [req.query.category] throws when the query is [undefined] or [null]. *)
Definition list_cursor (query : value) : step cursor :=
  if is_nullish query then Throw
  else
    let filter : document := ∅ in
    let filter :=
      if truthy (get query (js "category"))
      then <[js "category" := get query (js "category")]> filter else filter in
    filter ←
      (if negb (is_undefined (get query (js "minPrice"))) then
         minPrice ← or_throw (Number (get query (js "minPrice")));
         if PrimFloat.is_nan minPrice then Reject (js "minPrice must be a number")
         else Continue (<[js "price" := VObj {[ js "$gte" := VNum minPrice ]}]> filter)
       else Continue filter);
    let sortOption : option document :=
      if is_string (get query (js "sort")) (js "price")
      then Some {[ js "price" := VNum 1 ]} else None in
    projection ← projection_of (get query (js "fields"));
    Continue (Cursor filter sortOption projection None).

End handlers.
End Products.

(** * [src/unnamed/part_002] *)
Module Items.

Definition fail (msg : jsstring) : value :=
  VObj {[ js "ok" := VBool false; js "error" := VStr msg ]}.

Definition item_body (d : document) : value :=
  VObj {[ js "ok" := VBool true; js "item" := VObj d ]}.

Definition internal_error : response :=
  Json 500 (fail (js "Internal server error")).

(** Reads [body.name] and the like without a guard: throws on [undefined]
    and [null]. *)
Definition pickAllowedFields (body : value) : option document :=
  if is_nullish body then None
  else
    let out : document := ∅ in
    let out :=
      if negb (is_undefined (get body (js "name")))
      then <[js "name" := get body (js "name")]> out else out in
    let out :=
      if negb (is_undefined (get body (js "price")))
      then <[js "price" := get body (js "price")]> out else out in
    let out :=
      if negb (is_undefined (get body (js "category")))
      then <[js "category" := get body (js "category")]> out else out in
    Some out.

Section handlers.
Context `{!Driver} `{!Conversions}.

Definition isValidId (id : jsstring) : bool := ObjectId_isValid id.

(** The reads are [body?.name] and the like, and [get] answers [undefined]
    on [undefined] and [null]; [None] where [Number] throws. *)
Definition validateItemForCreate (body : value) : option (list jsstring) :=
  let errors : list jsstring := [] in
  let errors :=
    if negb (truthy body) || negb (has_type body TObject)
    then errors ++ [js "body must be a JSON object"] else errors in
  let name := get body (js "name") in
  let nameOk := truthy name && has_type name TString && negb (blank name) in
  let errors :=
    if negb nameOk then errors ++ [js "name is required (non-empty string)"]
    else errors in
  errors ←
    (if negb (is_undefined (get body (js "price"))) then
       p ← Number (get body (js "price"));
       Some (if nan_or_negative p
             then errors ++ [js "price must be a non-negative number"]
             else errors)
     else Some errors);
  let errors :=
    if negb (is_undefined (get body (js "category")))
       && negb (has_type (get body (js "category")) TString)
    then errors ++ [js "category must be a string"] else errors in
  Some errors.

(** [{ ok: true, value: update }] is [Continue update] and
    [{ ok: false, error }] is [Reject error]. *)
Definition normalizeItem (body : value) (requireAllFields : bool) : step document :=
  data ← or_throw (pickAllowedFields body);
  let name := get (VObj data) (js "name") in
  let price := get (VObj data) (js "price") in
  let category := get (VObj data) (js "category") in
  if requireAllFields && is_undefined name then
    Reject (js "PUT requires full item: name is required")
  else
    let update : document := ∅ in
    update ←
      (if negb (is_undefined name) then
         if negb (has_type name TString) || blank name then
           Reject (js "name must be a non-empty string")
         else
           name' ← or_throw (trim_method name);
           Continue (<[js "name" := VStr name']> update)
       else Continue update);
    update ←
      (if negb (is_undefined price) then
         p ← or_throw (Number price);
         if nan_or_negative p then
           Reject (js "price must be a non-negative number")
         else Continue (<[js "price" := VNum p]> update)
       else Continue update);
    update ←
      (if negb (is_undefined category) then
         if negb (has_type category TString) then
           Reject (js "category must be a string")
         else
           Continue (<[js "category" := VStr (trimmed_or category (js "general"))]>
                       update)
       else Continue update);
    Continue update.

(** The [doc] of [app.post("/api/items")]; [None] where [trim] or [Number]
    throws. *)
Definition doc (now : Z) (body : value) : option document :=
  name ← trim_method (get body (js "name"));
  price ← (if negb (is_undefined (get body (js "price")))
           then Number (get body (js "price")) else Some 0%float);
  let category := trimmed_or (get body (js "category")) (js "general") in
  Some {[ js "name" := VStr name;
          js "price" := VNum price;
          js "category" := VStr category;
          js "createdAt" := VDate now;
          js "updatedAt" := VDate now ]}.

(** [app.post("/api/items")] *)
Definition post (newId : ObjectId) (now : Z) (body : value) : M response :=
  match validateItemForCreate body with
  | None => mret internal_error
  | Some errors =>
      if negb (Nat.eqb (length errors) 0) then
        mret (Json 400 (fail (join (js "; ") errors)))
      else
        match doc now body with
        | None => mret internal_error
        | Some doc =>
            result ← insertOne newId doc;
            match result with
            | None => mret internal_error
            | Some insertedId =>
                mret (Json 201 (item_body (<[js "_id" := VObjectId insertedId]> doc)))
            end
        end
  end.

(** The [fullDoc] of [app.put("/api/items/:id")]. *)
Definition fullDoc (now : Z) (value : document) : document :=
  {[ js "name" := get (VObj value) (js "name");
     js "price" :=
       (if negb (is_undefined (get (VObj value) (js "price")))
        then get (VObj value) (js "price") else VNum 0%float);
     js "category" :=
       (if negb (is_undefined (get (VObj value) (js "category")))
        then get (VObj value) (js "category") else VStr (js "general"));
     js "updatedAt" := VDate now ]}.

(** [app.put("/api/items/:id")] *)
Definition put (now : Z) (id : jsstring) (body : value) : M response :=
  if negb (isValidId id) then mret (Json 400 (fail (js "Invalid id")))
  else
    match normalizeItem body true with
    | Throw => mret internal_error
    | Reject error => mret (Json 400 (fail error))
    | Continue value =>
        match ObjectId_new id with
        | None => mret internal_error
        | Some oid =>
            result ← findOneAndUpdate oid (fullDoc now value);
            match result with
            | None => mret (Json 404 (fail (js "Item not found")))
            | Some d => mret (Json 200 (item_body d))
            end
        end
    end.

(** [app.patch("/api/items/:id")] *)
Definition patch (now : Z) (id : jsstring) (body : value) : M response :=
  if negb (isValidId id) then mret (Json 400 (fail (js "Invalid id")))
  else
    match normalizeItem body false with
    | Throw => mret internal_error
    | Reject error => mret (Json 400 (fail error))
    | Continue update =>
        if Nat.eqb (length (Object_keys (VObj update))) 0 then
          mret (Json 400 (fail (js "PATCH requires at least one field")))
        else
          let update := <[js "updatedAt" := VDate now]> update in
          match ObjectId_new id with
          | None => mret internal_error
          | Some oid =>
              result ← findOneAndUpdate oid update;
              match result with
              | None => mret (Json 404 (fail (js "Item not found")))
              | Some d => mret (Json 200 (item_body d))
              end
          end
    end.

(** [app.get("/api/items/:id")] *)
Definition get_by_id (id : jsstring) : M response :=
  if negb (isValidId id) then mret (Json 400 (fail (js "Invalid id")))
  else
    match ObjectId_new id with
    | None => mret internal_error
    | Some oid =>
        item ← findOne oid;
        match item with
        | None => mret (Json 404 (fail (js "Item not found")))
        | Some d => mret (Json 200 (item_body d))
        end
    end.

(** [app.delete("/api/items/:id")] *)
Definition remove (id : jsstring) : M response :=
  if negb (isValidId id) then mret (Json 400 (fail (js "Invalid id")))
  else
    match ObjectId_new id with
    | None => mret internal_error
    | Some oid =>
        result ← findOneAndDelete oid;
        match result with
        | None => mret (Json 404 (fail (js "Item not found")))
        | Some _ => mret (Send 204)
        end
    end.

(** [Math.min(Number(limit) || 50, 200)], where [limit] is [50] when the
    query has none. *)
Definition lim (limit : value) : option float :=
  let limit := if is_undefined limit then VNum 50 else limit in
  n ← Number limit;
  Some (Math_min (if truthy (VNum n) then n else 50%float) 200%float).

(** The cursor of [app.get("/api/items")], or its 400 answer; destructuring
    [req.query] throws when it is [undefined] or [null]. *)
Definition list_cursor (query : value) : step cursor :=
  if is_nullish query then Throw
  else
    let category := get query (js "category") in
    let minPrice := get query (js "minPrice") in
    let sort := get query (js "sort") in
    let filter : document := ∅ in
    let filter :=
      if truthy category then <[js "category" := category]> filter else filter in
    filter ←
      (if negb (is_undefined minPrice) then
         mp ← or_throw (Number minPrice);
         if PrimFloat.is_nan mp then Reject (js "minPrice must be a number")
         else Continue (<[js "price" := VObj {[ js "$gte" := VNum mp ]}]> filter)
       else Continue filter);
    let sortOption : document :=
      if is_string sort (js "price") then {[ js "price" := VNum 1 ]}
      else {[ js "createdAt" := VNum (-1) ]} in
    lim ← or_throw (lim (get query (js "limit")));
    Continue (Cursor filter (Some sortOption) None (Some lim)).

End handlers.
End Items.

(** * The routes

    The routes of the three servers that read or write one document.  A
    call carries what Express hands to the handler, the path parameter and
    the parsed body, and what the run draws: the identifier the driver
    gives to an inserted document and the times of [new Date()]. *)
Inductive api := ItemsController | ProductsServer | ItemsServer.

Inductive call :=
  | Get (id : jsstring)
  | Post (newId : ObjectId) (now1 now2 : Z) (body : value)
  | Put (now : Z) (id : jsstring) (body : value)
  | Patch (now : Z) (id : jsstring) (body : value)
  | Delete (id : jsstring).

Section routes.
Context `{!Driver} `{!Conversions}.

(** [router.get("/:id", getItemById)] and the like, and the [app.get],
    [app.post], [app.put], [app.patch] and [app.delete] of the two servers.
    [src/server.js] has no [PATCH] route: the call falls to its last
    handler.  [src/unnamed/part_002] takes the time once for a new item. *)
Definition handle (a : api) (c : call) : M response :=
  match a, c with
  | ItemsController, Get id => Controllers.getItemById id
  | ItemsController, Post newId now1 now2 body =>
      Controllers.createItem newId now1 now2 body
  | ItemsController, Put now id body => Controllers.putItem now id body
  | ItemsController, Patch now id body => Controllers.patchItem now id body
  | ItemsController, Delete id => Controllers.deleteItem id
  | ProductsServer, Get id => Products.get_by_id id
  | ProductsServer, Post newId now1 now2 body => Products.post newId now1 now2 body
  | ProductsServer, Put now id body => Products.put now id body
  | ProductsServer, Patch _ _ _ =>
      mret (Json 404 (Products.fail (js "Route not found")))
  | ProductsServer, Delete id => Products.remove id
  | ItemsServer, Get id => Items.get_by_id id
  | ItemsServer, Post newId now1 _ body => Items.post newId now1 body
  | ItemsServer, Put now id body => Items.put now id body
  | ItemsServer, Patch now id body => Items.patch now id body
  | ItemsServer, Delete id => Items.remove id
  end.

End routes.

(** * Vocabulary of the properties *)

(** From [w] to [w'] the handler sent requests that carry only keys of [F]. *)
Definition sends_only (F : gset jsstring) (w w' : world) : Prop :=
  ∃ reqs, sent w' = sent w ++ reqs
          ∧ Forall (λ q, dom (payload q) ⊆ F) reqs.

(** From [w] to [w'] one [$set] was applied to the document [oid], if there
    is one, and nothing else was written. *)
Definition set_on (oid : ObjectId) (r : document) (w w' : world) : Prop :=
  coll w' = alter (apply_set r) oid (coll w)
  ∧ ∃ tail, sent w' = sent w ++ UpdateOne oid r :: tail
            ∧ Forall (λ q, payload q = ∅) tail.

(** From [w] to [w'] no document appears or disappears, and every field
    outside [F] keeps its value. *)
Definition frame (F : gset jsstring) (w w' : world) : Prop :=
  dom (coll w') = dom (coll w)
  ∧ ∀ oid d d' k,
      coll w !! oid = Some d → coll w' !! oid = Some d' → k ∉ F →
      d' !! k = d !! k.


(** The handler refused the request: a 400 or a 500, and the world as it
    was. *)
Definition refused (res : response * world) (w : world) : Prop :=
  (status res.1 = 400 ∨ status res.1 = 500) ∧ res.2 = w.

(** The handler applied the [$set] of [r] to the document [oid]: it answers
    200 with the document after the update, wrapped by [wrap], and this is
    the document now stored; or there is no such document, it answers 404
    and the collection is as it was. *)
Definition answers_update (wrap : document → value) (oid : ObjectId)
    (r : document) (w : world) (res : response * world) : Prop :=
  match coll w !! oid with
  | Some d =>
      res.1 = Json 200 (wrap (apply_set r d))
      ∧ coll res.2 = <[oid := apply_set r d]> (coll w)
  | None => status res.1 = 404 ∧ coll res.2 = coll w
  end.

(** A string that is not empty and has no white space at either end. *)
Definition trimmed (t : jsstring) : Prop := t ≠ [] ∧ trim t = t.

(** The body of a 200 answer that carries the document [d]. *)
Definition found (a : api) (d : document) : value :=
  match a with
  | ItemsController => VObj d
  | ProductsServer => VObj {[ js "ok" := VBool true; js "product" := VObj d ]}
  | ItemsServer => Items.item_body d
  end.

(** The path parameter [id] passes the check the routes of [a] make, and
    the driver builds [oid] from it. *)
Definition accepts `{!Driver} (a : api) (id : jsstring) (oid : ObjectId) : Prop :=
  ObjectId_new id = Some oid
  ∧ match a with
    | ItemsController => Controllers.isValidObjectId id = Some true
    | ProductsServer | ItemsServer => ObjectId_isValid id = true
    end.

(** [c] is a [PUT] or a [PATCH] of [id]. *)
Definition update_of (id : jsstring) (c : call) : Prop :=
  ∃ now body, c = Put now id body ∨ c = Patch now id body.

(** The body of a call, if it has one. *)
Definition body_of (c : call) : value :=
  match c with
  | Post _ _ _ body | Put _ _ body | Patch _ _ body => body
  | Get _ | Delete _ => VUndefined
  end.

(** No property of the body is [undefined], as in every body parsed from
    JSON. *)
Definition defined_fields (body : value) : bool :=
  forallb (λ kv, negb (is_undefined kv.2)) (own_entries body).

(** What the handlers keep of each field they write: a name and a category
    are trimmed strings that are not empty, a description is a string, a
    quantity is a number, a price is a number that is neither [NaN] nor
    negative. *)
Definition field_ok (k : jsstring) (v : value) : bool :=
  if bool_decide (k = js "name") || bool_decide (k = js "category") then
    match v with
    | VStr t => truthy (VStr t) && bool_decide (trim t = t)
    | _ => false
    end
  else if bool_decide (k = js "description") then has_type v TString
  else if bool_decide (k = js "quantity") then has_type v TNumber
  else if bool_decide (k = js "price") then
    match v with VNum p => negb (nan_or_negative p) | _ => false end
  else true.

Definition well_typed (d : document) : bool :=
  forallb (λ kv, field_ok kv.1 kv.2) (map_to_list d).

(** Every document of the collection keeps the field rules. *)
Definition keeps_field_rules (w : world) : bool :=
  forallb (λ e, well_typed e.2) (map_to_list (coll w)).

(** * A reference driver and runtime

    An instance of the driver's interface modelled on its 4.x and 5.x lines
    (the ones whose [findOneAndUpdate] answers [result.value], as the
    sources expect): a string is an identifier when it is 24 hex digits of
    either case, or 12 characters of one byte each taken as the raw bytes;
    [isValid] tries the constructor. *)
Module Reference.

Definition is_hex_digit (c : N) : bool :=
  ((48 <=? c) && (c <=? 57) || (97 <=? c) && (c <=? 102)
   || (65 <=? c) && (c <=? 70))%N.

Definition checkForHexRegExp (s : jsstring) : bool :=
  Nat.eqb (length s) 24 && forallb is_hex_digit s.

Definition hex_value (c : N) : N :=
  (if (48 <=? c) && (c <=? 57) then c - 48
   else if (97 <=? c) && (c <=? 102) then c - 87
   else if (65 <=? c) && (c <=? 70) then c - 55
   else 0)%N.

Fixpoint fromHex (s : jsstring) : list N :=
  match s with
  | a :: b :: s' => (16 * hex_value a + hex_value b)%N :: fromHex s'
  | _ => []
  end.

Definition hex_digit (n : N) : N := (if n <? 10 then 48 + n else 87 + n)%N.

Definition toHex (bytes : list N) : jsstring :=
  flat_map (λ b, [hex_digit (b / 16 mod 16); hex_digit (b mod 16)]%N) bytes.

Definition construct (s : jsstring) : option ObjectId :=
  if checkForHexRegExp s then Some (fromHex s)
  else if Nat.eqb (length s) 12 && forallb (λ c, c <? 128)%N s then Some s
  else None.

#[export] Instance driver : Driver := {|
  ObjectId_isValid s := bool_decide (is_Some (construct s));
  ObjectId_new := construct;
  toHexString := toHex;
|}.

(** A runtime for bodies that hold no string, array or object in a numeric
    field: it is never consulted on the bodies used below, and answers
    [NaN] and [TypeError] otherwise. *)
#[export] Instance conversions : Conversions := {|
  StringToNumber _ := PrimFloat.nan;
  ObjectToNumber _ := None;
|}.

End Reference.

(** * Properties *)

(** ** The reference driver keeps the driver's law *)
Module ReferenceFacts.
Import Reference.

Lemma hex_digit_lower n : (n < 16)%N → is_lower_hex (hex_digit n) = true.
Proof.
  intros Hn. unfold is_lower_hex, hex_digit.
  destruct (N.ltb_spec n 10);
    repeat match goal with
           | |- context [(?a <=? ?b)%N] => destruct (N.leb_spec a b)
           end; simpl; try reflexivity; lia.
Qed.

Lemma toHex_lower bytes : forallb is_lower_hex (toHex bytes) = true.
Proof.
  induction bytes as [|b bytes IH]; [reflexivity|].
  cbn [toHex flat_map app forallb]. fold (toHex bytes).
  rewrite !hex_digit_lower, IH; [reflexivity| |];
    apply N.mod_upper_bound; discriminate.
Qed.

Lemma toHex_length bytes : length (toHex bytes) = 2 * length bytes.
Proof.
  induction bytes as [|b bytes IH]; [reflexivity|].
  cbn [toHex flat_map app length]. fold (toHex bytes). lia.
Qed.

Lemma fromHex_length s n : length s = 2 * n → length (fromHex s) = n.
Proof.
  revert s. induction n as [|n IH]; intros s Hs.
  - destruct s; [reflexivity | discriminate].
  - destruct s as [|a [|b s]]; simpl in Hs; try lia.
    cbn [fromHex length]. rewrite IH; lia.
Qed.

Lemma construct_canonical s o :
  construct s = Some o → canonical_hex (toHex o) = true.
Proof.
  unfold construct, canonical_hex, checkForHexRegExp. intros Hc.
  rewrite toHex_lower, andb_true_r, toHex_length.
  destruct (Nat.eqb_spec (length s) 24) as [H24|_]; simpl in Hc.
  - destruct (forallb is_hex_digit s); simpl in Hc.
    + injection Hc as <-. rewrite (fromHex_length s 12); [reflexivity | lia].
    + rewrite H24 in Hc. discriminate.
  - destruct (Nat.eqb_spec (length s) 12) as [H12|_]; simpl in Hc; [|discriminate].
    destruct (forallb _ s); [|discriminate].
    injection Hc as <-. rewrite H12. reflexivity.
Qed.

Lemma driver_canonical : canonical_strings driver.
Proof. intros s o. apply construct_canonical. Qed.

End ReferenceFacts.

(** ** Strings and reads *)

Lemma truthy_VStr s : truthy (VStr s) = true ↔ s ≠ [].
Proof. destruct s; simpl; split; first [done | discriminate | congruence]. Qed.

Lemma blank_VStr s : blank (VStr s) = false ↔ trim s ≠ [].
Proof. unfold blank. rewrite negb_false_iff. apply truthy_VStr. Qed.

Lemma nonblank_truthy s : trim s ≠ [] → truthy (VStr s) = true.
Proof. intros H. apply truthy_VStr. intros ->. by apply H. Qed.

Lemma trimmed_or_VStr c d :
  trimmed_or (VStr c) d = match trim c with [] => d | t => t end.
Proof. unfold trimmed_or, truthy. by destruct (trim c). Qed.

(** A name passes the name rule exactly when it is a string that is not
    empty once trimmed. *)
Lemma name_rule v :
  negb (truthy v) || negb (has_type v TString) || blank v = false
  ↔ ∃ s, v = VStr s ∧ trim s ≠ [].
Proof.
  split.
  - destruct v; try (cbn; rewrite ?orb_true_r; discriminate).
    rewrite !orb_false_iff. intros [_ Hb]. eexists; split; [done|].
    by apply blank_VStr.
  - intros (s & -> & Hs). rewrite nonblank_truthy by done.
    by rewrite (proj2 (blank_VStr s) Hs).
Qed.

Lemma name_rule_present v :
  negb (has_type v TString) || blank v = false ↔ ∃ s, v = VStr s ∧ trim s ≠ [].
Proof.
  split.
  - destruct v; try discriminate. cbn. intros Hb. eexists; split; [done|].
    by apply blank_VStr.
  - intros (s & -> & Hs). by rewrite (proj2 (blank_VStr s) Hs).
Qed.

Lemma is_undefined_true v : is_undefined v = true ↔ v = VUndefined.
Proof. by destruct v. Qed.

Lemma is_undefined_false v : is_undefined v = false ↔ v ≠ VUndefined.
Proof. by destruct v. Qed.

Lemma get_defined_VObj body k :
  get body k ≠ VUndefined → ∃ m, body = VObj m.
Proof. destruct body; try done. eauto. Qed.

Ltac lookups :=
  repeat first
    [ rewrite lookup_insert_eq
    | rewrite lookup_insert_ne by discriminate
    | rewrite lookup_singleton_eq
    | rewrite lookup_singleton_ne by discriminate
    | rewrite lookup_empty ].

(** Reads of the fields of an object literal. *)
Ltac reads := cbn [get]; lookups; cbn [get].

(** One run of a handler against the collection. *)
Ltac run :=
  unfold mbind, M_bind, mret, M_ret, insertOne, updateOne, findOneAndUpdate,
    findOne, deleteOne;
  cbn [coll sent].

(** The control flow of a validation: binds, boolean connectives and the
    tests whose argument is a constructor. *)
Ltac steps :=
  cbn [mbind mret step_bind step_ret option_bind option_ret or_throw
       negb andb orb is_undefined is_nullish has_type typeof jstype_eqb
       trim_method nullish].

(** ** [pickAllowedFields] *)

Lemma pick_nullish body :
  is_nullish body = false → is_Some (Items.pickAllowedFields body).
Proof. unfold Items.pickAllowedFields. intros ->. eauto. Qed.

Lemma pick_get body data k :
  Items.pickAllowedFields body = Some data →
  k ∈ [js "name"; js "price"; js "category"] →
  get (VObj data) k = get body k.
Proof.
  unfold Items.pickAllowedFields. destruct (is_nullish body); [done|].
  intros [= <-] Hk.
  destruct (is_undefined (get body (js "name"))) eqn:E1,
    (is_undefined (get body (js "price"))) eqn:E2,
    (is_undefined (get body (js "category"))) eqn:E3;
    rewrite ?is_undefined_true in *; cbn [negb];
    repeat (apply elem_of_cons in Hk as [->|Hk]); try (by inversion Hk);
    reads; try done;
    match goal with |- match ?x with _ => _ end = _ => by destruct x end.
Qed.

Lemma pick_dom body data k :
  Items.pickAllowedFields body = Some data →
  k ∈ dom data ↔
  k ∈ [js "name"; js "price"; js "category"] ∧ get body k ≠ VUndefined.
Proof.
  unfold Items.pickAllowedFields. destruct (is_nullish body); [done|].
  intros [= <-].
  destruct (is_undefined (get body (js "name"))) eqn:E1,
    (is_undefined (get body (js "price"))) eqn:E2,
    (is_undefined (get body (js "category"))) eqn:E3;
    rewrite ?is_undefined_true, ?is_undefined_false in *; cbn [negb];
    rewrite ?dom_insert_L, ?dom_empty_L; set_solver.
Qed.

(** ** What the validators let through *)

Lemma has_type_TString v : has_type v TString = true ↔ ∃ s, v = VStr s.
Proof. destruct v; split; try done; try (by intros [? [=]]); eauto. Qed.

Lemma has_type_TNumber v : has_type v TNumber = true ↔ ∃ x, v = VNum x.
Proof. destruct v; split; try done; try (by intros [? [=]]); eauto. Qed.

(** An optional field of the given type: absent, or a value of that type. *)
Lemma optional_field v t :
  negb (is_undefined v) && negb (has_type v t) = false
  ↔ v = VUndefined ∨ has_type v t = true.
Proof.
  destruct (is_undefined v) eqn:E1, (has_type v t) eqn:E2; cbn;
    rewrite ?is_undefined_true, ?is_undefined_false in *; naive_solver.
Qed.

(** Case analysis along the three field steps of [normalizeItem] and of
    the [PUT] of [src/server.js]. *)
Ltac split_undefined v :=
  let E := fresh "E" in
  destruct (is_undefined v) eqn:E;
  [apply is_undefined_true in E | apply is_undefined_false in E]; steps.

Ltac finish_update :=
  intros [= <-]; lookups; rewrite ?dom_insert_L, ?dom_empty_L;
  naive_solver set_solver.

Ltac category_step body :=
  split_undefined (get body (js "category"));
  [ finish_update
  | let Ht := fresh "Ht" in
    let c := fresh "c" in
    let Hc := fresh "Hc" in
    destruct (has_type (get body (js "category")) TString) eqn:Ht; [|done];
    apply has_type_TString in Ht as [c Hc]; steps; rewrite Hc;
    finish_update ].

Ltac price_step body :=
  split_undefined (get body (js "price"));
  [ category_step body
  | let p := fresh "p" in
    let HN := fresh "HN" in
    let Hp := fresh "Hp" in
    destruct (Number (get body (js "price"))) as [p|] eqn:HN; [|done]; steps;
    destruct (nan_or_negative p) eqn:Hp; [done|]; steps;
    category_step body ].

Ltac name_step body :=
  let Hn := fresh "Hn" in
  let s := fresh "s" in
  let Hs := fresh "Hs" in
  let Hts := fresh "Hts" in
  destruct (negb (has_type (get body (js "name")) TString)
            || blank (get body (js "name"))) eqn:Hn; [done|];
  apply name_rule_present in Hn as (s & Hs & Hts); rewrite Hs; steps.

Section let_through.
Context `{!Conversions}.

Lemma normalizeItem_Continue body mode u :
  Items.normalizeItem body mode = Continue u →
  ((get body (js "name") = VUndefined ∧ mode = false ∧ u !! js "name" = None)
   ∨ ∃ s, get body (js "name") = VStr s ∧ trim s ≠ []
          ∧ u !! js "name" = Some (VStr (trim s)))
  ∧ ((get body (js "price") = VUndefined ∧ u !! js "price" = None)
     ∨ ∃ p, get body (js "price") ≠ VUndefined
            ∧ Number (get body (js "price")) = Some p
            ∧ nan_or_negative p = false ∧ u !! js "price" = Some (VNum p))
  ∧ ((get body (js "category") = VUndefined ∧ u !! js "category" = None)
     ∨ ∃ c, get body (js "category") = VStr c
            ∧ u !! js "category" = Some (VStr (trimmed_or (VStr c) (js "general"))))
  ∧ dom u ⊆ {[ js "name"; js "price"; js "category" ]}.
Proof.
  unfold Items.normalizeItem.
  destruct (Items.pickAllowedFields body) as [data|] eqn:Hdata; [|done].
  steps. rewrite !(pick_get _ _ _ Hdata) by set_solver.
  split_undefined (get body (js "name")).
  - destruct mode; [done|]. steps. price_step body.
  - rewrite andb_false_r. steps. name_step body. price_step body.
Qed.

Lemma put_update_Continue body u :
  Products.put_update body = Continue u →
  ((get body (js "name") = VUndefined ∧ u !! js "name" = None)
   ∨ ∃ s, get body (js "name") = VStr s ∧ trim s ≠ []
          ∧ u !! js "name" = Some (VStr (trim s)))
  ∧ ((get body (js "price") = VUndefined ∧ u !! js "price" = None)
     ∨ ∃ p, get body (js "price") ≠ VUndefined
            ∧ Number (get body (js "price")) = Some p
            ∧ nan_or_negative p = false ∧ u !! js "price" = Some (VNum p))
  ∧ ((get body (js "category") = VUndefined ∧ u !! js "category" = None)
     ∨ ∃ c, get body (js "category") = VStr c
            ∧ u !! js "category" = Some (VStr (trimmed_or (VStr c) (js "general"))))
  ∧ dom u ⊆ {[ js "name"; js "price"; js "category" ]}.
Proof.
  unfold Products.put_update. destruct (is_nullish body); [done|].
  split_undefined (get body (js "name")).
  - price_step body.
  - name_step body. price_step body.
Qed.

End let_through.

Lemma validateItemFull_None body :
  Controllers.validateItemFull body = None →
  (∃ s, get body (js "name") = VStr s ∧ trim s ≠ [])
  ∧ (get body (js "description") = VUndefined
     ∨ ∃ c, get body (js "description") = VStr c)
  ∧ (get body (js "quantity") = VUndefined
     ∨ ∃ x, get body (js "quantity") = VNum x).
Proof.
  unfold Controllers.validateItemFull.
  destruct (negb (truthy body) || negb (has_type body TObject)); [done|].
  destruct (negb (truthy (get body (js "name"))) || _ || _) eqn:Hn; [done|].
  destruct (negb (is_undefined (get body (js "description"))) && _) eqn:Hd; [done|].
  destruct (negb (is_undefined (get body (js "quantity"))) && _) eqn:Hq; [done|].
  intros _. apply name_rule in Hn. apply optional_field in Hd, Hq.
  rewrite has_type_TString in Hd. rewrite has_type_TNumber in Hq. done.
Qed.

Lemma spread_VObj m : spread (VObj m) = m.
Proof. apply list_to_map_to_list. Qed.

Lemma Object_keys_VObj m k : k ∈ Object_keys (VObj m) ↔ k ∈ dom m.
Proof.
  unfold Object_keys, own_entries. rewrite elem_of_dom, list_elem_of_fmap.
  split.
  - intros ([k' v] & -> & Hin). apply elem_of_map_to_list in Hin. eauto.
  - intros [v Hv]. exists (k, v). by rewrite elem_of_map_to_list.
Qed.

Lemma validateItemPartial_None body :
  Controllers.validateItemPartial body = None →
  ∃ m, body = VObj m
    ∧ dom m ⊆ {[ js "name"; js "description"; js "quantity" ]}
    ∧ (get body (js "name") = VUndefined
       ∨ ∃ s, get body (js "name") = VStr s ∧ trim s ≠ [])
    ∧ (get body (js "description") = VUndefined
       ∨ ∃ c, get body (js "description") = VStr c)
    ∧ (get body (js "quantity") = VUndefined
       ∨ ∃ x, get body (js "quantity") = VNum x).
Proof.
  unfold Controllers.validateItemPartial.
  destruct (negb (truthy body) || negb (has_type body TObject)) eqn:Hobj; [done|].
  destruct (Nat.eqb (length (Object_keys body)) 0) eqn:Hlen; [done|].
  destruct (List.find _ (Object_keys body)) eqn:Hfind; [done|].
  destruct (negb (is_undefined (get body (js "name"))) && _) eqn:Hn; [done|].
  destruct (negb (is_undefined (get body (js "description"))) && _) eqn:Hd; [done|].
  destruct (negb (is_undefined (get body (js "quantity"))) && _) eqn:Hq; [done|].
  intros _.
  assert (Hall : ∀ k, k ∈ Object_keys body → k ∈ Controllers.allowed).
  { intros k Hk. apply list_elem_of_In in Hk.
    apply (List.find_none _ _ Hfind) in Hk.
    by apply negb_false_iff, bool_decide_eq_true in Hk. }
  assert (Hm : ∃ m, body = VObj m).
  { destruct body as [| | | |s|l|m| |]; try discriminate; [| |by eauto].
    { rewrite orb_true_r in Hobj. discriminate. }
    destruct l as [|x l]; [discriminate|].
    specialize (Hall (js (pretty 0%nat))). cbn in Hall.
    assert (Hin : js "0" ∈ Controllers.allowed) by (apply Hall; left).
    unfold Controllers.allowed in Hin. set_solver. }
  destruct Hm as [m ->]. exists m. split; [done|]. split.
  { intros k Hk. apply Object_keys_VObj, Hall in Hk.
    unfold Controllers.allowed in Hk. set_solver. }
  apply optional_field in Hd, Hq.
  rewrite has_type_TString in Hd. rewrite has_type_TNumber in Hq.
  split; [|done].
  destruct (is_undefined (get (VObj m) (js "name"))) eqn:En;
    [apply is_undefined_true in En; by left|].
  right. cbn [negb andb] in Hn. by apply name_rule_present in Hn.
Qed.

Lemma doc_full body now1 now2 s :
  get body (js "name") = VStr s →
  Controllers.doc now1 now2 body
  = Some {[ js "name" := VStr (trim s);
            js "description" := nullish (get body (js "description")) (VStr []);
            js "quantity" := nullish (get body (js "quantity")) (VNum 0);
            js "createdAt" := VDate now1;
            js "updatedAt" := VDate now2 ]}.
Proof. intros Hs. unfold Controllers.doc. by rewrite Hs. Qed.

Lemma replacement_full body now s :
  get body (js "name") = VStr s →
  Controllers.replacement now body
  = Some {[ js "name" := VStr (trim s);
            js "description" := nullish (get body (js "description")) (VStr []);
            js "quantity" := nullish (get body (js "quantity")) (VNum 0);
            js "updatedAt" := VDate now ]}.
Proof. intros Hs. unfold Controllers.replacement. by rewrite Hs. Qed.

(** The patch document of a validated body: the body's own fields with the
    name trimmed, and the time of the update. *)
Lemma patchDoc_partial body now :
  Controllers.validateItemPartial body = None →
  ∃ m, body = VObj m
    ∧ Controllers.patchDoc now body
      = Some (match m !! js "name" with
              | Some (VStr s) =>
                  <[js "name" := VStr (trim s)]> (<[js "updatedAt" := VDate now]> m)
              | _ => <[js "updatedAt" := VDate now]> m
              end).
Proof.
  intros Hv. apply validateItemPartial_None in Hv as (m & -> & _ & Hn & _).
  exists m. split; [done|]. unfold Controllers.patchDoc.
  rewrite spread_VObj. cbn [get] in *. lookups.
  destruct Hn as [Hn | (s & Hn & Hs)].
  - destruct (m !! js "name") as [v|]; [|done]. by subst v.
  - destruct (m !! js "name") as [v|]; [|done]. subst v.
    by rewrite nonblank_truthy.
Qed.

(** ** What the handlers do to the world *)

Lemma alter_lookup_Some (f : document → document) (c : gmap ObjectId document)
    oid d :
  c !! oid = Some d → <[oid := f d]> c = alter f oid c.
Proof.
  intros Hd. apply map_eq. intros i. rewrite lookup_insert, lookup_alter.
  case_decide; [subst i; by rewrite Hd | done].
Qed.

Lemma alter_lookup_None (f : document → document) (c : gmap ObjectId document)
    oid :
  c !! oid = None → c = alter f oid c.
Proof.
  intros Hd. apply map_eq. intros i. rewrite lookup_alter.
  case_decide; [subst i; by rewrite Hd | done].
Qed.

Lemma update_then_find (oid : ObjectId) (r : document) (k404 : response)
    (k200 : option document → response) (w : world) :
  set_on oid r w
    ((matchedCount ← updateOne oid r;
      if Nat.eqb matchedCount 0 then mret k404
      else updated ← findOne oid; mret (k200 updated)) w).2.
Proof.
  run. destruct (coll w !! oid) as [d|] eqn:Hd; cbn.
  - split; [by apply alter_lookup_Some|].
    exists [FindOne oid]. rewrite <- app_assoc. split; [done|]. by repeat constructor.
  - split; [by apply alter_lookup_None|]. exists []. by split.
Qed.

Lemma find_and_update (oid : ObjectId) (r : document)
    (k : option document → response) (w : world) :
  set_on oid r w ((result ← findOneAndUpdate oid r; mret (k result)) w).2.
Proof.
  run. destruct (coll w !! oid) as [d|] eqn:Hd; cbn.
  - split; [by apply alter_lookup_Some|]. exists []. by split.
  - split; [by apply alter_lookup_None|]. exists []. by split.
Qed.

Lemma set_on_sends_only (F : gset jsstring) (oid : ObjectId) (r : document)
    (w w' : world) :
  dom r ⊆ F → set_on oid r w w' → sends_only F w w'.
Proof.
  intros Hr (_ & tail & Hsent & Htail). exists (UpdateOne oid r :: tail).
  split; [done|]. constructor; [done|].
  eapply Forall_impl; [exact Htail|]. intros q ->. set_solver.
Qed.

Lemma set_on_frame (F : gset jsstring) (oid : ObjectId) (r : document)
    (w w' : world) :
  dom r ⊆ F → set_on oid r w w' → frame F w w'.
Proof.
  intros Hr (Hcoll & _). split.
  - rewrite Hcoll. apply dom_alter_L.
  - intros i d d' k Hd Hd' Hk. rewrite Hcoll, lookup_alter in Hd'.
    case_decide; [subst i | congruence].
    rewrite Hd in Hd'. injection Hd' as <-. unfold apply_set.
    apply lookup_union_r, not_elem_of_dom. set_solver.
Qed.

Lemma same_sends_only (F : gset jsstring) (w : world) : sends_only F w w.
Proof. exists []. split; [by rewrite app_nil_r | constructor]. Qed.

Lemma same_frame (F : gset jsstring) (w : world) : frame F w w.
Proof. split; [done|]. intros i d d' k Hd Hd' _. congruence. Qed.

Lemma sends_only_mono (F F' : gset jsstring) (w w' : world) :
  F ⊆ F' → sends_only F w w' → sends_only F' w w'.
Proof.
  intros HF (reqs & Hsent & Hreqs). exists reqs. split; [done|].
  eapply Forall_impl; [exact Hreqs|]. intros q Hq. set_solver.
Qed.

Lemma replacement_dom now body r :
  Controllers.replacement now body = Some r →
  dom r = {[ js "name"; js "description"; js "quantity"; js "updatedAt" ]}.
Proof.
  unfold Controllers.replacement. destruct (trim_method _); [|done].
  intros [= <-]. rewrite !dom_insert_L, dom_singleton_L. set_solver.
Qed.

Lemma doc_dom now1 now2 body d :
  Controllers.doc now1 now2 body = Some d →
  dom d = {[ js "name"; js "description"; js "quantity"; js "createdAt";
             js "updatedAt" ]}.
Proof.
  unfold Controllers.doc. destruct (trim_method _); [|done].
  intros [= <-]. rewrite !dom_insert_L, dom_singleton_L. set_solver.
Qed.

Lemma patchDoc_dom now body :
  Controllers.validateItemPartial body = None →
  ∃ m r, body = VObj m ∧ Controllers.patchDoc now body = Some r
         ∧ dom r = dom m ∪ {[ js "updatedAt" ]}
         ∧ dom r ⊆ {[ js "name"; js "description"; js "quantity"; js "updatedAt" ]}.
Proof.
  intros Hv. destruct (patchDoc_partial body now Hv) as (m & Hm & Hr).
  apply validateItemPartial_None in Hv as (m' & Hm' & Hdom & _).
  assert (m' = m) as -> by congruence.
  exists m. eexists. split; [done|]. split; [exact Hr|].
  assert (Hd : dom (match m !! js "name" with
                    | Some (VStr s) =>
                        <[js "name" := VStr (trim s)]>
                          (<[js "updatedAt" := VDate now]> m)
                    | _ => <[js "updatedAt" := VDate now]> m
                    end) = dom m ∪ {[ js "updatedAt" ]}).
  { destruct (m !! js "name") as [v|] eqn:Hn.
    - apply (elem_of_dom_2 m) in Hn.
      destruct v; rewrite !dom_insert_L; set_solver.
    - rewrite dom_insert_L. set_solver. }
  split; [done|]. rewrite Hd. set_solver.
Qed.

Lemma fullDoc_dom now u :
  dom (Items.fullDoc now u)
  = {[ js "name"; js "price"; js "category"; js "updatedAt" ]}.
Proof.
  unfold Items.fullDoc. rewrite !dom_insert_L, dom_singleton_L. set_solver.
Qed.

Lemma products_doc_dom now1 now2 name p category :
  dom (Products.doc now1 now2 name p category)
  = {[ js "name"; js "price"; js "category"; js "createdAt"; js "updatedAt" ]}.
Proof.
  unfold Products.doc. rewrite !dom_insert_L, dom_singleton_L. set_solver.
Qed.

Section effects.
Context `{!Driver} `{!Conversions}.

Lemma items_doc_dom now body d :
  Items.doc now body = Some d →
  dom d = {[ js "name"; js "price"; js "category"; js "createdAt";
             js "updatedAt" ]}.
Proof.
  unfold Items.doc. destruct (trim_method _); [|done]. steps.
  destruct (if negb _ then _ else _); [|done]. steps.
  intros [= <-]. rewrite !dom_insert_L, dom_singleton_L. set_solver.
Qed.

Lemma putItem_effect id body :
  (∀ now w, (Controllers.putItem now id body w).2 = w)
  ∨ ∃ oid s,
      ObjectId_new id = Some oid ∧ get body (js "name") = VStr s
      ∧ ∀ now w, ∃ r,
          Controllers.replacement now body = Some r
          ∧ set_on oid r w (Controllers.putItem now id body w).2.
Proof.
  unfold Controllers.putItem.
  destruct (Controllers.isValidObjectId id) as [[]|]; [|by left..].
  destruct (Controllers.validateItemFull body) eqn:Hv; [by left|].
  apply validateItemFull_None in Hv as ((s & Hs & _) & _).
  destruct (ObjectId_new id) as [oid|].
  - right. exists oid, s. do 2 (split; [done|]). intros now w.
    rewrite (replacement_full _ _ _ Hs). eexists. split; [done|].
    apply update_then_find.
  - left. intros now w. by rewrite (replacement_full _ _ _ Hs).
Qed.

Lemma patchItem_effect id body :
  (∀ now w, (Controllers.patchItem now id body w).2 = w)
  ∨ ∃ oid,
      ObjectId_new id = Some oid
      ∧ Controllers.validateItemPartial body = None
      ∧ ∀ now w, ∃ r,
          Controllers.patchDoc now body = Some r
          ∧ set_on oid r w (Controllers.patchItem now id body w).2.
Proof.
  unfold Controllers.patchItem.
  destruct (Controllers.isValidObjectId id) as [[]|]; [|by left..].
  destruct (Controllers.validateItemPartial body) eqn:Hv; [by left|].
  destruct (ObjectId_new id) as [oid|].
  - right. exists oid. do 2 (split; [done|]). intros now w.
    destruct (patchDoc_partial body now Hv) as (m & _ & ->).
    eexists. split; [done|]. apply update_then_find.
  - left. intros now w. by destruct (Controllers.patchDoc now body).
Qed.

Lemma find_and_update_effect (oid : ObjectId) (r : document)
    (k : option document → M response) (w : world) :
  (∀ res w', (k res w').2 = w') →
  set_on oid r w ((result ← findOneAndUpdate oid r; k result) w).2.
Proof.
  intros Hk. run. destruct (coll w !! oid) as [d|] eqn:Hd; rewrite Hk.
  - split; [by apply alter_lookup_Some|]. exists []. by split.
  - split; [by apply alter_lookup_None|]. exists []. by split.
Qed.

Lemma products_put_effect id body :
  (∀ now w, (Products.put now id body w).2 = w)
  ∨ ∃ oid u,
      ObjectId_new id = Some oid ∧ Products.put_update body = Continue u
      ∧ ∀ now w,
          set_on oid (<[js "updatedAt" := VDate now]> u) w
            (Products.put now id body w).2.
Proof.
  unfold Products.put.
  destruct (negb (ObjectId_isValid id)); [by left|].
  destruct (Products.put_update body) as [u| |]; [|by left..].
  destruct (ObjectId_new id) as [oid|]; [|by left].
  right. exists oid, u. do 2 (split; [done|]). intros now w.
  apply find_and_update_effect. by intros [].
Qed.

Lemma items_put_effect id body :
  (∀ now w, (Items.put now id body w).2 = w)
  ∨ ∃ oid u,
      ObjectId_new id = Some oid ∧ Items.normalizeItem body true = Continue u
      ∧ ∀ now w, set_on oid (Items.fullDoc now u) w (Items.put now id body w).2.
Proof.
  unfold Items.put.
  destruct (negb (Items.isValidId id)); [by left|].
  destruct (Items.normalizeItem body true) as [u| |]; [|by left..].
  destruct (ObjectId_new id) as [oid|]; [|by left].
  right. exists oid, u. do 2 (split; [done|]). intros now w.
  apply find_and_update_effect. by intros [].
Qed.

Lemma items_patch_effect id body :
  (∀ now w, (Items.patch now id body w).2 = w)
  ∨ ∃ oid u,
      ObjectId_new id = Some oid ∧ Items.normalizeItem body false = Continue u
      ∧ ∀ now w,
          set_on oid (<[js "updatedAt" := VDate now]> u) w
            (Items.patch now id body w).2.
Proof.
  unfold Items.patch.
  destruct (negb (Items.isValidId id)); [by left|].
  destruct (Items.normalizeItem body false) as [u| |]; [|by left..].
  destruct (Nat.eqb _ 0); [by left|].
  destruct (ObjectId_new id) as [oid|]; [|by left].
  right. exists oid, u. do 2 (split; [done|]). intros now w.
  apply find_and_update_effect. by intros [].
Qed.

End effects.

(** ** The numeric field *)
Section numeric_field.
Context `{!Conversions}.

Lemma normalizeItem_bad_price body mode p :
  get body (js "price") ≠ VUndefined →
  Number (get body (js "price")) = Some p → nan_or_negative p = true →
  (∃ msg, Items.normalizeItem body mode = Reject msg)
  ∧ ((∃ s, get body (js "name") = VStr s ∧ trim s ≠ []) →
     Items.normalizeItem body mode = Reject (js "price must be a non-negative number")).
Proof.
  intros Hdef HN Hp.
  destruct (get_defined_VObj _ _ Hdef) as [m ->].
  destruct (pick_nullish (VObj m) eq_refl) as [data Hdata].
  unfold Items.normalizeItem. rewrite Hdata. cbn [or_throw mbind step_bind].
  rewrite !(pick_get _ _ _ Hdata) by set_solver.
  apply is_undefined_false in Hdef.
  destruct (is_undefined (get (VObj m) (js "name"))) eqn:En.
  - apply is_undefined_true in En. rewrite En.
    destruct mode; steps; rewrite ?Hdef, ?HN; steps; rewrite ?Hp;
      (split; [eauto | by intros (s & [=] & _)]).
  - rewrite andb_false_r. cbn [negb].
    destruct (negb (has_type (get (VObj m) (js "name")) TString)
              || blank (get (VObj m) (js "name"))) eqn:Hn.
    + split; [eauto|]. intros Hgood. apply name_rule_present in Hgood.
      congruence.
    + apply name_rule_present in Hn as (s & -> & Hs). steps.
      rewrite Hdef, HN. steps. rewrite Hp. eauto.
Qed.

Lemma validateItemForCreate_bad_price body p :
  get body (js "price") ≠ VUndefined →
  Number (get body (js "price")) = Some p → nan_or_negative p = true →
  ∃ errors, Items.validateItemForCreate body = Some errors
            ∧ (js "price must be a non-negative number") ∈ errors.
Proof.
  intros Hdef HN Hp. apply is_undefined_false in Hdef.
  unfold Items.validateItemForCreate. rewrite Hdef, HN. cbn [negb mbind option_bind].
  rewrite Hp. eexists; split; [reflexivity|].
  repeat match goal with |- context [if ?c then _ else _] => destruct c end;
    set_solver.
Qed.

Lemma items_post_bad_price body p newId now w :
  get body (js "price") ≠ VUndefined →
  Number (get body (js "price")) = Some p → nan_or_negative p = true →
  ∃ msg, Items.post newId now body w = (Json 400 (Items.fail msg), w).
Proof.
  intros Hdef HN Hp.
  destruct (validateItemForCreate_bad_price body p) as (errors & He & Hin);
    [done..|].
  unfold Items.post. rewrite He.
  destruct errors; [by apply elem_of_nil in Hin|]. cbn. eauto.
Qed.

Lemma put_update_bad_price body p :
  get body (js "price") ≠ VUndefined →
  Number (get body (js "price")) = Some p → nan_or_negative p = true →
  (∃ msg, Products.put_update body = Reject msg)
  ∧ ((∃ s, get body (js "name") = VStr s ∧ trim s ≠ []) →
     Products.put_update body = Reject (js "price must be a non-negative number")).
Proof.
  intros Hdef HN Hp.
  destruct (get_defined_VObj _ _ Hdef) as [m ->].
  unfold Products.put_update. cbn [is_nullish].
  apply is_undefined_false in Hdef.
  destruct (is_undefined (get (VObj m) (js "name"))) eqn:En.
  - apply is_undefined_true in En. rewrite En. steps.
    rewrite Hdef, HN. steps. rewrite Hp.
    split; [eauto | by intros (s & [=] & _)].
  - cbn [negb].
    destruct (negb (has_type (get (VObj m) (js "name")) TString)
              || blank (get (VObj m) (js "name"))) eqn:Hn.
    + split; [eauto|]. intros Hgood. apply name_rule_present in Hgood.
      congruence.
    + apply name_rule_present in Hn as (s & -> & Hs). steps.
      rewrite Hdef, HN. steps. rewrite Hp. eauto.
Qed.

Lemma products_post_bad_price body p newId now1 now2 w :
  get body (js "price") ≠ VUndefined →
  Number (get body (js "price")) = Some p → nan_or_negative p = true →
  (∃ msg, Products.post newId now1 now2 body w = (Json 400 (Products.fail msg), w))
  ∧ ((∃ s, get body (js "name") = VStr s ∧ trim s ≠ []) →
     Products.post newId now1 now2 body w
     = (Json 400 (Products.fail (js "price must be a non-negative number")), w)).
Proof.
  intros Hdef HN Hp.
  destruct (get_defined_VObj _ _ Hdef) as [m ->].
  unfold Products.post. cbn [is_nullish].
  apply is_undefined_false in Hdef. rewrite Hdef, HN. cbn [negb]. rewrite Hp.
  destruct (negb (truthy (get (VObj m) (js "name")))
            || negb (has_type (get (VObj m) (js "name")) TString)
            || blank (get (VObj m) (js "name"))) eqn:Hn.
  - split; [eauto|]. intros Hgood. apply name_rule in Hgood. congruence.
  - split; eauto.
Qed.

Lemma validateItemFull_bad_quantity body :
  get body (js "quantity") ≠ VUndefined →
  typeof (get body (js "quantity")) ≠ TNumber →
  is_Some (Controllers.validateItemFull body).
Proof.
  intros Hdef Hty. unfold Controllers.validateItemFull.
  apply is_undefined_false in Hdef. rewrite Hdef.
  assert (has_type (get body (js "quantity")) TNumber = false) as ->
    by (unfold has_type; by destruct (typeof (get body (js "quantity")))).
  cbn [negb andb].
  repeat match goal with |- context [if ?c then _ else _] => destruct c end;
    eauto.
Qed.

Lemma validateItemPartial_bad_quantity body :
  get body (js "quantity") ≠ VUndefined →
  typeof (get body (js "quantity")) ≠ TNumber →
  is_Some (Controllers.validateItemPartial body).
Proof.
  intros Hdef Hty. unfold Controllers.validateItemPartial.
  apply is_undefined_false in Hdef. rewrite Hdef.
  assert (has_type (get body (js "quantity")) TNumber = false) as ->
    by (unfold has_type; by destruct (typeof (get body (js "quantity")))).
  cbn [negb andb].
  repeat match goal with
         | |- context [if ?c then _ else _] => destruct c
         | |- context [match ?c with Some _ => _ | None => _ end] => destruct c
         end; eauto.
Qed.

(** C1, as the code has it.  With [price] present in the body and
    [Number(price)] either [NaN] or negative, no price variant produces a
    payload: [normalizeItem], [validateItemForCreate], both [POST] handlers
    and the [PUT] of [src/server.js] answer a 400, and once the name rule has
    passed the message is the non-negative-number one.  With [quantity]
    present and not of type number, [validateItemFull] and
    [validateItemPartial] answer an error. *)
Theorem numeric_field_rule (body : value) :
  (∀ p,
     get body (js "price") ≠ VUndefined →
     Number (get body (js "price")) = Some p →
     nan_or_negative p = true →
     (∀ mode, ∃ msg, Items.normalizeItem body mode = Reject msg)
     ∧ (∃ errors, Items.validateItemForCreate body = Some errors
                  ∧ js "price must be a non-negative number" ∈ errors)
     ∧ (∀ newId now w,
          ∃ msg, Items.post newId now body w = (Json 400 (Items.fail msg), w))
     ∧ (∃ msg, Products.put_update body = Reject msg)
     ∧ (∀ newId now1 now2 w,
          ∃ msg, Products.post newId now1 now2 body w
                 = (Json 400 (Products.fail msg), w))
     ∧ ((∃ s, get body (js "name") = VStr s ∧ trim s ≠ []) →
        (∀ mode, Items.normalizeItem body mode
                 = Reject (js "price must be a non-negative number"))
        ∧ Products.put_update body
          = Reject (js "price must be a non-negative number")
        ∧ (∀ newId now1 now2 w,
             Products.post newId now1 now2 body w
             = (Json 400 (Products.fail
                            (js "price must be a non-negative number")), w))))
  ∧ (get body (js "quantity") ≠ VUndefined →
     typeof (get body (js "quantity")) ≠ TNumber →
     is_Some (Controllers.validateItemFull body)
     ∧ is_Some (Controllers.validateItemPartial body)).
Proof.
  split.
  - intros p Hdef HN Hp. repeat split.
    + intros mode. by apply (normalizeItem_bad_price body mode p).
    + by apply (validateItemForCreate_bad_price body p).
    + intros. by apply (items_post_bad_price body p).
    + by apply (put_update_bad_price body p).
    + intros. by apply (products_post_bad_price body p).
    + intros mode. by apply (normalizeItem_bad_price body mode p).
    + by apply (put_update_bad_price body p).
    + intros. by apply (products_post_bad_price body p).
  - intros Hdef Hty. split.
    + by apply validateItemFull_bad_quantity.
    + by apply validateItemPartial_bad_quantity.
Qed.

End numeric_field.

Lemma numeric_field_rule_witness :
  @Items.normalizeItem Reference.conversions
    (VObj {[ js "name" := VStr (js "x"); js "price" := VNum (-5)%float ]}) true
  = Reject (js "price must be a non-negative number")
  ∧ is_Some (Controllers.validateItemFull
               (VObj {[ js "name" := VStr (js "x");
                        js "quantity" := VStr (js "5") ]})).
Proof.
  split.
  - destruct (@numeric_field_rule Reference.conversions
                (VObj {[ js "name" := VStr (js "x");
                         js "price" := VNum (-5)%float ]})) as [Hprice _].
    destruct (Hprice (-5)%float) as (_ & _ & _ & _ & _ & Hname).
    + vm_compute. discriminate.
    + reflexivity.
    + reflexivity.
    + apply Hname. exists (js "x"). vm_compute.
      split; [reflexivity | discriminate].
  - destruct (@numeric_field_rule Reference.conversions
                (VObj {[ js "name" := VStr (js "x");
                         js "quantity" := VStr (js "5") ]})) as [_ Hquantity].
    apply Hquantity; vm_compute; discriminate.
Defined.

(** A negative quantity passes [validateItemFull] and is sent to the
    collection by [createItem]; a [null] price is taken as [0] by
    [app.post("/api/products")]. *)
Lemma negative_quantity_accepted :
  let body : value :=
    VObj {[ js "name" := VStr (js "x"); js "quantity" := VNum (-5)%float ]} in
  PrimFloat.ltb (-5)%float 0%float = true
  ∧ Controllers.validateItemFull body = None
  ∧ sent (Controllers.createItem [1%N] 5 6 body (World ∅ [])).2
    = [InsertOne {[ js "name" := VStr (js "x"); js "description" := VStr [];
                    js "quantity" := VNum (-5)%float;
                    js "createdAt" := VDate 5; js "updatedAt" := VDate 6 ]};
       FindOne [1%N]]
  ∧ sent (@Products.post Reference.conversions [1%N] 5 6
            (VObj {[ js "name" := VStr (js "x"); js "price" := VNull ]})
            (World ∅ [])).2
    = [InsertOne {[ js "name" := VStr (js "x"); js "price" := VNum 0%float;
                    js "category" := VStr (js "general");
                    js "createdAt" := VDate 5; js "updatedAt" := VDate 6 ]}].
Proof. repeat split; vm_compute; reflexivity. Qed.

(** ** The identifier validator *)
Section identifier.
Context `{D : !Driver}.

Lemma isValidObjectId_true id :
  Controllers.isValidObjectId id = Some true
  ↔ ObjectId_isValid id = true
    ∧ ∃ o, ObjectId_new id = Some o ∧ toHexString o = id.
Proof.
  unfold Controllers.isValidObjectId.
  destruct (ObjectId_isValid id); [|split; [done | by intros [? _]]].
  destruct (ObjectId_new id) as [o|]; cbn.
  - split.
    + intros [= Heq]. apply bool_decide_eq_true in Heq. eauto.
    + intros (_ & o' & [= <-] & Heq). by rewrite bool_decide_eq_true_2.
  - split; [done | by intros (_ & o & [=] & _)].
Qed.

(** C2, as the code has it.  [isValidObjectId] answers [true] exactly when
    the driver accepts the candidate and the string of the identifier built
    from it is the candidate itself, so it answers [true] on canonical
    strings only; [isValidId] of [part_002] is the driver's predicate alone,
    with no second test. *)
Theorem isValidObjectId_roundtrip (id : jsstring) :
  (Controllers.isValidObjectId id = Some true
   ↔ ObjectId_isValid id = true
     ∧ ∃ o, ObjectId_new id = Some o ∧ toHexString o = id)
  ∧ (canonical_strings D → canonical_hex id = false →
     Controllers.isValidObjectId id ≠ Some true)
  ∧ Items.isValidId id = ObjectId_isValid id.
Proof.
  split; [apply isValidObjectId_true | split; [|reflexivity]].
  intros Hlaw Hid Hvalid.
  apply isValidObjectId_true in Hvalid as (_ & o & Hnew & Hstr).
  apply Hlaw in Hnew. congruence.
Qed.

End identifier.

Lemma isValidObjectId_roundtrip_witness :
  @Controllers.isValidObjectId Reference.driver (js "507f1f77bcf86cd799439011")
  = Some true
  ∧ @Controllers.isValidObjectId Reference.driver (js "aaaaaaaaaaaa")
    ≠ Some true.
Proof.
  split.
  - apply (proj1 (@isValidObjectId_roundtrip Reference.driver
                    (js "507f1f77bcf86cd799439011"))).
    split; [reflexivity|]. eexists. split; reflexivity.
  - apply (proj1 (proj2 (@isValidObjectId_roundtrip Reference.driver
                           (js "aaaaaaaaaaaa")))).
    + apply ReferenceFacts.driver_canonical.
    + reflexivity.
Defined.

(** [isValidId] accepts 24 upper-case hex digits and 12 raw characters,
    neither of which is the string of the identifier it stands for. *)
Lemma isValidId_accepts_lookalikes :
  @Items.isValidId Reference.driver (js "AAAAAAAAAAAAAAAAAAAAAAAA") = true
  ∧ Reference.toHex <$> Reference.construct (js "AAAAAAAAAAAAAAAAAAAAAAAA")
    = Some (js "aaaaaaaaaaaaaaaaaaaaaaaa")
  ∧ @Items.isValidId Reference.driver (js "aaaaaaaaaaaa") = true
  ∧ Reference.toHex <$> Reference.construct (js "aaaaaaaaaaaa")
    = Some (js "616161616161616161616161")
  ∧ @Controllers.isValidObjectId Reference.driver
      (js "AAAAAAAAAAAAAAAAAAAAAAAA") = Some false
  ∧ @Controllers.isValidObjectId Reference.driver (js "aaaaaaaaaaaa")
    = Some false.
Proof. repeat split; vm_compute; reflexivity. Qed.

(** ** Partial bodies *)

Lemma validateItemPartial_empty body :
  truthy body = true → typeof body = TObject → Object_keys body = [] →
  Controllers.validateItemPartial body = Some (js "PATCH body cannot be empty").
Proof.
  intros Ht Hty Hk. unfold Controllers.validateItemPartial, has_type.
  by rewrite Ht, Hty, Hk.
Qed.

Lemma validateItemPartial_unknown body k :
  truthy body = true → typeof body = TObject →
  k ∈ Object_keys body → k ∉ Controllers.allowed →
  ∃ k', k' ∈ Object_keys body ∧ (k' ∉ Controllers.allowed)
        ∧ Controllers.validateItemPartial body
          = Some (js "Unknown field '" ++ k' ++ js "'").
Proof.
  intros Ht Hty Hk Hnot. unfold Controllers.validateItemPartial, has_type.
  rewrite Ht, Hty. cbn [negb orb jstype_eqb].
  destruct (Object_keys body) as [|k0 keys] eqn:Hkeys; [by apply elem_of_nil in Hk|].
  cbn [length Nat.eqb].
  destruct (List.find _ (k0 :: keys)) as [k'|] eqn:Hfind.
  - apply List.find_some in Hfind as [Hin Hf]. exists k'.
    apply negb_true_iff, bool_decide_eq_false in Hf.
    by rewrite list_elem_of_In.
  - apply List.find_none with (x := k) in Hfind; [|by apply list_elem_of_In].
    apply negb_false_iff, bool_decide_eq_true in Hfind. done.
Qed.

Lemma get_insert_other m k v k' :
  k ≠ k' → get (VObj (<[k := v]> m)) k' = get (VObj m) k'.
Proof. intros Hne. cbn [get]. by rewrite lookup_insert_ne. Qed.

Lemma pick_insert_unknown m k v :
  k ∉ [js "name"; js "price"; js "category"] →
  Items.pickAllowedFields (VObj (<[k := v]> m)) = Items.pickAllowedFields (VObj m).
Proof.
  intros Hk. unfold Items.pickAllowedFields.
  rewrite !get_insert_other; [done |..]; set_solver.
Qed.

Section partial_bodies.
Context `{!Driver} `{!Conversions}.

Lemma normalizeItem_no_fields body :
  is_nullish body = false →
  (∀ k, k ∈ [js "name"; js "price"; js "category"] → get body k = VUndefined) →
  Items.normalizeItem body false = Continue ∅.
Proof.
  intros Hnn Habs.
  destruct (pick_nullish body Hnn) as [data Hdata].
  unfold Items.normalizeItem. rewrite Hdata. steps.
  rewrite !(pick_get _ _ _ Hdata), !Habs by set_solver. reflexivity.
Qed.

Lemma patchItem_rejected now id body w :
  is_Some (Controllers.validateItemPartial body) →
  (Controllers.patchItem now id body w).2 = w.
Proof.
  intros [e He]. unfold Controllers.patchItem. rewrite He.
  by destruct (Controllers.isValidObjectId id) as [[]|].
Qed.

(** C3, as the code has it.  [validateItemPartial] refuses a body without
    keys and a body with a key outside [allowed], naming such a key, and
    [patchItem] then leaves the world as it was.  The [PATCH] of [part_002]
    refuses a body in which no recognised field is present, and for the
    rest does not look at other keys: [normalizeItem] answers the same with
    and without them. *)
Theorem partial_body_rule (body : value) :
  (truthy body = true → typeof body = TObject →
   (Object_keys body = [] →
    Controllers.validateItemPartial body = Some (js "PATCH body cannot be empty"))
   ∧ (∀ k, k ∈ Object_keys body → k ∉ Controllers.allowed →
      ∃ k', k' ∈ Object_keys body ∧ (k' ∉ Controllers.allowed)
            ∧ Controllers.validateItemPartial body
              = Some (js "Unknown field '" ++ k' ++ js "'")))
  ∧ (is_Some (Controllers.validateItemPartial body) →
     ∀ now id w, (Controllers.patchItem now id body w).2 = w)
  ∧ (is_nullish body = false →
     (∀ k, k ∈ [js "name"; js "price"; js "category"] → get body k = VUndefined) →
     ∀ now id w,
       Items.isValidId id = true →
       Items.patch now id body w
       = (Json 400 (Items.fail (js "PATCH requires at least one field")), w))
  ∧ (∀ m k v mode,
       body = VObj m → k ∉ [js "name"; js "price"; js "category"] →
       Items.normalizeItem (VObj (<[k := v]> m)) mode
       = Items.normalizeItem body mode).
Proof.
  repeat split.
  - by apply validateItemPartial_empty.
  - intros k. by apply validateItemPartial_unknown.
  - intros. by apply patchItem_rejected.
  - intros Hnn Habs now id w Hid. unfold Items.patch.
    rewrite Hid, normalizeItem_no_fields by done. reflexivity.
  - intros m k v mode -> Hk. unfold Items.normalizeItem.
    by rewrite pick_insert_unknown.
Qed.

End partial_bodies.

Lemma partial_body_rule_witness :
  Controllers.validateItemPartial (VObj ∅) = Some (js "PATCH body cannot be empty")
  ∧ @Items.patch Reference.driver Reference.conversions 7
      (js "507f1f77bcf86cd799439011") (VObj ∅) (World ∅ [])
    = (Json 400 (Items.fail (js "PATCH requires at least one field")),
       World ∅ []).
Proof.
  destruct (@partial_body_rule Reference.driver Reference.conversions (VObj ∅))
    as (Hcontrollers & _ & Hitems & _).
  split.
  - apply Hcontrollers; reflexivity.
  - apply Hitems; [reflexivity | | reflexivity].
    intros k _. reflexivity.
Defined.

(** The [PATCH] of [part_002] drops the key [foo] and updates the name. *)
Lemma patch_drops_unknown_field :
  let body : value :=
    VObj {[ js "name" := VStr (js "x"); js "foo" := VNum 1%float ]} in
  let id := js "507f1f77bcf86cd799439011" in
  let oid := Reference.fromHex id in
  let old : document :=
    {[ js "_id" := VObjectId oid; js "name" := VStr (js "old") ]} in
  get body (js "foo") = VNum 1%float
  ∧ @Items.normalizeItem Reference.conversions body false
    = Continue {[ js "name" := VStr (js "x") ]}
  ∧ @Items.patch Reference.driver Reference.conversions 7 id body
      (World {[ oid := old ]} [])
    = (Json 200 (Items.item_body
         {[ js "_id" := VObjectId oid; js "name" := VStr (js "x");
            js "updatedAt" := VDate 7 ]}),
       World {[ oid := {[ js "_id" := VObjectId oid; js "name" := VStr (js "x");
                          js "updatedAt" := VDate 7 ]} ]}
         [UpdateOne oid {[ js "name" := VStr (js "x");
                           js "updatedAt" := VDate 7 ]}]).
Proof. repeat split; vm_compute; reflexivity. Qed.

(** ** The name rule *)

Lemma name_rule_fails v :
  (∀ s, v = VStr s → trim s = []) →
  negb (has_type v TString) || blank v = true
  ∧ negb (truthy v) || negb (has_type v TString) || blank v = true.
Proof.
  intros Hbad.
  assert (H1 : negb (has_type v TString) || blank v = true).
  { destruct (negb (has_type v TString) || blank v) eqn:E; [done|].
    apply name_rule_present in E as (s & -> & Hs). by destruct Hs, (Hbad s). }
  split; [done|]. rewrite <- orb_assoc, H1. apply orb_true_r.
Qed.

Lemma validateItemFull_no_name body :
  (∀ s, get body (js "name") = VStr s → trim s = []) →
  is_Some (Controllers.validateItemFull body).
Proof.
  intros Hbad. unfold Controllers.validateItemFull.
  rewrite (proj2 (name_rule_fails _ Hbad)).
  destruct (negb (truthy body) || negb (has_type body TObject)); eauto.
Qed.

Section name_rule.
Context `{!Driver} `{!Conversions}.

Lemma validateItemForCreate_no_name body errors :
  (∀ s, get body (js "name") = VStr s → trim s = []) →
  Items.validateItemForCreate body = Some errors →
  js "name is required (non-empty string)" ∈ errors.
Proof.
  intros Hbad. unfold Items.validateItemForCreate.
  assert (truthy (get body (js "name"))
          && has_type (get body (js "name")) TString
          && negb (blank (get body (js "name"))) = false) as ->.
  { apply negb_true_iff. rewrite !negb_andb, negb_involutive.
    apply (name_rule_fails _ Hbad). }
  cbn [negb].
  destruct (negb (is_undefined (get body (js "price")))).
  - destruct (Number (get body (js "price"))) as [p|]; [|done]. steps.
    intros [= <-].
    repeat match goal with |- context [if ?c then _ else _] => destruct c end;
      set_solver.
  - steps. intros [= <-].
    repeat match goal with |- context [if ?c then _ else _] => destruct c end;
      set_solver.
Qed.

Lemma normalizeItem_no_name body :
  (∀ s, get body (js "name") = VStr s → trim s = []) →
  ∀ u, Items.normalizeItem body true ≠ Continue u.
Proof.
  intros Hbad u. unfold Items.normalizeItem.
  destruct (Items.pickAllowedFields body) as [data|] eqn:Hdata; [|done].
  steps. rewrite !(pick_get _ _ _ Hdata) by set_solver.
  destruct (is_undefined (get body (js "name"))); [done|]. steps.
  by rewrite (proj1 (name_rule_fails _ Hbad)).
Qed.

Lemma put_update_bad_name body :
  (∀ s, get body (js "name") = VStr s → trim s = []) →
  get body (js "name") ≠ VUndefined →
  Products.put_update body = Reject (js "name must be a non-empty string").
Proof.
  intros Hbad Hdef. destruct (get_defined_VObj _ _ Hdef) as [m ->].
  unfold Products.put_update. steps.
  apply is_undefined_false in Hdef. rewrite Hdef. steps.
  by rewrite (proj1 (name_rule_fails _ Hbad)).
Qed.

(** C4, as the code has it.  A body whose name is absent, not a string or
    empty once trimmed is refused by [validateItemFull], so that
    [createItem] and [putItem] leave the world as it was, and likewise by
    the [POST] and [PUT] of [part_002] and the [POST] of [src/server.js].
    The [PUT] of [src/server.js] refuses a name that is present and fails
    the rule; it does not ask for a name. *)
Theorem name_required (body : value) :
  (∀ s, get body (js "name") = VStr s → trim s = []) →
  is_Some (Controllers.validateItemFull body)
  ∧ (∀ newId now1 now2 w,
       ∃ msg, Controllers.createItem newId now1 now2 body w
              = (Json 400 (Controllers.error_body msg), w))
  ∧ (∀ now id w, (Controllers.putItem now id body w).2 = w)
  ∧ (∀ errors, Items.validateItemForCreate body = Some errors →
               js "name is required (non-empty string)" ∈ errors)
  ∧ (∀ newId now w, (Items.post newId now body w).2 = w)
  ∧ (∀ u, Items.normalizeItem body true ≠ Continue u)
  ∧ (∀ now id w, (Items.put now id body w).2 = w)
  ∧ (∀ newId now1 now2 w, (Products.post newId now1 now2 body w).2 = w)
  ∧ (get body (js "name") ≠ VUndefined →
     Products.put_update body = Reject (js "name must be a non-empty string")).
Proof.
  intros Hbad. destruct (validateItemFull_no_name body Hbad) as [e He].
  repeat split.
  - eauto.
  - intros. unfold Controllers.createItem. rewrite He. eauto.
  - intros. unfold Controllers.putItem. rewrite He.
    by destruct (Controllers.isValidObjectId id) as [[]|].
  - intros errors. by apply validateItemForCreate_no_name.
  - intros. unfold Items.post.
    destruct (Items.validateItemForCreate body) as [errors|] eqn:Hv; [|done].
    apply validateItemForCreate_no_name in Hv; [|done].
    destruct errors; [by apply elem_of_nil in Hv | done].
  - by apply normalizeItem_no_name.
  - intros. unfold Items.put. destruct (negb (Items.isValidId id)); [done|].
    pose proof (normalizeItem_no_name body Hbad) as Hn.
    destruct (Items.normalizeItem body true) as [u| |]; [by destruct (Hn u) | done..].
  - intros. unfold Products.post. destruct (is_nullish body); [done|].
    by rewrite (proj2 (name_rule_fails _ Hbad)).
  - intros Hdef. by apply put_update_bad_name.
Qed.

End name_rule.

Lemma name_required_witness :
  (@Controllers.putItem Reference.driver 7 (js "507f1f77bcf86cd799439011")
     (VObj {[ js "quantity" := VNum 3%float ]}) (World ∅ [])).2
  = World ∅ [].
Proof.
  refine (proj1 (proj2 (proj2 (@name_required Reference.driver
    Reference.conversions (VObj {[ js "quantity" := VNum 3%float ]}) _)))
    7%Z (js "507f1f77bcf86cd799439011") (World ∅ [])).
  intros s Hs. vm_compute in Hs. discriminate.
Defined.

(** The [PUT] of [src/server.js] takes a body without a name to the
    collection. *)
Lemma products_put_without_name :
  let body : value := VObj {[ js "price" := VNum 5%float ]} in
  let id := js "507f1f77bcf86cd799439011" in
  let oid := Reference.fromHex id in
  let old : document :=
    {[ js "_id" := VObjectId oid; js "name" := VStr (js "old") ]} in
  get body (js "name") = VUndefined
  ∧ @Products.put_update Reference.conversions body
    = Continue {[ js "price" := VNum 5%float ]}
  ∧ sent (@Products.put Reference.driver Reference.conversions 7 id body
            (World {[ oid := old ]} [])).2
    = [UpdateOne oid {[ js "price" := VNum 5%float; js "updatedAt" := VDate 7 ]}].
Proof. repeat split; vm_compute; reflexivity. Qed.

(** ** Defaults *)
Section defaults.
Context `{!Driver} `{!Conversions}.

Lemma validateItemForCreate_nil body :
  Items.validateItemForCreate body = Some [] →
  (∃ s, get body (js "name") = VStr s ∧ trim s ≠ [])
  ∧ (get body (js "price") = VUndefined
     ∨ ∃ p, Number (get body (js "price")) = Some p ∧ nan_or_negative p = false)
  ∧ (get body (js "category") = VUndefined
     ∨ ∃ c, get body (js "category") = VStr c).
Proof.
  unfold Items.validateItemForCreate.
  destruct (negb (truthy body) || negb (has_type body TObject)) eqn:Hobj;
    destruct (truthy (get body (js "name"))
              && has_type (get body (js "name")) TString
              && negb (blank (get body (js "name")))) eqn:Hn;
    destruct (is_undefined (get body (js "price"))) eqn:Ep;
    destruct (Number (get body (js "price"))) as [p|] eqn:HN;
    steps;
    try destruct (nan_or_negative p) eqn:Hp;
    destruct (negb (is_undefined (get body (js "category")))
              && negb (has_type (get body (js "category")) TString)) eqn:Hc;
    steps; cbn [app]; intros Heq; try discriminate Heq; clear Heq.
  all: apply (f_equal negb) in Hn; rewrite !negb_andb, negb_involutive in Hn;
    cbn [negb] in Hn; apply name_rule in Hn;
    apply optional_field in Hc; rewrite has_type_TString in Hc;
    rewrite ?is_undefined_true in *;
    (split; [done|]); (split; [|done]); eauto.
Qed.

(** The fields of an update built from the body are the recognised fields
    present in the body. *)
Lemma present_fields (body : value) (u : document) :
  ((get body (js "name") = VUndefined ∧ u !! js "name" = None)
   ∨ ∃ s, get body (js "name") = VStr s ∧ u !! js "name" = Some (VStr (trim s))) →
  ((get body (js "price") = VUndefined ∧ u !! js "price" = None)
   ∨ ∃ p, get body (js "price") ≠ VUndefined ∧ u !! js "price" = Some (VNum p)) →
  ((get body (js "category") = VUndefined ∧ u !! js "category" = None)
   ∨ ∃ c v, get body (js "category") = VStr c ∧ u !! js "category" = Some v) →
  dom u ⊆ {[ js "name"; js "price"; js "category" ]} →
  ∀ k, k ∈ dom u
       ↔ k ∈ [js "name"; js "price"; js "category"] ∧ get body k ≠ VUndefined.
Proof.
  intros Hn Hp Hc Hdom k. split.
  - intros Hk. pose proof (Hdom k Hk) as Hin.
    apply elem_of_dom in Hk as [v Hv].
    rewrite !elem_of_union, !elem_of_singleton in Hin.
    destruct Hin as [[-> | ->] | ->].
    + split; [by left|].
      destruct Hn as [[_ Hu] | (s & Hs & _)]; [congruence | by rewrite Hs].
    + split; [right; by left|].
      destruct Hp as [[_ Hu] | (p & Hs & _)]; [congruence | done].
    + split; [right; right; by left|].
      destruct Hc as [[_ Hu] | (c & v' & Hs & _)]; [congruence | by rewrite Hs].
  - intros [Hin Hdef]. apply elem_of_dom.
    repeat (apply elem_of_cons in Hin as [-> | Hin]);
      [| | | by apply elem_of_nil in Hin].
    + destruct Hn as [[Habs _] | (s & _ & Hu)]; [done | eauto].
    + destruct Hp as [[Habs _] | (p & _ & Hu)]; [done | eauto].
    + destruct Hc as [[Habs _] | (c & v & _ & Hu)]; [done | eauto].
Qed.

Lemma normalizeItem_present body mode u :
  Items.normalizeItem body mode = Continue u →
  ∀ k, k ∈ dom u
       ↔ k ∈ [js "name"; js "price"; js "category"] ∧ get body k ≠ VUndefined.
Proof.
  intros Hu. apply normalizeItem_Continue in Hu as (Hn & Hp & Hc & Hdom).
  apply present_fields; [| | |done].
  - destruct Hn as [(? & _ & ?) | (s & ? & _ & ?)]; [by left | right; eauto].
  - destruct Hp as [? | (p & ? & _ & _ & ?)]; [by left | right; eauto].
  - destruct Hc as [? | (c & ? & ?)]; [by left | right; eauto].
Qed.

Lemma put_update_present body u :
  Products.put_update body = Continue u →
  ∀ k, k ∈ dom u
       ↔ k ∈ [js "name"; js "price"; js "category"] ∧ get body k ≠ VUndefined.
Proof.
  intros Hu. apply put_update_Continue in Hu as (Hn & Hp & Hc & Hdom).
  apply present_fields; [| | |done].
  - destruct Hn as [? | (s & ? & _ & ?)]; [by left | right; eauto].
  - destruct Hp as [? | (p & ? & _ & _ & ?)]; [by left | right; eauto].
  - destruct Hc as [? | (c & ? & ?)]; [by left | right; eauto].
Qed.

(** C5, as the code has it.  Create and full replace of the controllers
    and of [part_002], and the create of [src/server.js], build a payload
    that holds every recognised field, an absent secondary or numeric field
    with its default.  A partial update holds the recognised fields present
    in the body and no other recognised field, and so does the [PUT] of
    [src/server.js], which fills in no default. *)
Theorem defaults_rule (body : value) :
  (Controllers.validateItemFull body = None →
   ∀ now1 now2, ∃ d r,
     Controllers.doc now1 now2 body = Some d
     ∧ Controllers.replacement now2 body = Some r
     ∧ dom d = {[ js "name"; js "description"; js "quantity"; js "createdAt";
                  js "updatedAt" ]}
     ∧ dom r = {[ js "name"; js "description"; js "quantity"; js "updatedAt" ]}
     ∧ (get body (js "description") = VUndefined →
        d !! js "description" = Some (VStr [])
        ∧ r !! js "description" = Some (VStr []))
     ∧ (get body (js "quantity") = VUndefined →
        d !! js "quantity" = Some (VNum 0)
        ∧ r !! js "quantity" = Some (VNum 0)))
  ∧ (Items.validateItemForCreate body = Some [] →
     ∀ now, ∃ d,
       Items.doc now body = Some d
       ∧ dom d = {[ js "name"; js "price"; js "category"; js "createdAt";
                    js "updatedAt" ]}
       ∧ (get body (js "price") = VUndefined → d !! js "price" = Some (VNum 0))
       ∧ (get body (js "category") = VUndefined →
          d !! js "category" = Some (VStr (js "general"))))
  ∧ (∀ u now,
       Items.normalizeItem body true = Continue u →
       dom (Items.fullDoc now u)
       = {[ js "name"; js "price"; js "category"; js "updatedAt" ]}
       ∧ (get body (js "price") = VUndefined →
          Items.fullDoc now u !! js "price" = Some (VNum 0))
       ∧ (get body (js "category") = VUndefined →
          Items.fullDoc now u !! js "category" = Some (VStr (js "general"))))
  ∧ (∀ s p newId now1 now2 w,
       get body (js "name") = VStr s → trim s ≠ [] →
       (get body (js "price") = VUndefined ∧ p = 0%float
        ∨ get body (js "price") ≠ VUndefined
          ∧ Number (get body (js "price")) = Some p
          ∧ nan_or_negative p = false) →
       let d := Products.doc now1 now2 (trim s) p (get body (js "category")) in
       sent (Products.post newId now1 now2 body w).2 = sent w ++ [InsertOne d]
       ∧ dom d = {[ js "name"; js "price"; js "category"; js "createdAt";
                    js "updatedAt" ]}
       ∧ d !! js "price" = Some (VNum p)
       ∧ (get body (js "category") = VUndefined →
          d !! js "category" = Some (VStr (js "general"))))
  ∧ (Controllers.validateItemPartial body = None →
     ∀ now, ∃ m r,
       body = VObj m ∧ Controllers.patchDoc now body = Some r
       ∧ dom r = dom m ∪ {[ js "updatedAt" ]})
  ∧ (∀ u, Items.normalizeItem body false = Continue u →
          ∀ k, k ∈ dom u
               ↔ k ∈ [js "name"; js "price"; js "category"]
                 ∧ get body k ≠ VUndefined)
  ∧ (∀ u, Products.put_update body = Continue u →
          ∀ k, k ∈ dom u
               ↔ k ∈ [js "name"; js "price"; js "category"]
                 ∧ get body k ≠ VUndefined).
Proof.
  split; [|split; [|split; [|split; [|split; [|split]]]]].
  - intros Hv now1 now2.
    destruct (validateItemFull_None body Hv) as ((s & Hs & _) & _).
    exists ({[ js "name" := VStr (trim s);
               js "description" := nullish (get body (js "description")) (VStr []);
               js "quantity" := nullish (get body (js "quantity")) (VNum 0);
               js "createdAt" := VDate now1;
               js "updatedAt" := VDate now2 ]} : document).
    exists ({[ js "name" := VStr (trim s);
               js "description" := nullish (get body (js "description")) (VStr []);
               js "quantity" := nullish (get body (js "quantity")) (VNum 0);
               js "updatedAt" := VDate now2 ]} : document).
    split; [by apply doc_full|]. split; [by apply replacement_full|].
    split; [by apply (doc_dom now1 now2 body), doc_full|].
    split; [by apply (replacement_dom now2 body), replacement_full|].
    split; intros ->; by lookups.
  - intros Hv now.
    destruct (validateItemForCreate_nil body Hv) as ((s & Hs & _) & Hp & _).
    assert (∃ p, (if negb (is_undefined (get body (js "price")))
                  then Number (get body (js "price")) else Some 0%float) = Some p
                 ∧ (get body (js "price") = VUndefined → p = 0%float))
      as (p & Hprice & Hzero).
    { destruct Hp as [-> | (p & HN & _)]; [by exists 0%float|].
      destruct (is_undefined (get body (js "price"))) eqn:E.
      - exists 0%float. cbn [negb]. split; [done|]. done.
      - exists p. cbn [negb]. split; [done|]. intros Habs.
        apply is_undefined_false in E. done. }
    eexists. unfold Items.doc. rewrite Hs. steps. rewrite Hprice. steps.
    split; [reflexivity|].
    split; [rewrite !dom_insert_L, dom_singleton_L; set_solver|].
    split.
    + intros Habs. rewrite (Hzero Habs). by lookups.
    + intros ->. by lookups.
  - intros u now Hu. split; [apply fullDoc_dom|].
    apply normalizeItem_Continue in Hu as (_ & Hp & Hc & _).
    unfold Items.fullDoc. cbn [get]. split.
    + intros Habs. destruct Hp as [[_ ->] | (p & Hdef & _)]; [|done].
      by lookups.
    + intros Habs. destruct Hc as [[_ ->] | (c & Hdef & _)]; [|congruence].
      by lookups.
  - intros s p newId now1 now2 w Hs Hts Hp d.
    destruct (get_defined_VObj body (js "name")) as [m ->]; [by rewrite Hs|].
    split; [|split; [apply products_doc_dom|split]].
    + unfold Products.post. rewrite Hs. steps.
      rewrite nonblank_truthy, (proj2 (blank_VStr s)) by done. steps.
      assert ((if negb (is_undefined (get (VObj m) (js "price")))
               then Number (get (VObj m) (js "price")) else Some 0%float)
              = Some p ∧ nan_or_negative p = false) as [-> ->].
      { destruct Hp as [[-> ->] | (Hdef & HN & Hok)]; [done|].
        apply is_undefined_false in Hdef. by rewrite Hdef. }
      run. by destruct (coll w !! newId).
    + subst d. unfold Products.doc. by lookups.
    + intros Hc. subst d. unfold Products.doc. rewrite Hc. by lookups.
  - intros Hv now.
    destruct (patchDoc_dom now body Hv) as (m & r & Hm & Hr & Hd & _). eauto.
  - intros u. apply normalizeItem_present.
  - intros u. apply put_update_present.
Qed.

End defaults.

Lemma defaults_rule_witness :
  ∃ r, Controllers.replacement 7 (VObj {[ js "name" := VStr (js "x") ]}) = Some r
       ∧ r !! js "quantity" = Some (VNum 0%float).
Proof.
  destruct (@defaults_rule Reference.conversions
              (VObj {[ js "name" := VStr (js "x") ]})) as [Hfull _].
  destruct (Hfull ltac:(reflexivity) 5%Z 7%Z)
    as (d & r & _ & Hr & _ & _ & _ & Hq).
  exists r. split; [exact Hr|]. apply Hq. reflexivity.
Defined.

(** The [PUT] of [src/server.js] on a body with a name alone sends the name
    and the time, and no default for the price or the category. *)
Lemma products_put_no_defaults :
  let body : value := VObj {[ js "name" := VStr (js "x") ]} in
  let id := js "507f1f77bcf86cd799439011" in
  let oid := Reference.fromHex id in
  let old : document :=
    {[ js "_id" := VObjectId oid; js "name" := VStr (js "old");
       js "price" := VNum 3%float ]} in
  @Products.put_update Reference.conversions body
  = Continue {[ js "name" := VStr (js "x") ]}
  ∧ @Products.put Reference.driver Reference.conversions 7 id body
      (World {[ oid := old ]} [])
    = (Json 200 (VObj {[ js "ok" := VBool true;
                         js "product" :=
                           VObj {[ js "_id" := VObjectId oid;
                                   js "name" := VStr (js "x");
                                   js "price" := VNum 3%float;
                                   js "updatedAt" := VDate 7 ]} ]}),
       World {[ oid := {[ js "_id" := VObjectId oid;
                          js "name" := VStr (js "x");
                          js "price" := VNum 3%float;
                          js "updatedAt" := VDate 7 ]} ]}
         [UpdateOne oid {[ js "name" := VStr (js "x");
                           js "updatedAt" := VDate 7 ]}]).
Proof. repeat split; vm_compute; reflexivity. Qed.
(** ** Creating an item from a name alone *)
Section create_from_name.
Context `{!Conversions}.

(** C6, as the code has it: for every string [s] that is not empty once
    trimmed, creating from the body [{name: s}] succeeds in the three
    variants, with the answer 201, and the document sent to the collection
    carries the trimmed name next to the defaults of the other fields. *)
Theorem create_trims_name (s : jsstring) (newId : ObjectId) (now1 now2 : Z)
    (w : world) :
  trim s ≠ [] → coll w !! newId = None →
  let body := VObj {[ js "name" := VStr s ]} in
  let item : document :=
    {[ js "name" := VStr (trim s); js "description" := VStr [];
       js "quantity" := VNum 0; js "createdAt" := VDate now1;
       js "updatedAt" := VDate now2 ]} in
  let product (t : Z) : document :=
    {[ js "name" := VStr (trim s); js "price" := VNum 0;
       js "category" := VStr (js "general"); js "createdAt" := VDate now1;
       js "updatedAt" := VDate t ]} in
  (status (Controllers.createItem newId now1 now2 body w).1 = 201
   ∧ sent (Controllers.createItem newId now1 now2 body w).2
     = sent w ++ [InsertOne item; FindOne newId])
  ∧ (status (Products.post newId now1 now2 body w).1 = 201
     ∧ sent (Products.post newId now1 now2 body w).2
       = sent w ++ [InsertOne (product now2)])
  ∧ (status (Items.post newId now1 body w).1 = 201
     ∧ sent (Items.post newId now1 body w).2
       = sent w ++ [InsertOne (product now1)]).
Proof.
  intros Hs Hfresh body item product. subst body item product.
  assert (Hb : blank (VStr s) = false) by by apply blank_VStr.
  assert (Ht : truthy (VStr s) = true) by by apply nonblank_truthy.
  split; [|split].
  - unfold Controllers.createItem, Controllers.validateItemFull, Controllers.doc.
    reads. rewrite Hb, Ht. cbn. run. rewrite Hfresh. cbn [coll sent].
    rewrite lookup_insert_eq, <- app_assoc. split; reflexivity.
  - unfold Products.post, Products.doc. reads. rewrite Hb, Ht. cbn. run.
    rewrite Hfresh. split; reflexivity.
  - unfold Items.post, Items.validateItemForCreate, Items.doc. reads.
    rewrite Hb, Ht. cbn. run. rewrite Hfresh. split; reflexivity.
Qed.

End create_from_name.

Lemma create_trims_name_witness :
  let res :=
    Controllers.createItem [1%N] 5 6
      (VObj {[ js "name" := VStr (js " Widget ") ]}) (World ∅ []) in
  status res.1 = 201
  ∧ sent res.2
    = [InsertOne {[ js "name" := VStr (js "Widget");
                    js "description" := VStr [];
                    js "quantity" := VNum 0; js "createdAt" := VDate 5;
                    js "updatedAt" := VDate 6 ]}; FindOne [1%N]].
Proof.
  refine (proj1 (@create_trims_name Reference.conversions (js " Widget ")
                   [1%N] 5 6 (World ∅ []) _ _)).
  - vm_compute. discriminate.
  - reflexivity.
Defined.

(** A name of one space is a non-empty string, and creating from it is
    refused. *)
Lemma create_refuses_blank_name :
  js " " ≠ []
  ∧ Controllers.createItem [1%N] 5 6 (VObj {[ js "name" := VStr (js " ") ]})
      (World ∅ [])
    = (Json 400 (Controllers.error_body
         (js "Field 'name' is required and must be a non-empty string")),
       World ∅ [])
  ∧ @Products.post Reference.conversions [1%N] 5 6
      (VObj {[ js "name" := VStr (js " ") ]}) (World ∅ [])
    = (Json 400 (Products.fail (js "name is required")), World ∅ [])
  ∧ @Items.post Reference.conversions [1%N] 5
      (VObj {[ js "name" := VStr (js " ") ]}) (World ∅ [])
    = (Json 400 (Items.fail (js "name is required (non-empty string)")),
       World ∅ []).
Proof. repeat split; [discriminate | vm_compute; reflexivity ..]. Qed.

(** ** The secondary field *)
Section secondary_field.
Context `{!Conversions}.

(** C7, as the code has it.  A [category] given as a string reaches the
    payload trimmed, and as ["general"] when nothing is left of it, in the
    category variants.  A [description] reaches the payload as it was
    given. *)
Theorem secondary_field_rule (body : value) (c : jsstring) :
  (get body (js "category") = VStr c →
   let stored := VStr (match trim c with [] => js "general" | t => t end) in
   (∀ mode u, Items.normalizeItem body mode = Continue u →
              u !! js "category" = Some stored)
   ∧ (∀ now u, Items.normalizeItem body true = Continue u →
               Items.fullDoc now u !! js "category" = Some stored)
   ∧ (∀ now d, Items.doc now body = Some d → d !! js "category" = Some stored)
   ∧ (∀ u, Products.put_update body = Continue u →
           u !! js "category" = Some stored)
   ∧ (∀ now1 now2 name p,
        Products.doc now1 now2 name p (get body (js "category")) !! js "category"
        = Some stored))
  ∧ (get body (js "description") = VStr c →
     (∀ now1 now2 d, Controllers.doc now1 now2 body = Some d →
                     d !! js "description" = Some (VStr c))
     ∧ (∀ now r, Controllers.replacement now body = Some r →
                 r !! js "description" = Some (VStr c))
     ∧ (∀ now p, Controllers.validateItemPartial body = None →
                 Controllers.patchDoc now body = Some p →
                 p !! js "description" = Some (VStr c))).
Proof.
  split.
  - intros Hc stored. subst stored. rewrite <- trimmed_or_VStr.
    assert (Hnorm : ∀ mode u,
      Items.normalizeItem body mode = Continue u →
      u !! js "category" = Some (VStr (trimmed_or (VStr c) (js "general")))).
    { intros mode u Hu.
      apply normalizeItem_Continue in Hu as (_ & _ & [[Habs _]|(c' & Hc' & Hu)] & _);
        congruence. }
    repeat split.
    + done.
    + intros now u Hu. apply Hnorm in Hu. unfold Items.fullDoc.
      cbn [get]. rewrite Hu. steps. by lookups.
    + intros now d. unfold Items.doc.
      destruct (trim_method _); [|done]. steps.
      destruct (if negb _ then _ else _); [|done]. steps.
      intros [= <-]. rewrite Hc. by lookups.
    + intros u Hu.
      apply put_update_Continue in Hu as (_ & _ & [[Habs _]|(c' & Hc' & Hu)] & _);
        congruence.
    + intros. unfold Products.doc. rewrite Hc. by lookups.
  - intros Hc. repeat split.
    + intros now1 now2 d. unfold Controllers.doc.
      destruct (trim_method _); [|done]. steps. intros [= <-].
      rewrite Hc. by lookups.
    + intros now r. unfold Controllers.replacement.
      destruct (trim_method _); [|done]. steps. intros [= <-].
      rewrite Hc. by lookups.
    + intros now p Hv Hp.
      destruct (patchDoc_partial body now Hv) as (m & -> & Hp').
      rewrite Hp' in Hp. injection Hp as <-. cbn [get] in Hc.
      destruct (m !! js "description") as [v|] eqn:Hd; [subst v | done].
      destruct (m !! js "name") as [[]|]; by lookups.
Qed.

End secondary_field.

Lemma secondary_field_rule_witness :
  @Items.normalizeItem Reference.conversions
    (VObj {[ js "category" := VStr (js "  ") ]}) false
  = Continue {[ js "category" := VStr (js "general") ]}
  ∧ ({[ js "category" := VStr (js "general") ]} : document) !! js "category"
    = Some (VStr (js "general")).
Proof.
  split; [reflexivity|].
  refine (proj1 (proj1 (@secondary_field_rule Reference.conversions
    (VObj {[ js "category" := VStr (js "  ") ]}) (js "  ")) _) false _ _);
    reflexivity.
Defined.

(** [createItem] stores the description with its surrounding spaces. *)
Lemma description_stored_untrimmed :
  let body : value :=
    VObj {[ js "name" := VStr (js "x");
            js "description" := VStr (js " a ") ]} in
  trim (js " a ") = js "a"
  ∧ Controllers.validateItemFull body = None
  ∧ Controllers.doc 5 6 body
    = Some {[ js "name" := VStr (js "x"); js "description" := VStr (js " a ");
              js "quantity" := VNum 0%float; js "createdAt" := VDate 5;
              js "updatedAt" := VDate 6 ]}.
Proof. repeat split; vm_compute; reflexivity. Qed.

(** ** Updates: what they send and what they leave alone *)
Section updates.
Context `{!Driver} `{!Conversions}.

Lemma put_update_keys body u now :
  Products.put_update body = Continue u →
  dom (<[js "updatedAt" := VDate now]> u)
  ⊆ {[ js "name"; js "price"; js "category"; js "updatedAt" ]}.
Proof.
  intros Hu. apply put_update_Continue in Hu as (_ & _ & _ & Hdom).
  rewrite dom_insert_L. set_solver.
Qed.

Lemma normalizeItem_keys body mode u now :
  Items.normalizeItem body mode = Continue u →
  dom (<[js "updatedAt" := VDate now]> u)
  ⊆ {[ js "name"; js "price"; js "category"; js "updatedAt" ]}.
Proof.
  intros Hu. apply normalizeItem_Continue in Hu as (_ & _ & _ & Hdom).
  rewrite dom_insert_L. set_solver.
Qed.

(** Each update handler either leaves the world as it was or applies one
    [$set] whose keys lie in [F]. *)
Lemma putItem_set now id body w :
  (Controllers.putItem now id body w).2 = w
  ∨ ∃ oid r,
      dom r ⊆ {[ js "name"; js "description"; js "quantity"; js "updatedAt" ]}
      ∧ set_on oid r w (Controllers.putItem now id body w).2.
Proof.
  destruct (putItem_effect id body) as [Hsame | (oid & s & _ & _ & Hset)];
    [by left|].
  destruct (Hset now w) as (r & Hr & Hon). right. exists oid, r.
  split; [|done]. by rewrite (replacement_dom _ _ _ Hr).
Qed.

Lemma patchItem_set now id body w :
  (Controllers.patchItem now id body w).2 = w
  ∨ ∃ oid r,
      dom r ⊆ {[ js "name"; js "description"; js "quantity"; js "updatedAt" ]}
      ∧ set_on oid r w (Controllers.patchItem now id body w).2.
Proof.
  destruct (patchItem_effect id body) as [Hsame | (oid & _ & Hv & Hset)];
    [by left|].
  destruct (Hset now w) as (r & Hr & Hon). right. exists oid, r.
  split; [|done].
  destruct (patchDoc_dom now body Hv) as (m & r' & _ & Hr' & _ & Hdom).
  rewrite Hr in Hr'. by injection Hr' as <-.
Qed.

Lemma products_put_set now id body w :
  (Products.put now id body w).2 = w
  ∨ ∃ oid r,
      dom r ⊆ {[ js "name"; js "price"; js "category"; js "updatedAt" ]}
      ∧ set_on oid r w (Products.put now id body w).2.
Proof.
  destruct (products_put_effect id body) as [Hsame | (oid & u & _ & Hu & Hset)];
    [by left|].
  right. exists oid, (<[js "updatedAt" := VDate now]> u).
  split; [by apply (put_update_keys body) | apply Hset].
Qed.

Lemma items_put_set now id body w :
  (Items.put now id body w).2 = w
  ∨ ∃ oid r,
      dom r ⊆ {[ js "name"; js "price"; js "category"; js "updatedAt" ]}
      ∧ set_on oid r w (Items.put now id body w).2.
Proof.
  destruct (items_put_effect id body) as [Hsame | (oid & u & _ & Hu & Hset)];
    [by left|].
  right. exists oid, (Items.fullDoc now u).
  split; [by rewrite fullDoc_dom | apply Hset].
Qed.

Lemma items_patch_set now id body w :
  (Items.patch now id body w).2 = w
  ∨ ∃ oid r,
      dom r ⊆ {[ js "name"; js "price"; js "category"; js "updatedAt" ]}
      ∧ set_on oid r w (Items.patch now id body w).2.
Proof.
  destruct (items_patch_effect id body) as [Hsame | (oid & u & _ & Hu & Hset)];
    [by left|].
  right. exists oid, (<[js "updatedAt" := VDate now]> u).
  split; [by apply (normalizeItem_keys body false) | apply Hset].
Qed.

Lemma set_sends_frame (F : gset jsstring) (w w' : world) :
  (w' = w ∨ ∃ oid r, dom r ⊆ F ∧ set_on oid r w w') →
  sends_only F w w' ∧ frame F w w'.
Proof.
  intros [-> | (oid & r & Hdom & Hon)].
  - split; [apply same_sends_only | apply same_frame].
  - split; [by eapply set_on_sends_only | by eapply set_on_frame].
Qed.

(** C8.  Whatever the identifier and the body, a full replace and a partial
    update send to the collection only keys among the name, the secondary
    field, the numeric field and [updatedAt] (so never [_id], [id] or
    [createdAt]); no document appears or disappears, and in every document
    every other field, [_id] and [createdAt] among them, keeps its value. *)
Theorem update_frame (now : Z) (id : jsstring) (body : value) (w : world) :
  let F : gset jsstring :=
    {[ js "name"; js "description"; js "quantity"; js "updatedAt" ]} in
  let G : gset jsstring :=
    {[ js "name"; js "price"; js "category"; js "updatedAt" ]} in
  let untouched (w' : world) :=
    ∀ oid d d', coll w !! oid = Some d → coll w' !! oid = Some d' →
                d' !! js "_id" = d !! js "_id"
                ∧ d' !! js "createdAt" = d !! js "createdAt" in
  (∀ k, k ∈ [js "_id"; js "id"; js "createdAt"] → (k ∉ F) ∧ (k ∉ G))
  ∧ (sends_only F w (Controllers.putItem now id body w).2
     ∧ frame F w (Controllers.putItem now id body w).2
     ∧ untouched (Controllers.putItem now id body w).2)
  ∧ (sends_only F w (Controllers.patchItem now id body w).2
     ∧ frame F w (Controllers.patchItem now id body w).2
     ∧ untouched (Controllers.patchItem now id body w).2)
  ∧ (sends_only G w (Products.put now id body w).2
     ∧ frame G w (Products.put now id body w).2
     ∧ untouched (Products.put now id body w).2)
  ∧ (sends_only G w (Items.put now id body w).2
     ∧ frame G w (Items.put now id body w).2
     ∧ untouched (Items.put now id body w).2)
  ∧ (sends_only G w (Items.patch now id body w).2
     ∧ frame G w (Items.patch now id body w).2
     ∧ untouched (Items.patch now id body w).2).
Proof.
  intros F G untouched.
  assert (Hkeys : ∀ k, k ∈ [js "_id"; js "id"; js "createdAt"] → (k ∉ F) ∧ (k ∉ G)).
  { intros k Hk. subst F G.
    repeat (apply elem_of_cons in Hk as [->|Hk]); [| | |by apply elem_of_nil in Hk];
      split; rewrite !elem_of_union, !elem_of_singleton; intros Hin;
      repeat destruct Hin as [Hin|Hin]; discriminate. }
  assert (Hgoal : ∀ (K : gset jsstring) w',
    (K = F ∨ K = G) →
    (w' = w ∨ ∃ oid r, dom r ⊆ K ∧ set_on oid r w w') →
    sends_only K w w' ∧ frame K w w' ∧ untouched w').
  { intros K w' HK Hset. apply set_sends_frame in Hset as [Hs Hf].
    do 2 (split; [assumption|]). intros oid d d' Hd Hd'.
    destruct Hf as [_ Hf].
    assert (Hk : ∀ k, k ∈ [js "_id"; js "id"; js "createdAt"] → k ∉ K).
    { intros k Hin.
      destruct HK as [-> | ->]; [exact (proj1 (Hkeys k Hin)) | exact (proj2 (Hkeys k Hin))]. }
    split; apply (Hf oid d d' _ Hd Hd'), Hk.
    - by left.
    - right. right. by left. }
  split; [exact Hkeys|].
  split; [apply Hgoal; [by left | apply putItem_set]|].
  split; [apply Hgoal; [by left | apply patchItem_set]|].
  split; [apply Hgoal; [by right | apply products_put_set]|].
  split; [apply Hgoal; [by right | apply items_put_set]|].
  apply Hgoal; [by right | apply items_patch_set].
Qed.

End updates.

Lemma update_frame_witness :
  let id := js "507f1f77bcf86cd799439011" in
  let oid := Reference.fromHex id in
  let old : document :=
    {[ js "_id" := VObjectId oid; js "name" := VStr (js "old");
       js "createdAt" := VDate 1 ]} in
  let new : document :=
    {[ js "_id" := VObjectId oid; js "name" := VStr (js "x");
       js "description" := VStr []; js "quantity" := VNum 0%float;
       js "createdAt" := VDate 1; js "updatedAt" := VDate 7 ]} in
  let body : value := VObj {[ js "name" := VStr (js "x") ]} in
  coll (@Controllers.putItem Reference.driver 7 id body
          (World {[ oid := old ]} [])).2 !! oid = Some new
  ∧ new !! js "_id" = old !! js "_id"
  ∧ new !! js "createdAt" = old !! js "createdAt".
Proof.
  intros id oid old new body. split; [vm_compute; reflexivity|].
  refine (proj2 (proj2 (proj1 (proj2
    (@update_frame Reference.driver Reference.conversions 7%Z id body
       (World {[ oid := old ]} []))))) oid old new _ _);
    vm_compute; reflexivity.
Defined.

(** ** Replacing twice *)





Section replace_twice.
Context `{!Driver} `{!Conversions}.


End replace_twice.


(** ** What reaches the collection *)
Section payloads.
Context `{!Driver} `{!Conversions}.

Lemma insert_sends (F : gset jsstring) (newId : ObjectId) (d : document)
    (k : option ObjectId → M response) (w : world) :
  dom d ⊆ F →
  (∀ res w', sends_only F w' (k res w').2) →
  sends_only F w ((result ← insertOne newId d; k result) w).2.
Proof.
  intros Hd Hk. run.
  destruct (coll w !! newId);
    match goal with |- sends_only _ _ (k ?res ?w').2 =>
      destruct (Hk res w') as (reqs & Hsent & Hreqs)
    end;
    exists (InsertOne d :: reqs); rewrite Hsent; cbn [sent];
    (split; [by rewrite <- app_assoc | by constructor]).
Qed.

Lemma find_sends (F : gset jsstring) (oid : ObjectId)
    (k : option document → response) (w : world) :
  sends_only F w ((created ← findOne oid; mret (k created)) w).2.
Proof.
  run. exists [FindOne oid]. split; [done|]. constructor; [|done].
  cbn. rewrite dom_empty_L. set_solver.
Qed.

Lemma createItem_sends newId now1 now2 body w :
  sends_only
    {[ js "name"; js "description"; js "quantity"; js "createdAt"; js "updatedAt" ]}
    w (Controllers.createItem newId now1 now2 body w).2.
Proof.
  unfold Controllers.createItem.
  destruct (Controllers.validateItemFull body); [apply same_sends_only|].
  destruct (Controllers.doc now1 now2 body) as [d|] eqn:Hd;
    [|apply same_sends_only].
  apply insert_sends; [by rewrite (doc_dom _ _ _ _ Hd)|].
  intros [oid|] w'; [apply find_sends | apply same_sends_only].
Qed.

Lemma products_post_sends newId now1 now2 body w :
  sends_only
    {[ js "name"; js "price"; js "category"; js "createdAt"; js "updatedAt" ]}
    w (Products.post newId now1 now2 body w).2.
Proof.
  unfold Products.post.
  destruct (is_nullish body); [apply same_sends_only|].
  destruct (negb (truthy _) || _ || _); [apply same_sends_only|].
  destruct (if negb _ then _ else _) as [p|]; [|apply same_sends_only].
  destruct (nan_or_negative p); [apply same_sends_only|].
  destruct (trim_method _) as [name'|]; [|apply same_sends_only].
  apply insert_sends; [by rewrite products_doc_dom|].
  intros [oid|] w'; apply same_sends_only.
Qed.

Lemma items_post_sends newId now body w :
  sends_only
    {[ js "name"; js "price"; js "category"; js "createdAt"; js "updatedAt" ]}
    w (Items.post newId now body w).2.
Proof.
  unfold Items.post.
  destruct (Items.validateItemForCreate body) as [errors|];
    [|apply same_sends_only].
  destruct (negb (Nat.eqb (length errors) 0)); [apply same_sends_only|].
  destruct (Items.doc now body) as [d|] eqn:Hd; [|apply same_sends_only].
  apply insert_sends; [by rewrite (items_doc_dom _ _ _ Hd)|].
  intros [oid|] w'; apply same_sends_only.
Qed.

Lemma set_sends (F F' : gset jsstring) (w w' : world) :
  F ⊆ F' →
  (w' = w ∨ ∃ oid r, dom r ⊆ F ∧ set_on oid r w w') →
  sends_only F' w w'.
Proof.
  intros HF Hset. apply (sends_only_mono F); [done|].
  by apply set_sends_frame.
Qed.

Lemma item_keys_subset :
  ({[ js "name"; js "description"; js "quantity"; js "updatedAt" ]} : gset jsstring)
  ⊆ {[ js "name"; js "description"; js "quantity"; js "createdAt"; js "updatedAt" ]}.
Proof. set_solver. Qed.

Lemma product_keys_subset :
  ({[ js "name"; js "price"; js "category"; js "updatedAt" ]} : gset jsstring)
  ⊆ {[ js "name"; js "price"; js "category"; js "createdAt"; js "updatedAt" ]}.
Proof. set_solver. Qed.

(** C10.  Whatever the identifiers and the body, create, full replace and
    partial update send to the collection only documents whose keys are
    among the name, the secondary field, the numeric field, [createdAt] and
    [updatedAt]; this holds of the three variants. *)
Theorem payload_keys (newId : ObjectId) (now1 now2 : Z) (id : jsstring)
    (body : value) (w : world) :
  let F : gset jsstring :=
    {[ js "name"; js "description"; js "quantity"; js "createdAt";
       js "updatedAt" ]} in
  let G : gset jsstring :=
    {[ js "name"; js "price"; js "category"; js "createdAt"; js "updatedAt" ]} in
  sends_only F w (Controllers.createItem newId now1 now2 body w).2
  ∧ sends_only F w (Controllers.putItem now1 id body w).2
  ∧ sends_only F w (Controllers.patchItem now1 id body w).2
  ∧ sends_only G w (Products.post newId now1 now2 body w).2
  ∧ sends_only G w (Products.put now1 id body w).2
  ∧ sends_only G w (Items.post newId now1 body w).2
  ∧ sends_only G w (Items.put now1 id body w).2
  ∧ sends_only G w (Items.patch now1 id body w).2.
Proof.
  intros F G.
  pose proof item_keys_subset as HF. pose proof product_keys_subset as HG.
  split; [apply createItem_sends|].
  split; [exact (set_sends _ _ _ _ HF (putItem_set now1 id body w))|].
  split; [exact (set_sends _ _ _ _ HF (patchItem_set now1 id body w))|].
  split; [apply products_post_sends|].
  split; [exact (set_sends _ _ _ _ HG (products_put_set now1 id body w))|].
  split; [apply items_post_sends|].
  split; [exact (set_sends _ _ _ _ HG (items_put_set now1 id body w))|].
  exact (set_sends _ _ _ _ HG (items_patch_set now1 id body w)).
Qed.

End payloads.

(** * Further properties of the handlers *)

(** One run of a handler that deletes. *)
Ltac run_delete := unfold findOneAndDelete; run.

(** ** Reading and deleting by identifier *)
Section by_identifier.
Context `{!Driver} `{!Conversions}.

Lemma isValidObjectId_parses id :
  Controllers.isValidObjectId id = Some true →
  ∃ oid, ObjectId_new id = Some oid.
Proof. intros Hv. apply isValidObjectId_true in Hv as (_ & oid & Hoid & _). eauto. Qed.

(** X1.  [getItemById] and the two [GET .../:id] routes answer 400 on an
    identifier their check refuses and leave the world as it was; on an
    identifier it accepts they send one [findOne] and answer 200 with the
    stored document, or 404 when there is none; they never change the
    collection. *)
Theorem get_by_id_answers (id : jsstring) (w : world) :
  (Controllers.isValidObjectId id = Some false →
   Controllers.getItemById id w
   = (Json 400 (Controllers.error_body (js "Invalid ID")), w))
  ∧ (Controllers.isValidObjectId id = Some true →
     ∃ oid, ObjectId_new id = Some oid
       ∧ Controllers.getItemById id w
         = (match coll w !! oid with
            | Some d => Json 200 (VObj d)
            | None => Json 404 (Controllers.error_body (js "Not found"))
            end, World (coll w) (sent w ++ [FindOne oid])))
  ∧ (ObjectId_isValid id = false →
     Items.get_by_id id w = (Json 400 (Items.fail (js "Invalid id")), w)
     ∧ Products.get_by_id id w = (Json 400 (Products.fail (js "Invalid id")), w))
  ∧ (∀ oid, ObjectId_isValid id = true → ObjectId_new id = Some oid →
     Items.get_by_id id w
     = (match coll w !! oid with
        | Some d => Json 200 (Items.item_body d)
        | None => Json 404 (Items.fail (js "Item not found"))
        end, World (coll w) (sent w ++ [FindOne oid]))
     ∧ Products.get_by_id id w
       = (match coll w !! oid with
          | Some d => Json 200 (VObj {[ js "ok" := VBool true;
                                        js "product" := VObj d ]})
          | None => Json 404 (Products.fail (js "Product not found"))
          end, World (coll w) (sent w ++ [FindOne oid])))
  ∧ coll (Controllers.getItemById id w).2 = coll w
  ∧ coll (Items.get_by_id id w).2 = coll w
  ∧ coll (Products.get_by_id id w).2 = coll w.
Proof.
  split; [|split; [|split; [|split; [|split; [|split]]]]].
  - intros Hv. unfold Controllers.getItemById. by rewrite Hv.
  - intros Hv. destruct (isValidObjectId_parses id Hv) as [oid Hoid].
    exists oid. split; [done|]. unfold Controllers.getItemById.
    rewrite Hv, Hoid. run. by destruct (coll w !! oid).
  - intros Hv. unfold Items.get_by_id, Products.get_by_id, Items.isValidId.
    by rewrite Hv.
  - intros oid Hv Hoid.
    unfold Items.get_by_id, Products.get_by_id, Items.isValidId.
    rewrite Hv, Hoid. cbn [negb]. run.
    destruct (coll w !! oid); split; reflexivity.
  - unfold Controllers.getItemById.
    destruct (Controllers.isValidObjectId id) as [[]|]; [|done..].
    destruct (ObjectId_new id) as [oid|]; [|done]. run.
    by destruct (coll w !! oid).
  - unfold Items.get_by_id. destruct (negb (Items.isValidId id)); [done|].
    destruct (ObjectId_new id) as [oid|]; [|done]. run.
    by destruct (coll w !! oid).
  - unfold Products.get_by_id. destruct (negb (ObjectId_isValid id)); [done|].
    destruct (ObjectId_new id) as [oid|]; [|done]. run.
    by destruct (coll w !! oid).
Qed.

(** X2.  [deleteItem] and the two [DELETE] routes, on an identifier their check
    accepts: when the document exists it is removed, every other document
    stays, and the answer is 204 (the removed document with 200 in
    [src/server.js]); when it does not exist the answer is 404 and the
    collection is as it was. *)
Theorem delete_removes (id : jsstring) (oid : ObjectId) (w : world) :
  ObjectId_new id = Some oid →
  (Controllers.isValidObjectId id = Some true →
   Controllers.deleteItem id w
   = (match coll w !! oid with
      | Some _ => Send 204
      | None => Json 404 (Controllers.error_body (js "Not found"))
      end, World (delete oid (coll w)) (sent w ++ [DeleteOne oid])))
  ∧ (ObjectId_isValid id = true →
     Items.remove id w
     = (match coll w !! oid with
        | Some _ => Send 204
        | None => Json 404 (Items.fail (js "Item not found"))
        end, World (delete oid (coll w)) (sent w ++ [DeleteOne oid]))
     ∧ Products.remove id w
       = (match coll w !! oid with
          | Some d =>
              Json 200 (VObj {[ js "ok" := VBool true;
                                js "message" := VStr (js "Product deleted");
                                js "product" := VObj d ]})
          | None => Json 404 (Products.fail (js "Product not found"))
          end, World (delete oid (coll w)) (sent w ++ [DeleteOne oid]))).
Proof.
  intros Hoid. split.
  - intros Hv. unfold Controllers.deleteItem. rewrite Hv, Hoid. run.
    destruct (coll w !! oid) eqn:Hd; cbn [Nat.eqb]; [done|].
    by rewrite delete_id.
  - intros Hv. unfold Items.remove, Products.remove, Items.isValidId.
    rewrite Hv, Hoid. cbn [negb]. run_delete.
    destruct (coll w !! oid) eqn:Hd; [split; reflexivity|].
    rewrite delete_id by done. split; reflexivity.
Qed.

End by_identifier.

Lemma delete_removes_witness :
  let id := js "507f1f77bcf86cd799439011" in
  let oid := Reference.fromHex id in
  let d : document := {[ js "name" := VStr (js "pen") ]} in
  @Products.remove Reference.driver id (World {[ oid := d ]} [])
  = (Json 200 (VObj {[ js "ok" := VBool true;
                       js "message" := VStr (js "Product deleted");
                       js "product" := VObj d ]}),
     World ∅ [DeleteOne oid]).
Proof.
  intros id oid d.
  refine (eq_trans (proj2 (proj2 (@delete_removes Reference.driver
            id oid (World {[ oid := d ]} []) _) _)) _);
    vm_compute; reflexivity.
Defined.

(** ** The shape of an update *)

Lemma answers_200 (wrap : document → value) (oid : ObjectId) (r : document)
    (w : world) (res : response * world) (v : value) :
  answers_update wrap oid r w res → res.1 = Json 200 v →
  ∃ d, coll w !! oid = Some d ∧ v = wrap (apply_set r d)
       ∧ coll res.2 = <[oid := apply_set r d]> (coll w).
Proof.
  unfold answers_update. destruct (coll w !! oid) as [d|].
  - intros [Hres Hcoll] Hv. exists d. rewrite Hres in Hv. by injection Hv as <-.
  - intros [Hres _] Hv. rewrite Hv in Hres. discriminate.
Qed.

Lemma answers_404 (wrap : document → value) (oid : ObjectId) (r : document)
    (w : world) (res : response * world) :
  answers_update wrap oid r w res → status res.1 = 404 →
  coll w !! oid = None ∧ coll res.2 = coll w.
Proof.
  unfold answers_update. destruct (coll w !! oid) as [d|].
  - intros [Hres _] Hs. rewrite Hres in Hs. discriminate.
  - by intros [_ Hcoll] _.
Qed.

Lemma answers_other (wrap : document → value) (oid : ObjectId) (r : document)
    (w : world) (res : response * world) :
  answers_update wrap oid r w res → status res.1 ≠ 200 → coll res.2 = coll w.
Proof.
  unfold answers_update. destruct (coll w !! oid) as [d|].
  - intros [Hres _] Hs. by rewrite Hres in Hs.
  - by intros [_ Hcoll] _.
Qed.

Lemma refused_status (res : response * world) (w : world) (n : nat) :
  refused res w → n ≠ 400 → n ≠ 500 → status res.1 ≠ n.
Proof. intros [[Hs | Hs] _] H4 H5; congruence. Qed.

Section update_shape.
Context `{!Driver} `{!Conversions}.

Lemma update_then_find_answers (oid : ObjectId) (r : document) (w : world) :
  answers_update VObj oid r w
    ((matchedCount ← updateOne oid r;
      if Nat.eqb matchedCount 0 then
        mret (Json 404 (Controllers.error_body (js "Not found")))
      else updated ← findOne oid; mret (Json 200 (doc_or_null updated))) w).
Proof.
  unfold answers_update. run. destruct (coll w !! oid) as [d|]; cbn [Nat.eqb].
  - cbn [fst snd coll]. by rewrite lookup_insert_eq.
  - done.
Qed.

Lemma putItem_shape now id body w :
  refused (Controllers.putItem now id body w) w
  ∨ ∃ oid r,
      Controllers.isValidObjectId id = Some true
      ∧ ObjectId_new id = Some oid
      ∧ Controllers.validateItemFull body = None
      ∧ Controllers.replacement now body = Some r
      ∧ answers_update VObj oid r w (Controllers.putItem now id body w).
Proof.
  unfold Controllers.putItem.
  destruct (Controllers.isValidObjectId id) as [[]|];
    [|left; split; [by left | done] | left; split; [by right | done]].
  destruct (Controllers.validateItemFull body);
    [left; split; [by left | done]|].
  destruct (Controllers.replacement now body) as [r|];
    [|left; split; [by right | done]].
  destruct (ObjectId_new id) as [oid|]; [|left; split; [by right | done]].
  right. exists oid, r. do 4 (split; [done|]). apply update_then_find_answers.
Qed.

Lemma patchItem_shape now id body w :
  refused (Controllers.patchItem now id body w) w
  ∨ ∃ oid r,
      Controllers.isValidObjectId id = Some true
      ∧ ObjectId_new id = Some oid
      ∧ Controllers.validateItemPartial body = None
      ∧ Controllers.patchDoc now body = Some r
      ∧ answers_update VObj oid r w (Controllers.patchItem now id body w).
Proof.
  unfold Controllers.patchItem.
  destruct (Controllers.isValidObjectId id) as [[]|];
    [|left; split; [by left | done] | left; split; [by right | done]].
  destruct (Controllers.validateItemPartial body);
    [left; split; [by left | done]|].
  destruct (Controllers.patchDoc now body) as [r|];
    [|left; split; [by right | done]].
  destruct (ObjectId_new id) as [oid|]; [|left; split; [by right | done]].
  right. exists oid, r. do 4 (split; [done|]). apply update_then_find_answers.
Qed.

Lemma find_and_update_answers (wrap : document → value) (k404 : response)
    (oid : ObjectId) (r : document) (w : world) :
  status k404 = 404 →
  answers_update wrap oid r w
    ((result ← findOneAndUpdate oid r;
      match result with
      | None => mret k404
      | Some d => mret (Json 200 (wrap d))
      end) w).
Proof.
  intros Hk. unfold answers_update. run. by destruct (coll w !! oid) as [d|].
Qed.

Lemma products_put_shape now id body w :
  refused (Products.put now id body w) w
  ∨ ∃ oid u,
      ObjectId_isValid id = true
      ∧ ObjectId_new id = Some oid
      ∧ Products.put_update body = Continue u
      ∧ answers_update
          (λ d, VObj {[ js "ok" := VBool true; js "product" := VObj d ]})
          oid (<[js "updatedAt" := VDate now]> u) w (Products.put now id body w).
Proof.
  unfold Products.put.
  destruct (ObjectId_isValid id); cbn [negb];
    [|left; split; [by left | done]].
  destruct (Products.put_update body) as [u| |];
    [|left; split; [by left | done] | left; split; [by right | done]].
  destruct (ObjectId_new id) as [oid|]; [|left; split; [by right | done]].
  right. exists oid, u. do 3 (split; [done|]).
  by apply (find_and_update_answers
              (λ d, VObj {[ js "ok" := VBool true; js "product" := VObj d ]})).
Qed.

Lemma items_put_shape now id body w :
  refused (Items.put now id body w) w
  ∨ ∃ oid u,
      ObjectId_isValid id = true
      ∧ ObjectId_new id = Some oid
      ∧ Items.normalizeItem body true = Continue u
      ∧ answers_update Items.item_body oid (Items.fullDoc now u) w
          (Items.put now id body w).
Proof.
  unfold Items.put, Items.isValidId.
  destruct (ObjectId_isValid id); cbn [negb];
    [|left; split; [by left | done]].
  destruct (Items.normalizeItem body true) as [u| |];
    [|left; split; [by left | done] | left; split; [by right | done]].
  destruct (ObjectId_new id) as [oid|]; [|left; split; [by right | done]].
  right. exists oid, u. do 3 (split; [done|]).
  by apply (find_and_update_answers Items.item_body).
Qed.

Lemma items_patch_shape now id body w :
  refused (Items.patch now id body w) w
  ∨ ∃ oid u,
      ObjectId_isValid id = true
      ∧ ObjectId_new id = Some oid
      ∧ Items.normalizeItem body false = Continue u
      ∧ u ≠ ∅
      ∧ answers_update Items.item_body oid (<[js "updatedAt" := VDate now]> u) w
          (Items.patch now id body w).
Proof.
  unfold Items.patch, Items.isValidId.
  destruct (ObjectId_isValid id); cbn [negb];
    [|left; split; [by left | done]].
  destruct (Items.normalizeItem body false) as [u| |];
    [|left; split; [by left | done] | left; split; [by right | done]].
  destruct (Nat.eqb (length (Object_keys (VObj u))) 0) eqn:Hlen;
    [left; split; [by left | done]|].
  destruct (ObjectId_new id) as [oid|]; [|left; split; [by right | done]].
  right. exists oid, u. do 3 (split; [done|]).
  split; [by intros ->|].
  by apply (find_and_update_answers Items.item_body).
Qed.

End update_shape.

(** ** Trimming *)

Lemma trimStart_app_keep (l : jsstring) (c : N) :
  is_white_space c = false → ∃ l', trimStart (l ++ [c]) = l' ++ [c].
Proof.
  intros Hc. induction l as [|x l IH]; cbn [app trimStart].
  - rewrite Hc. by exists [].
  - destruct (is_white_space x); [done|]. by exists (x :: l).
Qed.

Lemma trimStart_fixed (s : jsstring) :
  trimStart s = s ↔ s = [] ∨ ∃ c s', s = c :: s' ∧ is_white_space c = false.
Proof.
  split.
  - destruct s as [|c s']; [by left|]. cbn [trimStart].
    destruct (is_white_space c) eqn:Hc; [|right; eauto].
    intros Heq. exfalso.
    assert (Hlen : ∀ t, length (trimStart t) ≤ length t).
    { induction t as [|x t IH]; cbn [trimStart]; [done|].
      destruct (is_white_space x); cbn [length]; lia. }
    specialize (Hlen s'). rewrite Heq in Hlen. cbn [length] in Hlen. lia.
  - intros [-> | (c & s' & -> & Hc)]; [done|]. cbn [trimStart]. by rewrite Hc.
Qed.

Lemma trimStart_idem (s : jsstring) : trimStart (trimStart s) = trimStart s.
Proof.
  induction s as [|c s IH]; [done|]. cbn [trimStart].
  destruct (is_white_space c) eqn:Hc; [done|]. cbn [trimStart]. by rewrite Hc.
Qed.

Lemma trimEnd_idem (s : jsstring) : trimEnd (trimEnd s) = trimEnd s.
Proof. unfold trimEnd. by rewrite rev_involutive, trimStart_idem. Qed.

Lemma trimEnd_keeps_head (c : N) (s : jsstring) :
  is_white_space c = false → ∃ s', trimEnd (c :: s) = c :: s'.
Proof.
  intros Hc. unfold trimEnd. cbn [rev].
  destruct (trimStart_app_keep (rev s) c Hc) as [l' ->].
  rewrite rev_app_distr. by exists (rev l').
Qed.

Lemma trim_idem (s : jsstring) : trim (trim s) = trim s.
Proof.
  unfold trim.
  assert (Hfix : trimStart (trimEnd (trimStart s)) = trimEnd (trimStart s)).
  { apply trimStart_fixed.
    destruct (proj1 (trimStart_fixed (trimStart s)) (trimStart_idem s))
      as [-> | (c & s' & -> & Hc)]; [by left|].
    right. destruct (trimEnd_keeps_head c s' Hc) as [s'' ->]. eauto. }
  by rewrite Hfix, trimEnd_idem.
Qed.

Lemma trimmed_trim (s : jsstring) : trim s ≠ [] → trimmed (trim s).
Proof. intros Hs. split; [done|]. apply trim_idem. Qed.

Lemma trimmed_or_trimmed (v : value) : trimmed (trimmed_or v (js "general")).
Proof.
  destruct v; try (split; [discriminate | reflexivity]).
  rewrite trimmed_or_VStr. destruct (trim s) eqn:Hs.
  - split; [discriminate | reflexivity].
  - rewrite <- Hs. apply trimmed_trim. by rewrite Hs.
Qed.

(** ** The fields the handlers write *)

Lemma field_ok_name (t : jsstring) : trimmed t → field_ok (js "name") (VStr t) = true.
Proof.
  intros [Hne Ht]. unfold field_ok.
  replace (bool_decide (js "name" = js "name")) with true by reflexivity.
  cbn [orb]. rewrite (proj2 (truthy_VStr t) Hne). by rewrite bool_decide_eq_true_2.
Qed.

Lemma field_ok_category (t : jsstring) :
  trimmed t → field_ok (js "category") (VStr t) = true.
Proof.
  intros [Hne Ht]. unfold field_ok.
  replace (bool_decide (js "category" = js "category")) with true by reflexivity.
  rewrite orb_true_r. rewrite (proj2 (truthy_VStr t) Hne).
  by rewrite bool_decide_eq_true_2.
Qed.

Lemma field_ok_description (v : value) :
  field_ok (js "description") v = has_type v TString.
Proof. reflexivity. Qed.

Lemma field_ok_quantity (v : value) :
  field_ok (js "quantity") v = has_type v TNumber.
Proof. reflexivity. Qed.

Lemma field_ok_price (p : float) :
  nan_or_negative p = false → field_ok (js "price") (VNum p) = true.
Proof.
  intros Hp. unfold field_ok.
  replace (bool_decide (js "price" = js "name")) with false by reflexivity.
  replace (bool_decide (js "price" = js "category")) with false by reflexivity.
  replace (bool_decide (js "price" = js "description")) with false by reflexivity.
  replace (bool_decide (js "price" = js "quantity")) with false by reflexivity.
  replace (bool_decide (js "price" = js "price")) with true by reflexivity.
  cbn [orb]. by rewrite Hp.
Qed.

Lemma field_ok_other (k : jsstring) (v : value) :
  k ∉ [js "name"; js "category"; js "description"; js "quantity"; js "price"] →
  field_ok k v = true.
Proof.
  intros Hk. unfold field_ok.
  rewrite !bool_decide_eq_false_2; [done|intros ->; apply Hk..].
  - do 4 right. left.
  - do 3 right. left.
  - do 2 right. left.
  - right. left.
  - left.
Qed.

(** ** Documents that keep the field rules *)

Lemma three_keys (k a b c : jsstring) :
  k ∈ ({[ a; b; c ]} : gset jsstring) → k = a ∨ k = b ∨ k = c.
Proof. set_solver. Qed.

Lemma well_typed_lookup (d : document) :
  well_typed d = true ↔ ∀ k v, d !! k = Some v → field_ok k v = true.
Proof.
  unfold well_typed. rewrite forallb_forall. split.
  - intros Hd k v Hl. apply (Hd (k, v)), list_elem_of_In.
    by apply elem_of_map_to_list.
  - intros Hd [k v] Hin. apply Hd.
    by apply elem_of_map_to_list, list_elem_of_In.
Qed.

Lemma keeps_field_rules_lookup (w : world) :
  keeps_field_rules w = true ↔ ∀ oid d, coll w !! oid = Some d → well_typed d = true.
Proof.
  unfold keeps_field_rules. rewrite forallb_forall. split.
  - intros Hw oid d Hl. apply (Hw (oid, d)), list_elem_of_In.
    by apply elem_of_map_to_list.
  - intros Hw [oid d] Hin. apply (Hw oid).
    by apply elem_of_map_to_list, list_elem_of_In.
Qed.

Lemma defined_fields_lookup (m : document) (k : jsstring) (v : value) :
  defined_fields (VObj m) = true → m !! k = Some v → v ≠ VUndefined.
Proof.
  unfold defined_fields. rewrite forallb_forall. intros Hm Hl ->.
  specialize (Hm (k, VUndefined)). cbn in Hm.
  assert (false = true); [|done]. apply Hm.
  by apply list_elem_of_In, elem_of_map_to_list.
Qed.

Lemma well_typed_singleton (k : jsstring) (v : value) :
  field_ok k v = true → well_typed {[ k := v ]} = true.
Proof.
  intros Hk. apply well_typed_lookup. intros k' v' Hl.
  apply lookup_singleton_Some in Hl as [<- <-]. exact Hk.
Qed.

Lemma well_typed_insert (k : jsstring) (v : value) (d : document) :
  field_ok k v = true → well_typed d = true → well_typed (<[k := v]> d) = true.
Proof.
  rewrite !well_typed_lookup. intros Hk Hd k' v' Hl.
  apply lookup_insert_Some in Hl as [[<- <-] | [_ Hl]]; [done|]. by apply Hd.
Qed.

Lemma well_typed_set (r d : document) :
  well_typed r = true → well_typed d = true → well_typed (apply_set r d) = true.
Proof.
  rewrite !well_typed_lookup. intros Hr Hd k v Hl.
  apply lookup_union_Some_raw in Hl as [Hl | [_ Hl]]; [by apply Hr | by apply Hd].
Qed.

Lemma nullish_description (v : value) :
  v = VUndefined ∨ (∃ c, v = VStr c) →
  field_ok (js "description") (nullish v (VStr [])) = true.
Proof. by intros [-> | [c ->]]. Qed.

Lemma nullish_quantity (v : value) :
  v = VUndefined ∨ (∃ x, v = VNum x) →
  field_ok (js "quantity") (nullish v (VNum 0)) = true.
Proof. by intros [-> | [x ->]]. Qed.

Section typed_documents.
Context `{!Driver} `{!Conversions}.

Lemma controllers_doc_typed body now1 now2 d :
  Controllers.validateItemFull body = None →
  Controllers.doc now1 now2 body = Some d → well_typed d = true.
Proof.
  intros Hv Hd. apply validateItemFull_None in Hv as ((s & Hn & Hs) & Hde & Hq).
  rewrite (doc_full body now1 now2 s Hn) in Hd. injection Hd as <-.
  apply well_typed_insert; [by apply field_ok_name, trimmed_trim|].
  apply well_typed_insert; [by apply nullish_description|].
  apply well_typed_insert; [by apply nullish_quantity|].
  apply well_typed_insert; [reflexivity|]. by apply well_typed_singleton.
Qed.

Lemma replacement_typed body now r :
  Controllers.validateItemFull body = None →
  Controllers.replacement now body = Some r → well_typed r = true.
Proof.
  intros Hv Hr. apply validateItemFull_None in Hv as ((s & Hn & Hs) & Hde & Hq).
  rewrite (replacement_full body now s Hn) in Hr. injection Hr as <-.
  apply well_typed_insert; [by apply field_ok_name, trimmed_trim|].
  apply well_typed_insert; [by apply nullish_description|].
  apply well_typed_insert; [by apply nullish_quantity|].
  by apply well_typed_singleton.
Qed.

Lemma patchDoc_typed body now r :
  defined_fields body = true →
  Controllers.validateItemPartial body = None →
  Controllers.patchDoc now body = Some r → well_typed r = true.
Proof.
  intros Hdef Hv Hr.
  destruct (patchDoc_partial body now Hv) as (m & -> & Hpatch).
  rewrite Hpatch in Hr. injection Hr as <-.
  apply validateItemPartial_None in Hv as (m' & [= <-] & Hdom & Hn & Hde & Hq).
  assert (Hdefined : ∀ k v, m !! k = Some v → v ≠ VUndefined).
  { intros k v. by apply defined_fields_lookup. }
  assert (Hrest : ∀ k v, k ≠ js "name" → m !! k = Some v → field_ok k v = true).
  { intros k v Hk Hl.
    assert (Hin : k ∈ dom m) by by apply elem_of_dom.
    apply Hdom, three_keys in Hin as [-> | [-> | ->]]; [done| |].
    - cbn [get] in Hde. rewrite Hl in Hde.
      destruct Hde as [-> | [c ->]]; [by apply Hdefined in Hl | done].
    - cbn [get] in Hq. rewrite Hl in Hq.
      destruct Hq as [-> | [x ->]]; [by apply Hdefined in Hl | done]. }
  assert (Htime :
    well_typed (delete (js "name") (<[js "updatedAt" := VDate now]> m)) = true).
  { apply well_typed_lookup. intros k v Hl. apply lookup_delete_Some in Hl as [Hk Hl].
    apply lookup_insert_Some in Hl as [[<- <-] | [_ Hl]]; [done|].
    by apply (Hrest k v). }
  cbn [get] in Hn. destruct (m !! js "name") as [v|] eqn:Hname.
  - destruct Hn as [-> | (s & -> & Hs)]; [by apply Hdefined in Hname|].
    rewrite <- insert_delete_eq.
    apply well_typed_insert; [by apply field_ok_name, trimmed_trim | done].
  - rewrite delete_id in Htime; [done|]. by rewrite lookup_insert_ne.
Qed.

Lemma update_typed (body : value) (u : document) :
  ((get body (js "name") = VUndefined ∧ u !! js "name" = None)
   ∨ ∃ s, get body (js "name") = VStr s ∧ trim s ≠ []
          ∧ u !! js "name" = Some (VStr (trim s))) →
  ((get body (js "price") = VUndefined ∧ u !! js "price" = None)
   ∨ ∃ p, get body (js "price") ≠ VUndefined
          ∧ Number (get body (js "price")) = Some p
          ∧ nan_or_negative p = false ∧ u !! js "price" = Some (VNum p)) →
  ((get body (js "category") = VUndefined ∧ u !! js "category" = None)
   ∨ ∃ c, get body (js "category") = VStr c
          ∧ u !! js "category" = Some (VStr (trimmed_or (VStr c) (js "general")))) →
  dom u ⊆ {[ js "name"; js "price"; js "category" ]} →
  well_typed u = true.
Proof.
  intros Hn Hp Hc Hdom. apply well_typed_lookup. intros k v Hl.
  assert (Hin : k ∈ dom u) by by apply elem_of_dom.
  apply Hdom, three_keys in Hin as [-> | [-> | ->]].
  - destruct Hn as [[_ Hn] | (s & _ & Hs & Hn)]; [congruence|].
    rewrite Hn in Hl. injection Hl as <-. by apply field_ok_name, trimmed_trim.
  - destruct Hp as [[_ Hp] | (p & _ & _ & Hneg & Hp)]; [congruence|].
    rewrite Hp in Hl. injection Hl as <-. by apply field_ok_price.
  - destruct Hc as [[_ Hc] | (c & _ & Hc)]; [congruence|].
    rewrite Hc in Hl. injection Hl as <-.
    apply field_ok_category, (trimmed_or_trimmed (VStr c)).
Qed.

Lemma normalizeItem_typed body mode u :
  Items.normalizeItem body mode = Continue u → well_typed u = true.
Proof.
  intros Hu. apply normalizeItem_Continue in Hu as (Hn & Hp & Hc & Hdom).
  apply (update_typed body u); [|exact Hp|exact Hc|exact Hdom].
  destruct Hn as [(Hn & _ & Hu) | Hn]; [by left | by right].
Qed.

Lemma put_update_typed body u :
  Products.put_update body = Continue u → well_typed u = true.
Proof.
  intros Hu. apply put_update_Continue in Hu as (Hn & Hp & Hc & Hdom).
  exact (update_typed body u Hn Hp Hc Hdom).
Qed.

Lemma fullDoc_typed body now u :
  Items.normalizeItem body true = Continue u → well_typed (Items.fullDoc now u) = true.
Proof.
  intros Hu. apply normalizeItem_Continue in Hu as (Hn & Hp & Hc & _).
  unfold Items.fullDoc. cbn [get].
  apply well_typed_insert.
  { destruct Hn as [(_ & [=] & _) | (s & _ & Hs & ->)].
    by apply field_ok_name, trimmed_trim. }
  apply well_typed_insert.
  { destruct Hp as [[_ ->] | (p & _ & _ & Hneg & ->)]; [reflexivity|].
    by apply field_ok_price. }
  apply well_typed_insert.
  { destruct Hc as [[_ ->] | (c & _ & ->)]; [reflexivity|].
    apply field_ok_category, (trimmed_or_trimmed (VStr c)). }
  by apply well_typed_singleton.
Qed.

Lemma items_doc_typed body now d :
  Items.validateItemForCreate body = Some [] →
  Items.doc now body = Some d → well_typed d = true.
Proof.
  intros Hv Hd. apply validateItemForCreate_nil in Hv as ((s & Hn & Hs) & Hp & Hc).
  unfold Items.doc in Hd. rewrite Hn in Hd. cbn [trim_method mbind option_bind] in Hd.
  assert (Hprice : ∃ p,
    (if negb (is_undefined (get body (js "price")))
     then Number (get body (js "price")) else Some 0%float) = Some p
    ∧ nan_or_negative p = false).
  { destruct Hp as [-> | (p & Hp & Hneg)]; [by exists 0%float|].
    destruct (is_undefined (get body (js "price"))); [by exists 0%float|].
    by exists p. }
  destruct Hprice as (p & Hprice & Hneg). rewrite Hprice in Hd.
  cbn [mbind option_bind] in Hd. injection Hd as <-.
  apply well_typed_insert; [by apply field_ok_name, trimmed_trim|].
  apply well_typed_insert; [by apply field_ok_price|].
  apply well_typed_insert; [apply field_ok_category, trimmed_or_trimmed|].
  apply well_typed_insert; [reflexivity|]. by apply well_typed_singleton.
Qed.

Lemma products_doc_typed now1 now2 s p category :
  trim s ≠ [] → nan_or_negative p = false →
  well_typed (Products.doc now1 now2 (trim s) p category) = true.
Proof.
  intros Hs Hneg. unfold Products.doc.
  apply well_typed_insert; [by apply field_ok_name, trimmed_trim|].
  apply well_typed_insert; [by apply field_ok_price|].
  apply well_typed_insert; [apply field_ok_category, trimmed_or_trimmed|].
  apply well_typed_insert; [reflexivity|]. by apply well_typed_singleton.
Qed.

End typed_documents.

(** ** The routes *)

(** A status is one of a list. *)
Ltac among := first [by left | right; among].

Section routes_facts.
Context `{!Driver} `{!Conversions}.

Lemma get_run (a : api) (id : jsstring) (oid : ObjectId) (w : world) :
  accepts a id oid →
  match coll w !! oid with
  | Some d => (handle a (Get id) w).1 = Json 200 (found a d)
  | None => status (handle a (Get id) w).1 = 404
  end.
Proof.
  intros [Hoid Hv]. destruct a; cbn [handle found].
  - unfold Controllers.getItemById. rewrite Hv, Hoid. run.
    by destruct (coll w !! oid).
  - unfold Products.get_by_id. rewrite Hv, Hoid. cbn [negb]. run.
    by destruct (coll w !! oid).
  - unfold Items.get_by_id, Items.isValidId. rewrite Hv, Hoid. cbn [negb]. run.
    by destruct (coll w !! oid).
Qed.

Lemma get_shape (a : api) (id : jsstring) (w : world) :
  coll (handle a (Get id) w).2 = coll w
  ∧ status (handle a (Get id) w).1 ∈ [200; 400; 404; 500]
  ∧ (status (handle a (Get id) w).1 = 400 → (handle a (Get id) w).2 = w).
Proof.
  destruct a; cbn [handle].
  - unfold Controllers.getItemById.
    destruct (Controllers.isValidObjectId id) as [[]|];
      [|split; [done | split; [among | done]]..].
    destruct (ObjectId_new id) as [oid|]; [|split; [done | split; [among | done]]].
    run. destruct (coll w !! oid); (split; [done | split; [among | done]]).
  - unfold Products.get_by_id.
    destruct (negb (ObjectId_isValid id)); [split; [done | split; [among | done]]|].
    destruct (ObjectId_new id) as [oid|]; [|split; [done | split; [among | done]]].
    run. destruct (coll w !! oid); (split; [done | split; [among | done]]).
  - unfold Items.get_by_id.
    destruct (negb (Items.isValidId id)); [split; [done | split; [among | done]]|].
    destruct (ObjectId_new id) as [oid|]; [|split; [done | split; [among | done]]].
    run. destruct (coll w !! oid); (split; [done | split; [among | done]]).
Qed.

Lemma update_shape (a : api) (c : call) (id : jsstring) (w : world) :
  update_of id c →
  refused (handle a c w) w
  ∨ (status (handle a c w).1 = 404 ∧ (handle a c w).2 = w)
  ∨ ∃ oid r,
      accepts a id oid
      ∧ (defined_fields (body_of c) = true → well_typed r = true)
      ∧ answers_update (found a) oid r w (handle a c w).
Proof.
  intros (now & body & [-> | ->]); destruct a; cbn [handle found body_of].
  - destruct (putItem_shape now id body w)
      as [?|(oid & r & ? & ? & Hv & Hr & ?)]; [by left|].
    right; right. exists oid, r. split; [done|]. split; [|done].
    intros _. by apply (replacement_typed body now).
  - destruct (products_put_shape now id body w)
      as [?|(oid & u & ? & ? & Hu & ?)]; [by left|].
    right; right. eexists oid, _. split; [done|]. split; [|done].
    intros _. apply well_typed_insert; [reflexivity|].
    by apply (put_update_typed body).
  - destruct (items_put_shape now id body w)
      as [?|(oid & u & ? & ? & Hu & ?)]; [by left|].
    right; right. eexists oid, _. split; [done|]. split; [|done].
    intros _. by apply (fullDoc_typed body).
  - destruct (patchItem_shape now id body w)
      as [?|(oid & r & ? & ? & Hv & Hr & ?)]; [by left|].
    right; right. exists oid, r. split; [done|]. split; [|done].
    intros Hdef. by apply (patchDoc_typed body now).
  - right; left. done.
  - destruct (items_patch_shape now id body w)
      as [?|(oid & u & ? & ? & Hu & _ & ?)]; [by left|].
    right; right. eexists oid, _. split; [done|]. split; [|done].
    intros _. apply well_typed_insert; [reflexivity|].
    by apply (normalizeItem_typed body false).
Qed.

Lemma create_shape (a : api) (newId : ObjectId) (now1 now2 : Z) (body : value)
    (w : world) :
  let res := handle a (Post newId now1 now2 body) w in
  (status res.1 = 400 ∧ res.2 = w)
  ∨ (status res.1 = 500 ∧ coll res.2 = coll w)
  ∨ ∃ d,
      well_typed d = true
      ∧ coll w !! newId = None
      ∧ res.1 = Json 201 (found a (<[js "_id" := VObjectId newId]> d))
      ∧ coll res.2 = <[newId := <[js "_id" := VObjectId newId]> d]> (coll w).
Proof.
  destruct a; cbn [handle found]; cbv zeta.
  - unfold Controllers.createItem.
    destruct (Controllers.validateItemFull body) eqn:Hv; [by left|].
    destruct (Controllers.doc now1 now2 body) as [d|] eqn:Hd; [|by right; left].
    run. destruct (coll w !! newId) eqn:Hnew; [by right; left|].
    right; right. exists d.
    split; [by apply (controllers_doc_typed body now1 now2)|].
    split; [done|]. cbn [fst snd coll]. by rewrite lookup_insert_eq.
  - unfold Products.post.
    destruct (is_nullish body); [by right; left|].
    destruct (negb (truthy (get body (js "name"))) || _ || _) eqn:Hn; [by left|].
    apply name_rule in Hn as (s & Hs & Hne). rewrite Hs.
    destruct (if negb (is_undefined (get body (js "price"))) then _ else _)
      as [p|]; [|by right; left].
    destruct (nan_or_negative p) eqn:Hp; [by left|].
    cbn [trim_method]. run.
    destruct (coll w !! newId) eqn:Hnew; [by right; left|].
    right; right. eexists. split; [by apply products_doc_typed|]. done.
  - unfold Items.post.
    destruct (Items.validateItemForCreate body) as [errors|] eqn:Hv;
      [|by right; left].
    destruct errors as [|e errors]; [|by left].
    cbn [length Nat.eqb negb].
    destruct (Items.doc now1 body) as [d|] eqn:Hd; [|by right; left].
    run. destruct (coll w !! newId) eqn:Hnew; [by right; left|].
    right; right. exists d. split; [by apply (items_doc_typed body now1)|]. done.
Qed.

Lemma delete_shape (a : api) (id : jsstring) (w : world) :
  let res := handle a (Delete id) w in
  refused res w
  ∨ ∃ oid,
      accepts a id oid
      ∧ coll res.2 = delete oid (coll w)
      ∧ match coll w !! oid with
        | Some _ => status res.1 = 200 ∨ status res.1 = 204
        | None => status res.1 = 404
        end.
Proof.
  destruct a; cbn [handle]; cbv zeta.
  - unfold Controllers.deleteItem.
    destruct (Controllers.isValidObjectId id) as [[]|] eqn:Hv;
      [|left; split; [by left|done] | left; split; [by right|done]].
    destruct (ObjectId_new id) as [oid|] eqn:Hoid; [|left; split; [by right|done]].
    right. exists oid. split; [done|]. run.
    destruct (coll w !! oid) eqn:Hd; cbn [Nat.eqb fst snd coll status];
      [split; [done | by right]|].
    split; [|done]. by rewrite delete_id.
  - unfold Products.remove.
    destruct (ObjectId_isValid id) eqn:Hv; cbn [negb];
      [|left; split; [by left|done]].
    destruct (ObjectId_new id) as [oid|] eqn:Hoid; [|left; split; [by right|done]].
    right. exists oid. split; [done|]. run_delete.
    destruct (coll w !! oid) eqn:Hd; cbn [fst snd coll status];
      [split; [done | by left]|].
    split; [|done]. by rewrite delete_id.
  - unfold Items.remove, Items.isValidId.
    destruct (ObjectId_isValid id) eqn:Hv; cbn [negb];
      [|left; split; [by left|done]].
    destruct (ObjectId_new id) as [oid|] eqn:Hoid; [|left; split; [by right|done]].
    right. exists oid. split; [done|]. run_delete.
    destruct (coll w !! oid) eqn:Hd; cbn [fst snd coll status];
      [split; [done | by right]|].
    split; [|done]. by rewrite delete_id.
Qed.

End routes_facts.

(** ** What a client sees across calls *)
Section across_calls.
Context `{!Driver} `{!Conversions}.

(** X3.  A [PUT] or [PATCH] that answers 200 answers the document as it is
    stored after the update: reading the same identifier next answers 200
    with the same body. *)
Theorem update_then_read (a : api) (c : call) (id : jsstring) (w : world)
    (v : value) :
  update_of id c →
  (handle a c w).1 = Json 200 v →
  (handle a (Get id) (handle a c w).2).1 = Json 200 v.
Proof.
  intros Hc Hv.
  destruct (update_shape a c id w Hc) as [Hr | [[Hs _] | (oid & r & Hid & _ & Hu)]].
  - exfalso. apply (refused_status _ w 200 Hr); [done..|]. by rewrite Hv.
  - rewrite Hv in Hs. discriminate.
  - destruct (answers_200 _ oid r w _ v Hu Hv) as (d & _ & -> & Hcoll).
    pose proof (get_run a id oid (handle a c w).2 Hid) as Hget.
    rewrite Hcoll, lookup_insert_eq in Hget. exact Hget.
Qed.

(** X4.  A [POST] that answers 201 has stored a document under the new
    identifier: reading that identifier next answers 200.  In the
    controllers, where the answer of [createItem] is the document read back
    from the collection, the two bodies are the same. *)
Theorem create_then_read (a : api) (newId : ObjectId) (now1 now2 : Z)
    (body : value) (w : world) :
  accepts a (toHexString newId) newId →
  status (handle a (Post newId now1 now2 body) w).1 = 201 →
  status (handle a (Get (toHexString newId))
            (handle a (Post newId now1 now2 body) w).2).1 = 200
  ∧ (a = ItemsController →
     ∀ v, (handle a (Post newId now1 now2 body) w).1 = Json 201 v →
          (handle a (Get (toHexString newId))
             (handle a (Post newId now1 now2 body) w).2).1 = Json 200 v).
Proof.
  intros Hid Hs.
  destruct (create_shape a newId now1 now2 body w)
    as [[Hs' _] | [[Hs' _] | (d & _ & _ & Hres & Hcoll)]]; [congruence..|].
  pose proof (get_run a _ newId (handle a (Post newId now1 now2 body) w).2 Hid)
    as Hget.
  rewrite Hcoll, lookup_insert_eq in Hget. rewrite Hget. split; [done|].
  intros -> v Hv. rewrite Hv in Hres. by injection Hres as ->.
Qed.


(** X6.  A refusal never writes: a call answered 400 or 404 leaves every
    document of the collection as it was.  In particular an update or a
    removal of a document that does not exist creates none. *)
Theorem refusal_never_writes (a : api) (c : call) (w : world) :
  status (handle a c w).1 = 400 ∨ status (handle a c w).1 = 404 →
  coll (handle a c w).2 = coll w.
Proof.
  intros Hs.
  assert (H200 : status (handle a c w).1 ≠ 200) by (destruct Hs; congruence).
  assert (H201 : status (handle a c w).1 ≠ 201) by (destruct Hs; congruence).
  assert (H204 : status (handle a c w).1 ≠ 204) by (destruct Hs; congruence).
  clear Hs.
  destruct c as [id|newId now1 now2 body|now id body|now id body|id].
  - apply get_shape.
  - destruct (create_shape a newId now1 now2 body w)
      as [[_ Hw] | [[_ Hcoll] | (d & _ & _ & Hres & _)]];
      [by rewrite Hw | done |].
    by rewrite Hres in H201.
  - destruct (update_shape a (Put now id body) id w)
      as [[_ Hr] | [[_ Hr] | (oid & r & _ & _ & Hu)]];
      [by eexists _, _; left | by rewrite Hr.. |].
    by apply (answers_other (found a) oid r).
  - destruct (update_shape a (Patch now id body) id w)
      as [[_ Hr] | [[_ Hr] | (oid & r & _ & _ & Hu)]];
      [by eexists _, _; right | by rewrite Hr.. |].
    by apply (answers_other (found a) oid r).
  - destruct (delete_shape a id w) as [[_ Hr] | (oid & _ & Hcoll & Hst)];
      [by rewrite Hr|].
    rewrite Hcoll. destruct (coll w !! oid) eqn:Hd; [|by apply delete_id].
    destruct Hst as [Hst | Hst]; congruence.
Qed.

(** X7.  The answers of each route, once its handler runs: a read answers
    200, 400, 404 or 500; a [POST] answers 201, 400 or 500 and never 404;
    a [PUT] answers 200, 400, 404 or 500 and so does a [PATCH], but in
    [src/server.js], which has no [PATCH] route, a [PATCH] is always
    answered 404; a [DELETE] answers 204 (200 in [src/server.js]), 400,
    404 or 500. *)
Theorem status_codes (a : api) (c : call) (w : world) :
  status (handle a c w).1
  ∈ match c, a with
    | Patch _ _ _, ProductsServer => [404]
    | Get _, _ | Put _ _ _, _ | Patch _ _ _, _ => [200; 400; 404; 500]
    | Post _ _ _ _, _ => [201; 400; 500]
    | Delete _, ProductsServer => [200; 400; 404; 500]
    | Delete _, _ => [204; 400; 404; 500]
    end.
Proof.
  assert (Hupd : ∀ id c, update_of id c →
            status (handle a c w).1 ∈ [200; 400; 404; 500]).
  { intros id c' Hc.
    destruct (update_shape a c' id w Hc)
      as [[[-> | ->] _] | [[-> _] | (oid & r & _ & _ & Hu)]]; [among..|].
    unfold answers_update in Hu.
    destruct (coll w !! oid); destruct Hu as [-> _]; among. }
  destruct c as [id|newId now1 now2 body|now id body|now id body|id].
  - destruct a; apply get_shape.
  - destruct (create_shape a newId now1 now2 body w)
      as [[-> _] | [[-> _] | (d & _ & _ & -> & _)]]; destruct a; among.
  - assert (Hs : status (handle a (Put now id body) w).1 ∈ [200; 400; 404; 500])
      by (apply (Hupd id); by eexists _, _; left).
    by destruct a.
  - destruct a; [|by left|];
      (apply (Hupd id); by eexists _, _; right).
  - destruct a; cbn [handle].
    + unfold Controllers.deleteItem.
      destruct (Controllers.isValidObjectId id) as [[]|]; [|among..].
      destruct (ObjectId_new id) as [oid|]; [|among]. run.
      destruct (coll w !! oid); cbn; among.
    + unfold Products.remove.
      destruct (negb (ObjectId_isValid id)); [among|].
      destruct (ObjectId_new id) as [oid|]; [|among]. run_delete.
      destruct (coll w !! oid); cbn; among.
    + unfold Items.remove.
      destruct (negb (Items.isValidId id)); [among|].
      destruct (ObjectId_new id) as [oid|]; [|among]. run_delete.
      destruct (coll w !! oid); cbn; among.
Qed.

(** X8.  The field rules are an invariant of the collection.  When every stored
    document keeps them (a name and a category are trimmed strings that
    are not empty, a description is a string, a quantity is a number, a
    price is a number that is neither [NaN] nor negative) and the body has
    no [undefined] property, every document keeps them after the call,
    whatever the call and whatever it answers. *)
Theorem field_rules_invariant (a : api) (c : call) (w : world) :
  defined_fields (body_of c) = true →
  keeps_field_rules w = true →
  keeps_field_rules (handle a c w).2 = true.
Proof.
  rewrite !keeps_field_rules_lookup. intros Hdef Hw.
  assert (Hupd : ∀ id, update_of id c →
            ∀ o d, coll (handle a c w).2 !! o = Some d → well_typed d = true).
  { intros id Hc.
    destruct (update_shape a c id w Hc)
      as [[_ Hr] | [[_ Hr] | (oid & r & _ & Hr & Hu)]]; [by rewrite Hr..|].
    unfold answers_update in Hu. destruct (coll w !! oid) as [d|] eqn:Hd.
    - destruct Hu as [_ ->]. intros o d' Hl.
      apply lookup_insert_Some in Hl as [[<- <-] | [_ Hl]]; [|by apply (Hw o)].
      apply well_typed_set; [by apply Hr | by apply (Hw oid)].
    - destruct Hu as [_ ->]. done. }
  destruct c as [id|newId now1 now2 body|now id body|now id body|id].
  - by rewrite (proj1 (get_shape a id w)).
  - destruct (create_shape a newId now1 now2 body w)
      as [[_ ->] | [[_ ->] | (d & Hd & _ & _ & ->)]]; [done..|].
    intros o d' Hl.
    apply lookup_insert_Some in Hl as [[<- <-] | [_ Hl]]; [|by apply (Hw o)].
    by apply well_typed_insert.
  - apply (Hupd id). by eexists _, _; left.
  - apply (Hupd id). by eexists _, _; right.
  - destruct (delete_shape a id w) as [[_ Hr] | (oid & _ & -> & _)];
      [by rewrite Hr|].
    intros o d Hl. apply lookup_delete_Some in Hl as [_ Hl]. by apply (Hw o).
Qed.

(** X9.  Validation comes before the database: a call answered 400 has sent
    nothing to the collection, and the world is as it was. *)
Theorem bad_request_sends_nothing (a : api) (c : call) (w : world) :
  status (handle a c w).1 = 400 → (handle a c w).2 = w.
Proof.
  intros Hs.
  assert (Hupd : ∀ id, update_of id c → (handle a c w).2 = w).
  { intros id Hc.
    destruct (update_shape a c id w Hc)
      as [[_ Hr] | [[_ Hr] | (oid & r & _ & _ & Hu)]]; [done..|].
    unfold answers_update in Hu.
    destruct (coll w !! oid); destruct Hu as [Hres _]; rewrite Hres in Hs;
      discriminate. }
  destruct c as [id|newId now1 now2 body|now id body|now id body|id].
  - by apply get_shape.
  - destruct (create_shape a newId now1 now2 body w)
      as [[_ Hw] | [[Hs' _] | (d & _ & _ & Hres & _)]]; [done|congruence|].
    rewrite Hres in Hs. discriminate.
  - apply (Hupd id). by eexists _, _; left.
  - apply (Hupd id). by eexists _, _; right.
  - destruct (delete_shape a id w) as [[_ Hr] | (oid & _ & _ & Hst)]; [done|].
    destruct (coll w !! oid); [destruct Hst|]; congruence.
Qed.

(** X10.  A [POST] that answers 201 has added one document and touched no
    other: the identifier was free, the collection is the old one with one
    document added under it, whose [_id] is the new identifier, and the
    answer carries a document with this [_id]; in the controllers, where
    the answer is read back from the collection, it is the added document
    itself. *)
Theorem create_adds_one (a : api) (newId : ObjectId) (now1 now2 : Z)
    (body : value) (w : world) :
  status (handle a (Post newId now1 now2 body) w).1 = 201 →
  coll w !! newId = None
  ∧ (∃ d, coll (handle a (Post newId now1 now2 body) w).2 = <[newId := d]> (coll w)
          ∧ d !! js "_id" = Some (VObjectId newId)
          ∧ (a = ItemsController →
             (handle a (Post newId now1 now2 body) w).1 = Json 201 (VObj d)))
  ∧ ∃ d', (handle a (Post newId now1 now2 body) w).1 = Json 201 (found a d')
          ∧ d' !! js "_id" = Some (VObjectId newId).
Proof.
  intros Hs.
  destruct (create_shape a newId now1 now2 body w)
    as [[Hs' _] | [[Hs' _] | (d & _ & Hnew & Hres & Hcoll)]]; [congruence..|].
  split; [done|]. split.
  - eexists. split; [done|]. split; [by rewrite lookup_insert_eq|].
    by intros ->.
  - eexists. split; [done|]. by rewrite lookup_insert_eq.
Qed.

End across_calls.

Lemma update_then_read_witness :
  let id := js "507f1f77bcf86cd799439011" in
  let oid := Reference.fromHex id in
  let old : document :=
    {[ js "_id" := VObjectId oid; js "name" := VStr (js "pen");
       js "price" := VNum 1%float ]} in
  let w := World {[ oid := old ]} [] in
  let c := Patch 7 id (VObj {[ js "price" := VNum 3%float ]}) in
  let h := @handle Reference.driver Reference.conversions ItemsServer in
  (h (Get id) (h c w).2).1
  = Json 200 (Items.item_body
                (<[js "updatedAt" := VDate 7]> (<[js "price" := VNum 3%float]> old))).
Proof.
  intros id oid old w c h.
  apply (@update_then_read Reference.driver Reference.conversions ItemsServer c id w).
  - exists 7%Z, (VObj {[ js "price" := VNum 3%float ]}). right. reflexivity.
  - vm_compute. reflexivity.
Defined.

Lemma create_then_read_witness :
  let oid := Reference.fromHex (js "507f1f77bcf86cd799439011") in
  let body : value :=
    VObj {[ js "name" := VStr (js " pen "); js "price" := VNum 2%float ]} in
  let h := @handle Reference.driver Reference.conversions ProductsServer in
  status (h (Post oid 5 6 body) (World ∅ [])).1 = 201
  ∧ status (h (Get (Reference.toHex oid)) (h (Post oid 5 6 body) (World ∅ [])).2).1
    = 200.
Proof.
  intros oid body h. split; [vm_compute; reflexivity|].
  refine (proj1 (@create_then_read Reference.driver Reference.conversions
                   ProductsServer oid 5%Z 6%Z body (World ∅ []) _ _)).
  - split; vm_compute; reflexivity.
  - vm_compute. reflexivity.
Defined.


Lemma refusal_never_writes_witness :
  let id := js "507f1f77bcf86cd799439011" in
  let other := Reference.fromHex (js "507f1f77bcf86cd799439012") in
  let w := World {[ other := {[ js "name" := VStr (js "pen") ]} ]} [] in
  let c := Put 7 id (VObj {[ js "name" := VStr (js "ink") ]}) in
  let h := @handle Reference.driver Reference.conversions ItemsServer in
  status (h c w).1 = 404 ∧ coll (h c w).2 = coll w.
Proof.
  intros id other w c h. split; [vm_compute; reflexivity|].
  apply (@refusal_never_writes Reference.driver Reference.conversions
           ItemsServer c w).
  right. vm_compute. reflexivity.
Defined.

Lemma field_rules_invariant_witness :
  let id := js "507f1f77bcf86cd799439011" in
  let oid := Reference.fromHex id in
  let w := World {[ oid := {[ js "name" := VStr (js "pen") ]} ]} [] in
  let c := Patch 7 id (VObj {[ js "name" := VStr (js " ink ");
                               js "quantity" := VNum 4%float ]}) in
  let h := @handle Reference.driver Reference.conversions ItemsController in
  status (h c w).1 = 200 ∧ keeps_field_rules (h c w).2 = true.
Proof.
  intros id oid w c h. split; [vm_compute; reflexivity|].
  apply (@field_rules_invariant Reference.driver Reference.conversions
           ItemsController c w); vm_compute; reflexivity.
Defined.

Lemma bad_request_sends_nothing_witness :
  let w := World ∅ [] in
  let c := Post [] 1 2 (VObj {[ js "price" := VNum 2%float ]}) in
  let h := @handle Reference.driver Reference.conversions ProductsServer in
  status (h c w).1 = 400 ∧ (h c w).2 = w.
Proof.
  intros w c h. split; [vm_compute; reflexivity|].
  apply (@bad_request_sends_nothing Reference.driver Reference.conversions
           ProductsServer c w).
  vm_compute. reflexivity.
Defined.

Lemma create_adds_one_witness :
  let oid := Reference.fromHex (js "507f1f77bcf86cd799439011") in
  let body : value := VObj {[ js "name" := VStr (js "pen") ]} in
  let h := @handle Reference.driver Reference.conversions ItemsController in
  ∃ d, coll (h (Post oid 5 6 body) (World ∅ [])).2 = <[oid := d]> ∅
       ∧ d !! js "_id" = Some (VObjectId oid)
       ∧ (h (Post oid 5 6 body) (World ∅ [])).1 = Json 201 (VObj d).
Proof.
  intros oid body h.
  assert (Hs : status (h (Post oid 5 6 body) (World ∅ [])).1 = 201)
    by (vm_compute; reflexivity).
  destruct (proj1 (proj2 (@create_adds_one Reference.driver Reference.conversions
                            ItemsController oid 5%Z 6%Z body (World ∅ []) Hs)))
    as (d & Hcoll & Hid & Hanswer).
  exists d. split; [exact Hcoll|]. split; [exact Hid|]. exact (Hanswer eq_refl).
Defined.

(** ** The validators against each other *)
Section validators.
Context `{!Driver} `{!Conversions}.

Lemma pick_Some body data :
  Items.pickAllowedFields body = Some data → is_nullish body = false.
Proof. unfold Items.pickAllowedFields. by destruct (is_nullish body). Qed.

Lemma pick_None body :
  Items.pickAllowedFields body = None → is_nullish body = true.
Proof. unfold Items.pickAllowedFields. by destruct (is_nullish body). Qed.

Lemma normalizeItem_modes body :
  get body (js "name") ≠ VUndefined →
  Items.normalizeItem body true = Items.normalizeItem body false.
Proof.
  intros Hn. unfold Items.normalizeItem.
  destruct (Items.pickAllowedFields body) as [data|] eqn:Hdata; [|done]. steps.
  rewrite !(pick_get _ _ _ Hdata) by set_solver.
  apply is_undefined_false in Hn. by rewrite Hn.
Qed.

(** X11.  The [PUT] of [src/server.js] and [normalizeItem] of
    [src/unnamed/part_002] in its partial mode are one validation: on
    every body they accept, refuse with the same message or throw alike,
    and they build the same update.  The full mode differs from the
    partial one only on a body without a name, which it refuses. *)
Theorem one_validation (body : value) :
  Products.put_update body = Items.normalizeItem body false
  ∧ (get body (js "name") ≠ VUndefined →
     Items.normalizeItem body true = Items.normalizeItem body false)
  ∧ (is_nullish body = false → get body (js "name") = VUndefined →
     Items.normalizeItem body true
     = Reject (js "PUT requires full item: name is required")).
Proof.
  split; [|split; [apply normalizeItem_modes|]];
    unfold Products.put_update, Items.normalizeItem;
    destruct (Items.pickAllowedFields body) as [data|] eqn:Hdata.
  - rewrite (pick_Some body data Hdata). steps.
    by rewrite !(pick_get _ _ _ Hdata) by set_solver.
  - by rewrite (pick_None body Hdata).
  - intros _ Hn. steps. rewrite !(pick_get _ _ _ Hdata) by set_solver.
    by rewrite Hn.
  - intros Hnull. apply pick_None in Hdata. congruence.
Qed.

Lemma find_unknown_None (keys : list jsstring) :
  (∀ k, k ∈ keys → k ∈ Controllers.allowed) →
  List.find (λ k, negb (bool_decide (k ∈ Controllers.allowed))) keys = None.
Proof.
  intros Hall.
  destruct (List.find _ keys) as [k|] eqn:Hfind; [|done].
  apply List.find_some in Hfind as [Hin Hk]. apply list_elem_of_In, Hall in Hin.
  by rewrite (bool_decide_eq_true_2 _ Hin) in Hk.
Qed.

Lemma partial_is_full (body : value) :
  Controllers.validateItemPartial body = None →
  get body (js "name") ≠ VUndefined →
  Controllers.validateItemFull body = None.
Proof.
  intros Hv Hname.
  apply validateItemPartial_None in Hv as (m & -> & _ & Hn & Hde & Hq).
  destruct Hn as [Hn | (s & Hn & Hs)]; [done|].
  unfold Controllers.validateItemFull.
  cbn [truthy has_type typeof jstype_eqb negb orb]. rewrite Hn.
  rewrite (proj2 (name_rule (VStr s))) by eauto.
  rewrite (proj2 (optional_field _ TString)), (proj2 (optional_field _ TNumber));
    [done| |].
  - destruct Hq as [Hq | Hq]; [by left | right; by apply has_type_TNumber].
  - destruct Hde as [Hd | Hd]; [by left | right; by apply has_type_TString].
Qed.

(** X12.  [validateItemFull] and [validateItemPartial] agree wherever both
    apply: a body that passes the full check and has no field besides
    [name], [description] and [quantity] passes the partial one, and a body
    that passes the partial check and has a name passes the full one. *)
Theorem validators_agree (body : value) :
  (Controllers.validateItemFull body = None →
   (∀ k, k ∈ Object_keys body → k ∈ Controllers.allowed) →
   Controllers.validateItemPartial body = None)
  ∧ (Controllers.validateItemPartial body = None →
     get body (js "name") ≠ VUndefined →
     Controllers.validateItemFull body = None).
Proof.
  split; [|apply partial_is_full].
  intros Hv Hall.
  apply validateItemFull_None in Hv as ((s & Hn & Hs) & Hde & Hq).
  destruct (get_defined_VObj body (js "name")) as [m ->]; [by rewrite Hn|].
  unfold Controllers.validateItemPartial.
  cbn [truthy has_type typeof jstype_eqb negb orb].
  assert (Hkeys : Object_keys (VObj m) ≠ []).
  { intros Hnil. assert (Hin : js "name" ∈ Object_keys (VObj m)).
    { apply Object_keys_VObj, elem_of_dom. cbn [get] in Hn.
      destruct (m !! js "name"); [done | discriminate]. }
    rewrite Hnil in Hin. by apply not_elem_of_nil in Hin. }
  destruct (Object_keys (VObj m)) as [|k0 keys] eqn:Hk; [done|].
  cbn [length Nat.eqb]. rewrite (find_unknown_None _ Hall).
  rewrite Hn. cbn [is_undefined has_type typeof jstype_eqb negb andb orb].
  rewrite (proj2 (blank_VStr s) Hs).
  rewrite (proj2 (optional_field _ TString)), (proj2 (optional_field _ TNumber));
    [done| |].
  - destruct Hq as [Hq | Hq]; [by left | right; by apply has_type_TNumber].
  - destruct Hde as [Hd | Hd]; [by left | right; by apply has_type_TString].
Qed.

Lemma normalizeItem_full_accepts body s :
  get body (js "name") = VStr s → trim s ≠ [] →
  (get body (js "price") = VUndefined
   ∨ ∃ p, Number (get body (js "price")) = Some p ∧ nan_or_negative p = false) →
  (get body (js "category") = VUndefined
   ∨ ∃ c, get body (js "category") = VStr c) →
  ∃ u, Items.normalizeItem body true = Continue u.
Proof.
  intros Hn Hs Hp Hc.
  destruct (get_defined_VObj body (js "name")) as [m ->]; [by rewrite Hn|].
  unfold Items.normalizeItem.
  destruct (pick_nullish (VObj m) eq_refl) as [data Hdata]. rewrite Hdata. steps.
  rewrite !(pick_get _ _ _ Hdata) by set_solver.
  rewrite Hn. steps. rewrite (proj2 (blank_VStr s) Hs). steps.
  assert (Hprice : ∀ u0 : document, ∃ u1,
    (if negb (is_undefined (get (VObj m) (js "price")))
     then p ← or_throw (Number (get (VObj m) (js "price")));
          if nan_or_negative p
          then Reject (js "price must be a non-negative number")
          else Continue (<[js "price" := VNum p]> u0)
     else Continue u0) = Continue u1).
  { intros u0. destruct Hp as [-> | (p & Hp & Hneg)]; [by eexists|].
    destruct (is_undefined (get (VObj m) (js "price"))); [by eexists|].
    cbn [negb]. rewrite Hp. steps. rewrite Hneg. by eexists. }
  destruct (Hprice (<[js "name" := VStr (trim s)]> ∅)) as [u1 ->]. steps.
  destruct Hc as [-> | (c & ->)]; steps; by eexists.
Qed.

Lemma validateItemForCreate_accepts body s :
  get body (js "name") = VStr s → trim s ≠ [] →
  (get body (js "price") = VUndefined
   ∨ ∃ p, Number (get body (js "price")) = Some p ∧ nan_or_negative p = false) →
  (get body (js "category") = VUndefined
   ∨ ∃ c, get body (js "category") = VStr c) →
  Items.validateItemForCreate body = Some [].
Proof.
  intros Hn Hs Hp Hc.
  destruct (get_defined_VObj body (js "name")) as [m ->]; [by rewrite Hn|].
  unfold Items.validateItemForCreate.
  cbn [truthy has_type typeof jstype_eqb negb orb]. rewrite Hn.
  rewrite (nonblank_truthy s Hs), (proj2 (blank_VStr s) Hs).
  cbn [has_type typeof jstype_eqb negb andb].
  assert (Hprice :
    (if negb (is_undefined (get (VObj m) (js "price")))
     then p ← Number (get (VObj m) (js "price"));
          Some (if nan_or_negative p
                then [] ++ [js "price must be a non-negative number"] else [])
     else Some []) = Some []).
  { destruct Hp as [-> | (p & Hp & Hneg)]; [done|].
    destruct (is_undefined (get (VObj m) (js "price"))); [done|].
    cbn [negb]. rewrite Hp. steps. by rewrite Hneg. }
  rewrite Hprice. steps.
  by destruct Hc as [-> | (c & ->)].
Qed.

(** X13.  [POST /api/items] and [PUT /api/items/:id] of [src/unnamed/part_002]
    accept the same bodies, though one checks with [validateItemForCreate]
    and the other with [normalizeItem], and a new item gets the fields a
    replacement would set, with the time of creation besides.  So does a
    new item of [createItem], against the replacement of [putItem]. *)
Theorem create_and_replace_agree (body : value) (now : Z) :
  (Items.validateItemForCreate body = Some []
   ↔ ∃ u, Items.normalizeItem body true = Continue u)
  ∧ (∀ u, Items.normalizeItem body true = Continue u →
          Items.doc now body
          = Some (<[js "createdAt" := VDate now]> (Items.fullDoc now u)))
  ∧ ∀ now2, Controllers.doc now now2 body
            = (λ r, <[js "createdAt" := VDate now]> r)
                <$> Controllers.replacement now2 body.
Proof.
  split; [split|split];
    [| | |intros now2; unfold Controllers.doc, Controllers.replacement;
          destruct (trim_method (get body (js "name"))); [|done];
          cbn [mbind option_bind fmap option_fmap option_map];
          by rewrite !(insert_insert_ne _ (js "createdAt")) by discriminate].
  - intros Hv. apply validateItemForCreate_nil in Hv as ((s & Hn & Hs) & Hp & Hc).
    by apply (normalizeItem_full_accepts body s).
  - intros [u Hu]. apply normalizeItem_Continue in Hu as (Hn & Hp & Hc & _).
    destruct Hn as [(_ & [=] & _) | (s & Hn & Hs & _)].
    apply (validateItemForCreate_accepts body s Hn Hs).
    + destruct Hp as [[Hp _] | (p & _ & Hp & Hneg & _)]; [by left | right; eauto].
    + destruct Hc as [[Hc _] | (c & Hc & _)]; [by left | right; eauto].
  - intros u Hu. apply normalizeItem_Continue in Hu as (Hn & Hp & Hc & _).
    destruct Hn as [(_ & [=] & _) | (s & Hn & Hs & Hun)].
    unfold Items.doc, Items.fullDoc. cbn [get]. rewrite Hn, Hun.
    cbn [trim_method mbind option_bind].
    rewrite !(insert_insert_ne _ (js "createdAt")) by discriminate.
    destruct Hp as [[Hp ->] | (p & Hdef & Hp & _ & ->)];
      destruct Hc as [[Hc ->] | (c & Hc & ->)].
    + rewrite Hp, Hc. reflexivity.
    + rewrite Hp, Hc. reflexivity.
    + apply is_undefined_false in Hdef. rewrite Hdef, Hc. cbn [negb].
      rewrite Hp. reflexivity.
    + apply is_undefined_false in Hdef. rewrite Hdef, Hc. cbn [negb].
      rewrite Hp. reflexivity.
Qed.

End validators.

(** ** Comparing numbers *)

Lemma SFcompare_antisym (a b : spec_float) :
  SFcompare b a = option_map CompOpp (SFcompare a b).
Proof.
  destruct a as [s1|s1| |s1 m1 e1], b as [s2|s2| |s2 m2 e2]; cbn;
    try reflexivity; try (by destruct s1); try (by destruct s2);
    try (by destruct s1, s2).
  destruct s1, s2; cbn; try reflexivity;
    rewrite (Z.compare_antisym e1 e2); destruct (e1 ?= e2)%Z; cbn;
    try reflexivity.
  - by rewrite (Pos.compare_cont_antisym m1 m2 Eq).
  - by rewrite (Pos.compare_cont_antisym m1 m2 Eq).
Qed.

Lemma SFcompare_defined (a b : spec_float) :
  SFcompare a a = Some Eq → SFcompare b b = Some Eq →
  ∃ c, SFcompare a b = Some c.
Proof. destruct a, b; cbn; intros; try discriminate; eauto. Qed.

Lemma is_nan_compare (x : float) :
  PrimFloat.is_nan x = false ↔ SFcompare (Prim2SF x) (Prim2SF x) = Some Eq.
Proof.
  unfold PrimFloat.is_nan. rewrite negb_false_iff, FloatAxioms.eqb_spec. unfold SFeqb.
  destruct (Prim2SF x) as [s|s| |s m e]; cbn; try done.
  - by destruct s.
  - destruct s; cbn; rewrite Z.compare_refl, Pos.compare_cont_refl; done.
Qed.

Lemma ltb_leb (x y : float) :
  PrimFloat.ltb x y = true → PrimFloat.leb x y = true.
Proof.
  rewrite FloatAxioms.ltb_spec, FloatAxioms.leb_spec. unfold SFltb, SFleb.
  by destruct (SFcompare (Prim2SF x) (Prim2SF y)) as [[]|].
Qed.

Lemma leb_refl (x : float) : PrimFloat.is_nan x = false → PrimFloat.leb x x = true.
Proof.
  intros Hx. apply is_nan_compare in Hx. rewrite FloatAxioms.leb_spec. unfold SFleb.
  by rewrite Hx.
Qed.

Lemma not_ltb_leb (x y : float) :
  PrimFloat.is_nan x = false → PrimFloat.is_nan y = false →
  PrimFloat.ltb y x = false → PrimFloat.leb x y = true.
Proof.
  intros Hx Hy. apply is_nan_compare in Hx, Hy.
  rewrite FloatAxioms.ltb_spec, FloatAxioms.leb_spec. unfold SFltb, SFleb.
  destruct (SFcompare_defined _ _ Hx Hy) as [c Hc].
  rewrite (SFcompare_antisym (Prim2SF x) (Prim2SF y)), Hc. by destruct c.
Qed.

Lemma Math_min_le (x y : float) :
  PrimFloat.is_nan x = false → PrimFloat.is_nan y = false →
  PrimFloat.is_nan (Math_min x y) = false
  ∧ PrimFloat.leb (Math_min x y) y = true.
Proof.
  intros Hx Hy. unfold Math_min. rewrite Hx, Hy. cbn [orb].
  destruct (PrimFloat.ltb x y) eqn:Hlt; [by split; [|apply ltb_leb]|].
  destruct (PrimFloat.ltb y x) eqn:Hgt; [by split; [|apply leb_refl]|].
  destruct (PrimFloat.get_sign x); [|by split; [|apply leb_refl]].
  split; [done|]. by apply not_ltb_leb.
Qed.

Lemma truthy_not_nan (n : float) :
  truthy (VNum n) = true → PrimFloat.is_nan n = false.
Proof.
  cbn [truthy]. rewrite negb_true_iff, orb_false_iff. by intros [_ ?].
Qed.

(** ** The list routes *)
Section list_routes.
Context `{!Driver} `{!Conversions}.

Lemma lim_le (limit : value) (l : float) :
  Items.lim limit = Some l →
  PrimFloat.is_nan l = false ∧ PrimFloat.leb l 200 = true.
Proof.
  unfold Items.lim.
  destruct (Number (if is_undefined limit then VNum 50 else limit)) as [n|];
    [|done].
  cbn [mbind option_bind]. intros [= <-].
  apply Math_min_le; [|reflexivity].
  change (negb (PrimFloat.is_zero n || PrimFloat.is_nan n)) with (truthy (VNum n)).
  destruct (truthy (VNum n)) eqn:Hn; [|reflexivity].
  exact (truthy_not_nan n Hn).
Qed.

(** X14.  The limit [GET /api/items] hands to the driver is never [NaN] and never
    above 200.  It is 50 when the query has none, and when the one it has
    converts to [NaN] or to zero; a number below 200 that is not zero goes
    to the driver as it is, a negative one too. *)
Theorem limit_capped (limit : value) :
  Items.lim VUndefined = Some 50%float
  ∧ (∀ l, Items.lim limit = Some l →
          PrimFloat.is_nan l = false ∧ PrimFloat.leb l 200 = true)
  ∧ (∀ n, is_undefined limit = false → Number limit = Some n →
          truthy (VNum n) = false → Items.lim limit = Some 50%float)
  ∧ (∀ n, is_undefined limit = false → Number limit = Some n →
          truthy (VNum n) = true → PrimFloat.ltb n 200 = true →
          Items.lim limit = Some n).
Proof.
  split; [reflexivity|]. split; [apply lim_le|]. split.
  - intros n Hdef Hn Ht. unfold Items.lim. rewrite Hdef, Hn.
    cbn [mbind option_bind]. rewrite Ht. reflexivity.
  - intros n Hdef Hn Ht Hlt. unfold Items.lim. rewrite Hdef, Hn.
    cbn [mbind option_bind]. rewrite Ht. unfold Math_min.
    rewrite (truthy_not_nan n Ht), Hlt. reflexivity.
Qed.

Lemma min_price_step (query : value) (filter0 filter : document) :
  (if negb (is_undefined (get query (js "minPrice"))) then
     mp ← or_throw (Number (get query (js "minPrice")));
     if PrimFloat.is_nan mp then Reject (js "minPrice must be a number")
     else Continue (<[js "price" := VObj {[ js "$gte" := VNum mp ]}]> filter0)
   else Continue filter0) = Continue filter →
  (is_undefined (get query (js "minPrice")) = true ∧ filter = filter0)
  ∨ ∃ x, is_undefined (get query (js "minPrice")) = false
         ∧ Number (get query (js "minPrice")) = Some x
         ∧ PrimFloat.is_nan x = false
         ∧ filter = <[js "price" := VObj {[ js "$gte" := VNum x ]}]> filter0.
Proof.
  destruct (is_undefined (get query (js "minPrice"))); cbn [negb].
  - intros [= <-]. by left.
  - destruct (Number (get query (js "minPrice"))) as [x|]; [|done]. steps.
    destruct (PrimFloat.is_nan x) eqn:Hx; [done|]. intros [= <-].
    right. by exists x.
Qed.

Lemma filter_shape (query : value) (filter : document) :
  (if negb (is_undefined (get query (js "minPrice"))) then
     mp ← or_throw (Number (get query (js "minPrice")));
     if PrimFloat.is_nan mp then Reject (js "minPrice must be a number")
     else Continue (<[js "price" := VObj {[ js "$gte" := VNum mp ]}]>
                      (if truthy (get query (js "category"))
                       then <[js "category" := get query (js "category")]> ∅
                       else ∅))
   else Continue (if truthy (get query (js "category"))
                  then <[js "category" := get query (js "category")]> ∅
                  else ∅)) = Continue filter →
  filter !! js "category"
  = (if truthy (get query (js "category"))
     then Some (get query (js "category")) else None)
  ∧ (is_undefined (get query (js "minPrice")) = true ∧ filter !! js "price" = None
     ∨ ∃ x, is_undefined (get query (js "minPrice")) = false
            ∧ Number (get query (js "minPrice")) = Some x
            ∧ PrimFloat.is_nan x = false
            ∧ filter !! js "price" = Some (VObj {[ js "$gte" := VNum x ]}))
  ∧ ∀ k, k ≠ js "category" → k ≠ js "price" → filter !! k = None.
Proof.
  intros Hf.
  apply min_price_step in Hf as [[Hu ->] | (x & Hu & Hx & Hnan & ->)].
  - destruct (truthy (get query (js "category"))); lookups.
    + split; [done|]. split; [by left|]. intros k Hc Hp.
      by rewrite lookup_insert_ne.
    + split; [done|]. split; [by left|]. done.
  - destruct (truthy (get query (js "category"))); lookups.
    + split; [done|]. split; [right; by exists x|]. intros k Hc Hp.
      by rewrite !lookup_insert_ne.
    + split; [done|]. split; [right; by exists x|]. intros k Hc Hp.
      by rewrite lookup_insert_ne.
Qed.

(** X15.  The filter of the two list routes.  Whatever the query, it has no key
    besides [category] and [price]; [category] is the query's own value,
    of any type, when that is truthy; [price] is [{ $gte: x }] for the
    number [x] that [minPrice] converts to, which is never [NaN]: a
    [minPrice] that converts to [NaN] is answered 400 by both.  The list of
    [src/unnamed/part_002] always sorts and always has a limit, never
    [NaN] and never above 200; the list of [src/server.js] never has a
    limit. *)
Theorem list_filter (query : value) :
  (∀ c, Products.list_cursor query = Continue c
        ∨ Items.list_cursor query = Continue c →
     cursor_filter c !! js "category"
     = (if truthy (get query (js "category"))
        then Some (get query (js "category")) else None)
     ∧ (is_undefined (get query (js "minPrice")) = true
        ∧ cursor_filter c !! js "price" = None
        ∨ ∃ x, is_undefined (get query (js "minPrice")) = false
               ∧ Number (get query (js "minPrice")) = Some x
               ∧ PrimFloat.is_nan x = false
               ∧ cursor_filter c !! js "price"
                 = Some (VObj {[ js "$gte" := VNum x ]}))
     ∧ ∀ k, k ≠ js "category" → k ≠ js "price" → cursor_filter c !! k = None)
  ∧ (∀ x, is_nullish query = false →
          is_undefined (get query (js "minPrice")) = false →
          Number (get query (js "minPrice")) = Some x →
          PrimFloat.is_nan x = true →
          Products.list_cursor query = Reject (js "minPrice must be a number")
          ∧ Items.list_cursor query = Reject (js "minPrice must be a number"))
  ∧ (∀ c, Items.list_cursor query = Continue c →
          is_Some (cursor_sort c)
          ∧ ∃ l, cursor_limit c = Some l
                 ∧ PrimFloat.is_nan l = false ∧ PrimFloat.leb l 200 = true)
  ∧ (∀ c, Products.list_cursor query = Continue c → cursor_limit c = None).
Proof.
  split; [|split; [|split]].
  - intros c [Hc | Hc].
    + unfold Products.list_cursor in Hc.
      destruct (is_nullish query); [done|].
      destruct (if negb (is_undefined (get query (js "minPrice"))) then _ else _)
        as [filter| |] eqn:Hf; [|done..].
      steps. destruct (Products.projection_of _) as [p| |]; [|done..].
      cbn [mbind step_bind] in Hc. injection Hc as <-. cbn [cursor_filter].
      by apply filter_shape.
    + unfold Items.list_cursor in Hc.
      destruct (is_nullish query); [done|].
      destruct (if negb (is_undefined (get query (js "minPrice"))) then _ else _)
        as [filter| |] eqn:Hf; [|done..].
      steps. destruct (Items.lim _) as [l|]; [|done].
      cbn [mbind step_bind or_throw] in Hc. injection Hc as <-.
      cbn [cursor_filter]. by apply filter_shape.
  - intros x Hq Hu Hx Hnan. unfold Products.list_cursor, Items.list_cursor.
    rewrite Hq, Hu, Hx. steps. rewrite Hnan. done.
  - intros c Hc. unfold Items.list_cursor in Hc.
    destruct (is_nullish query); [done|].
    destruct (if negb (is_undefined (get query (js "minPrice"))) then _ else _)
      as [filter| |]; [|done..].
    steps. destruct (Items.lim _) as [l|] eqn:Hl; [|done].
    cbn [mbind step_bind or_throw] in Hc. injection Hc as <-.
    cbn [cursor_sort cursor_limit]. split; [done|]. exists l. split; [done|].
    by apply (lim_le (get query (js "limit"))).
  - intros c Hc. unfold Products.list_cursor in Hc.
    destruct (is_nullish query); [done|].
    destruct (if negb (is_undefined (get query (js "minPrice"))) then _ else _)
      as [filter| |]; [|done..].
    steps. destruct (Products.projection_of _) as [p| |]; [|done..].
    cbn [mbind step_bind] in Hc. by injection Hc as <-.
Qed.

Lemma foldl_assign (names : list jsstring) (p0 : document) (k : jsstring) :
  foldl (λ projection f, assign projection f (VNum 1)) p0 names !! k
  = if bool_decide (k ∈ names ∧ k ≠ js "__proto__") then Some (VNum 1)
    else p0 !! k.
Proof.
  revert p0. induction names as [|n names IH]; intros p0; cbn [foldl].
  - rewrite bool_decide_eq_false_2; [done|]. intros [Hin _]. by inversion Hin.
  - rewrite IH. unfold assign.
    destruct (decide (k ∈ names ∧ k ≠ js "__proto__")) as [[Hin Hk] | Hno].
    + rewrite !bool_decide_eq_true_2; [done| |done]. split; [by right | done].
    + rewrite (bool_decide_eq_false_2 _ Hno).
      destruct (decide (n = js "__proto__")) as [-> | Hn].
      * rewrite (bool_decide_eq_true_2 (js "__proto__" = js "__proto__")) by done.
        rewrite bool_decide_eq_false_2; [done|].
        intros [Hin Hk]. apply elem_of_cons in Hin as [-> | Hin]; [done|].
        by apply Hno.
      * rewrite (bool_decide_eq_false_2 (n = js "__proto__")) by done.
        destruct (decide (k = n)) as [-> | Hkn].
        -- rewrite lookup_insert_eq, bool_decide_eq_true_2; [done|].
           split; [by left | done].
        -- rewrite lookup_insert_ne by done.
           rewrite bool_decide_eq_false_2; [done|].
           intros [Hin Hk]. apply elem_of_cons in Hin as [-> | Hin]; [done|].
           by apply Hno.
Qed.

Lemma field_names (s k : jsstring) :
  k ∈ List.filter (λ f, truthy (VStr f)) (List.map trim (split_on 44 s))
  ↔ k ≠ [] ∧ k ∈ List.map trim (split_on 44 s).
Proof.
  rewrite !list_elem_of_In, List.filter_In, truthy_VStr. tauto.
Qed.

Lemma trimmed_piece (pieces : list jsstring) (k : jsstring) :
  k ≠ [] → k ∈ List.map trim pieces → trimmed k.
Proof.
  intros Hk Hin. apply list_elem_of_In, List.in_map_iff in Hin as (piece & <- & _).
  by apply trimmed_trim.
Qed.

(** X16.  The projection of [GET /api/products].  Without [fields] there is
    none; a [fields] that is not a string throws.  Otherwise it has an
    entry 1 for every piece between commas that is not empty once trimmed
    (and is not [__proto__]), under the trimmed name, and no other entry
    but [_id], which is 0 unless [_id] is one of the names: no field
    besides [_id] is ever excluded. *)
Theorem projection_fields (fields : value) :
  (truthy fields = false → Products.projection_of fields = Continue None)
  ∧ (truthy fields = true → (∀ s, fields ≠ VStr s) →
     Products.projection_of fields = Throw)
  ∧ ∀ s, fields = VStr s → s ≠ [] →
      ∃ p, Products.projection_of fields = Continue (Some p)
        ∧ (∀ k, k ≠ js "_id" →
             p !! k
             = if bool_decide (k ≠ [] ∧ k ≠ js "__proto__"
                               ∧ k ∈ List.map trim (split_on 44 s))
               then Some (VNum 1) else None)
        ∧ p !! js "_id"
          = Some (VNum (if bool_decide (js "_id" ∈ List.map trim (split_on 44 s))
                        then 1 else 0))
        ∧ ∀ k, k ∈ dom p → k = js "_id" ∨ trimmed k.
Proof.
  split; [|split].
  - intros Hf. unfold Products.projection_of. by rewrite Hf.
  - intros Hf Hs. unfold Products.projection_of. rewrite Hf.
    destruct fields; try done. by destruct (Hs s).
  - intros s -> Hs. unfold Products.projection_of.
    rewrite (proj2 (truthy_VStr s) Hs). steps. eexists. split; [reflexivity|].
    set (names := List.filter _ _).
    assert (Hnames : ∀ k, k ∈ names ↔ k ≠ [] ∧ k ∈ List.map trim (split_on 44 s))
      by apply field_names.
    assert (Hid : get (VObj (foldl (λ projection f, assign projection f (VNum 1))
                               ∅ names)) (js "_id")
                  = if bool_decide (js "_id" ∈ names) then VNum 1 else VUndefined).
    { cbn [get]. rewrite foldl_assign, lookup_empty.
      destruct (decide (js "_id" ∈ names)) as [Hin | Hin].
      - rewrite !bool_decide_eq_true_2; done.
      - rewrite !bool_decide_eq_false_2; [done..|]. by intros [? _]. }
    rewrite Hid.
    assert (Hlook : ∀ k, k ≠ js "_id" →
      (if negb (truthy (if bool_decide (js "_id" ∈ names)
                        then VNum 1 else VUndefined))
       then <[js "_id" := VNum 0]>
              (foldl (λ projection f, assign projection f (VNum 1)) ∅ names)
       else foldl (λ projection f, assign projection f (VNum 1)) ∅ names) !! k
      = if bool_decide (k ∈ names ∧ k ≠ js "__proto__")
        then Some (VNum 1) else None).
    { intros k Hk. destruct (bool_decide (js "_id" ∈ names)).
      - change (negb (truthy (VNum 1))) with false. cbn iota.
        by rewrite foldl_assign, lookup_empty.
      - cbn [truthy negb]. rewrite lookup_insert_ne by done.
        by rewrite foldl_assign, lookup_empty. }
    split; [|split].
    + intros k Hk. rewrite (Hlook k Hk).
      rewrite (bool_decide_ext (k ∈ names ∧ k ≠ js "__proto__")
                 (k ≠ [] ∧ k ≠ js "__proto__"
                  ∧ k ∈ List.map trim (split_on 44 s))); [done|].
      rewrite Hnames. tauto.
    + destruct (decide (js "_id" ∈ names)) as [Hin | Hin].
      * rewrite (bool_decide_eq_true_2 _ Hin).
        change (negb (truthy (VNum 1))) with false. cbn iota.
        rewrite foldl_assign, bool_decide_eq_true_2 by done.
        rewrite bool_decide_eq_true_2; [done|]. by apply Hnames in Hin as [_ ?].
      * rewrite (bool_decide_eq_false_2 _ Hin). cbn [truthy negb].
        rewrite lookup_insert_eq, bool_decide_eq_false_2; [done|].
        intros Hp. apply Hin, Hnames. by split.
    + intros k Hin. destruct (decide (k = js "_id")) as [-> | Hk]; [by left|].
      right. apply elem_of_dom in Hin as [v Hv]. rewrite (Hlook k Hk) in Hv.
      destruct (decide (k ∈ names ∧ k ≠ js "__proto__")) as [[Hn _] | Hno];
        [|by rewrite (bool_decide_eq_false_2 _ Hno) in Hv].
      apply Hnames in Hn as [Hne Hn]. by apply (trimmed_piece (split_on 44 s)).
Qed.

End list_routes.

(** ** A [PATCH] of every field *)
Section complete_patch.
Context `{!Driver} `{!Conversions}.

Lemma fullDoc_complete (now : Z) (u : document) (vn : value) (p : float)
    (c : jsstring) :
  u !! js "name" = Some vn → u !! js "price" = Some (VNum p) →
  u !! js "category" = Some (VStr c) →
  dom u ⊆ {[ js "name"; js "price"; js "category" ]} →
  Items.fullDoc now u = <[js "updatedAt" := VDate now]> u.
Proof.
  intros Hn Hp Hc Hdom. unfold Items.fullDoc. cbn [get]. rewrite Hn, Hp, Hc.
  cbn [is_undefined negb]. apply map_eq. intros k.
  destruct (decide (k = js "name")) as [-> | Hkn]; [by lookups|].
  destruct (decide (k = js "price")) as [-> | Hkp]; [by lookups|].
  destruct (decide (k = js "category")) as [-> | Hkc]; [by lookups|].
  destruct (decide (k = js "updatedAt")) as [-> | Hku]; [by lookups|].
  rewrite !lookup_insert_ne, lookup_singleton_ne by done. symmetry.
  apply not_elem_of_dom. intros Hin.
  apply Hdom, three_keys in Hin as [-> | [-> | ->]]; done.
Qed.

Lemma patchDoc_complete (now : Z) (m : document) (s c : jsstring) (x : float) :
  m !! js "name" = Some (VStr s) → m !! js "description" = Some (VStr c) →
  m !! js "quantity" = Some (VNum x) →
  dom m ⊆ {[ js "name"; js "description"; js "quantity" ]} →
  <[js "name" := VStr (trim s)]> (<[js "updatedAt" := VDate now]> m)
  = {[ js "name" := VStr (trim s); js "description" := VStr c;
       js "quantity" := VNum x; js "updatedAt" := VDate now ]}.
Proof.
  intros Hn Hd Hq Hdom. apply map_eq. intros k.
  destruct (decide (k = js "name")) as [-> | Hkn]; [by lookups|].
  destruct (decide (k = js "description")) as [-> | Hkd]; [by lookups|].
  destruct (decide (k = js "quantity")) as [-> | Hkq]; [by lookups|].
  destruct (decide (k = js "updatedAt")) as [-> | Hku]; [by lookups|].
  rewrite !lookup_insert_ne, lookup_singleton_ne by done.
  apply not_elem_of_dom. intros Hin.
  apply Hdom, three_keys in Hin as [-> | [-> | ->]]; done.
Qed.

(** X17.  A [PATCH] whose body has all three fields acts as the [PUT] of the same
    body: in [src/unnamed/part_002] whatever the body, with the same
    answer where it is refused; in the controllers on every body
    [validateItemPartial] lets through. *)
Theorem complete_patch_is_put (now : Z) (id : jsstring) (body : value)
    (w : world) :
  (get body (js "name") ≠ VUndefined →
   get body (js "price") ≠ VUndefined →
   get body (js "category") ≠ VUndefined →
   Items.patch now id body w = Items.put now id body w)
  ∧ (Controllers.validateItemPartial body = None →
     get body (js "name") ≠ VUndefined →
     get body (js "description") ≠ VUndefined →
     get body (js "quantity") ≠ VUndefined →
     Controllers.patchItem now id body w = Controllers.putItem now id body w).
Proof.
  split.
  - intros Hn Hp Hc. unfold Items.patch, Items.put.
    destruct (negb (Items.isValidId id)); [done|].
    rewrite (normalizeItem_modes body Hn).
    destruct (Items.normalizeItem body false) as [u| |] eqn:Hu; [|done..].
    apply normalizeItem_Continue in Hu as (Hun & Hup & Huc & Hdom).
    destruct Hun as [[? _] | (s & _ & _ & Hun)]; [done|].
    destruct Hup as [[? _] | (p & _ & _ & _ & Hup)]; [done|].
    destruct Huc as [[? _] | (c & _ & Huc)]; [done|].
    assert (Hkeys : js "name" ∈ Object_keys (VObj u))
      by (apply Object_keys_VObj, elem_of_dom; eauto).
    destruct (Object_keys (VObj u)) as [|k0 keys];
      [by apply not_elem_of_nil in Hkeys|].
    cbn [length Nat.eqb].
    by rewrite (fullDoc_complete now u _ p _ Hun Hup Huc Hdom).
  - intros Hv Hn Hd Hq. unfold Controllers.patchItem, Controllers.putItem.
    rewrite Hv, (partial_is_full body Hv Hn).
    destruct (patchDoc_partial body now Hv) as (m & -> & ->).
    apply validateItemPartial_None in Hv as (m' & [= <-] & Hdom & Hvn & Hvd & Hvq).
    destruct Hvn as [? | (s & Hvn & _)]; [done|].
    destruct Hvd as [? | (c & Hvd)]; [done|].
    destruct Hvq as [? | (x & Hvq)]; [done|].
    rewrite (replacement_full (VObj m) now s Hvn), Hvd, Hvq. cbn [nullish].
    cbn [get] in Hvn, Hvd, Hvq.
    destruct (m !! js "name") as [vn|] eqn:Hmn; [subst vn | discriminate].
    destruct (m !! js "description") as [vd|] eqn:Hmd; [subst vd | discriminate].
    destruct (m !! js "quantity") as [vq|] eqn:Hmq; [subst vq | discriminate].
    by rewrite (patchDoc_complete now m s c x Hmn Hmd Hmq Hdom).
Qed.

End complete_patch.
